(** * POD receipt extraction: documents, pages, usage records

    A shallow embedding of the extraction service
    (packages/api/src/services/ocr-extraction.ts), the document router
    (packages/api/src/routers/document.ts), the upload endpoint of the
    server and the tables of packages/db/src/schema.ts.

    The relational store is a record of row lists; the hosted model, the PDF
    parser, the clock and the two UUID generators are fields of an
    environment, so that every function below can be run on a concrete
    environment.  Asynchronous functions become computations over a [World]
    that may throw. *)

From Stdlib Require Import ZArith List String Ascii Bool Lia Permutation Sorted.
From Stdlib Require Import DecimalString.
Import ListNotations.
Local Open Scope string_scope.
Local Open Scope list_scope.
Local Open Scope Z_scope.

(** ** JavaScript idioms used by the sources *)

Module JS.

(** [x || 0] on a number that may be [undefined] (or [NaN]): every falsy
    value, [0] included, yields [0]. *)
Definition or0 (x : option Z) : Z :=
  match x with
  | Some v => v
  | None => 0
  end.

(** A string that may be [undefined], as a condition: [undefined] and the
    empty string are falsy, any other string is truthy and is itself. *)
Definition truthy (s : option string) : option string :=
  match s with
  | None => None
  | Some v => if (String.length v =? 0)%nat then None else Some v
  end.

(** [s || null] on an optional string. *)
Definition or_null (s : option string) : option string := truthy s.

(** A number as a caller can send it: an integer, or some number that is
    not one. *)
Inductive number : Type :=
| Integer (z : Z)
| Fraction.

End JS.

(** ** packages/db/src/schema.ts *)

Inductive DocumentExtactionStatusEnumType : Type :=
| IDEAL
| PROCESSING
| COMPLETED
| FAILED.

(** Milliseconds since the epoch, the value of [Date.now()] and of the
    [timestamp] columns. *)
Definition Millis := Z.

Module UploadDocuments.
Record row : Type := mk {
  documentId : string;
  userId : string;
  instructionNumber : string;
  documentName : string;
  fileUrl : string;
  fileSizeInBytes : Z;
  companyId : option string;
  branchId : option string;
  extractionStatus : DocumentExtactionStatusEnumType;
  extractionId : option string;
  deletedAt : option Millis;
  isDeleted : option bool;
  createdAt : Millis;
  updatedAt : Millis
}.
End UploadDocuments.

Module ExtractedPageData.
Record row : Type := mk {
  extractedPageDataId : string;
  documentId : string;
  pageNumber : Z;
  containerNumbers : list (option string);
  containerSizes : list (option string);
  fullEmptyStatuses : list (option string);
  pageDate : option string;
  instructionNumber : option string;
  vehicleNumber : option string;
  collectedFrom : option string;
  deliveredTo : option string;
  unsureFields : option (list string);
  createdAt : Millis;
  updatedAt : Millis;
  deletedAt : option Millis;
  isDeleted : option bool
}.
End ExtractedPageData.

Module DocumentTokenUsage.
Record row : Type := mk {
  tokenUsageId : string;
  documentId : string;
  requestId : string;
  inputTokens : Z;
  toolUsePromptTokens : Z;
  cachedContentTokens : Z;
  candidatesTokens : Z;
  thoughtsTokens : Z;
  outputTokens : Z;
  totalTokens : Z;
  durationMs : Z;
  createdAt : Millis;
  updatedAt : Millis
}.
End DocumentTokenUsage.

(** The tables.  [users], [companies] and [branches] are kept as the lists
    of their primary keys, which is all the foreign keys below look at.
    A table lists its rows in insertion order. *)
Record Store : Type := mkStore {
  users : list string;
  companies : list string;
  branches : list string;
  uploadDocuments : list UploadDocuments.row;
  extractedPageData : list ExtractedPageData.row;
  documentTokenUsage : list DocumentTokenUsage.row
}.

(** *** Column types *)

Module Column.

(** [smallint] and [integer] reject a value out of range. *)
Definition smallint (z : Z) : bool := (-32768 <=? z) && (z <=? 32767).
Definition integer (z : Z) : bool := (-2147483648 <=? z) && (z <=? 2147483647).

Fixpoint all_spaces (s : string) : bool :=
  match s with
  | EmptyString => true
  | String c rest => Ascii.eqb c " "%char && all_spaces rest
  end.

(** [varchar(n)]: a longer string is an error, unless the characters in
    excess are all spaces, in which case the value is cut to [n]. *)
Definition varchar (n : nat) (s : string) : option string :=
  if (String.length s <=? n)%nat then Some s
  else if all_spaces (substring n (String.length s - n) s)
       then Some (substring 0 n s)
       else None.

(** A nullable [varchar(n)] column. *)
Definition varchar_null (n : nat) (s : option string) : option (option string) :=
  match s with
  | None => Some None
  | Some v =>
      match varchar n v with
      | Some v' => Some (Some v')
      | None => None
      end
  end.

Definition mem (x : string) (l : list string) : bool :=
  existsb (String.eqb x) l.

(** A nullable foreign key. *)
Definition references_null (x : option string) (l : list string) : bool :=
  match x with
  | None => true
  | Some v => mem v l
  end.

End Column.

Definition document_ids (s : Store) : list string :=
  map UploadDocuments.documentId (uploadDocuments s).

(** [eq(extractedPageData.documentId, d)] together with the page number: the
    key of the unique index [extracted_page_data_document_page_idx]. *)
Definition page_key_is (d : string) (p : Z) (r : ExtractedPageData.row) : bool :=
  String.eqb (ExtractedPageData.documentId r) d
  && (ExtractedPageData.pageNumber r =? p).

(** ** The world outside the functions *)

Definition Buffer := list Byte.byte.

(** [z.enum(["FULL", "EMPTY"])] *)
Inductive FullEmpty : Type := FULL | EMPTY.

Definition FullEmpty_text (f : FullEmpty) : string :=
  match f with
  | FULL => "FULL"
  | EMPTY => "EMPTY"
  end.

(** What [ExtractedPODSchema] accepts; [unsureFields] already carries its
    default. *)
Module ExtractedPODSchema.
Record t : Type := mk {
  containerNumbers : list (option string);
  containerSizes : list (option string);
  fullEmptyStatuses : list (option FullEmpty);
  pageDate : option string;
  instructionNumber : option string;
  vehicleNumber : option string;
  collectedFrom : option string;
  deliveredTo : option string;
  unsureFields : list string
}.
End ExtractedPODSchema.

(** [result.usage] of the model call; a count that is [undefined] or [NaN]
    is [None]. *)
Module Usage.
Record t : Type := mk {
  promptTokens : option Z;
  completionTokens : option Z;
  totalTokens : option Z
}.
End Usage.

Inductive Error : Type :=
| JsError (message : string)
| ZodError (path : string)
| DatabaseError (constraint : string)
| ProviderError (message : string)
| PdfParseError.

(** The outcome of [generateObject]: it throws (transport error, or an
    answer that does not match the schema), or returns the validated object
    and, possibly, usage metrics. *)
Inductive ModelReply : Type :=
| ModelThrows (e : Error)
| ModelReturns (object : ExtractedPODSchema.t) (usage : option Usage.t).

Record Env : Type := mkEnv {
  (** [pdf(pdfBuffer)]: the page count, or a parse failure *)
  pdf : Buffer -> option Z;
  (** the hosted model, asked about a page of a document *)
  generateObject : Buffer -> Z -> ModelReply;
  (** wall-clock milliseconds the model call for a page takes *)
  latency : Buffer -> Z -> Z;
  (** [crypto.randomUUID()], by number of the call *)
  randomUUID : nat -> string;
  (** [gen_random_uuid()] of the store, by number of the call *)
  gen_random_uuid : nat -> string;
  (** the format checks [z.string().uuid()] and [z.string().url()] *)
  z_uuid : string -> bool;
  z_url : string -> bool
}.

(** What a write or a model call leaves in the history of a world. *)
Inductive Event : Type :=
| EvInsertDocument (documentId : string)
| EvUpdateStatus (documentId : string) (status : DocumentExtactionStatusEnumType)
| EvPdf
| EvGenerateObject (documentId : string) (pageNumber : Z)
| EvInsertPage (documentId : string) (pageNumber : Z)
| EvInsertUsage (documentId : string) (requestId : string).

(** A call of an async function whose promise nobody awaits. *)
Inductive Task : Type :=
| TaskExtract (documentId : string) (pdfBuffer : Buffer).

Record World : Type := mkWorld {
  db_store : Store;
  clock : Millis;
  uuids : nat;
  db_uuids : nat;
  (** every completed operation with the store as it was right after it,
      oldest first: what a reader polling the store can have seen *)
  history : list (Event * Store);
  (** promises started and not awaited *)
  pending : list Task
}.

(** ** Computations that may throw *)

Inductive Result (A : Type) : Type :=
| Ok (a : A)
| Throw (e : Error).
Arguments Ok {A} a.
Arguments Throw {A} e.

Definition M (A : Type) : Type := World -> Result A * World.

Definition ret {A} (a : A) : M A := fun w => (Ok a, w).
Definition throw {A} (e : Error) : M A := fun w => (Throw e, w).

Definition bind {A B} (m : M A) (k : A -> M B) : M B :=
  fun w =>
    match m w with
    | (Ok a, w') => k a w'
    | (Throw e, w') => (Throw e, w')
    end.

(** [try { m } catch (e) { h e }] *)
Definition try_catch {A} (m : M A) (h : Error -> M A) : M A :=
  fun w =>
    match m w with
    | (Ok a, w') => (Ok a, w')
    | (Throw e, w') => h e w'
    end.

Declare Scope js_scope.
Delimit Scope js_scope with js.
Notation "x <- m ;; k" := (bind m (fun x => k))
  (at level 61, m at next level, right associativity) : js_scope.
Notation "m ;;; k" := (bind m (fun _ => k))
  (at level 61, right associativity) : js_scope.
Local Open Scope js_scope.

(** ** Primitive operations on the world *)

Definition set_store (e : Event) (s : Store) (w : World) : World :=
  mkWorld s (clock w) (uuids w) (db_uuids w) (history w ++ [(e, s)]) (pending w).

(** The same after an insert that drew a key from [gen_random_uuid()]. *)
Definition set_store_keyed (e : Event) (s : Store) (w : World) : World :=
  mkWorld s (clock w) (uuids w) (S (db_uuids w)) (history w ++ [(e, s)]) (pending w).

(** [Date.now()] *)
Definition Date_now : M Millis := fun w => (Ok (clock w), w).

(** [console.log], [console.error]: no effect on the world. *)
Definition console_log : M unit := ret tt.

Section Environment.

Variable env : Env.

(** [crypto.randomUUID()] *)
Definition crypto_randomUUID : M string := fun w =>
  (Ok (randomUUID env (uuids w)),
   mkWorld (db_store w) (clock w) (S (uuids w)) (db_uuids w) (history w) (pending w)).

(** [await pdf(pdfBuffer)], giving [pdfData.numpages] *)
Definition pdf_numpages (pdfBuffer : Buffer) : M Z := fun w =>
  let w' := set_store EvPdf (db_store w) w in
  match pdf env pdfBuffer with
  | Some n => (Ok n, w')
  | None => (Throw PdfParseError, w')
  end.

(** [await generateObject({ model, schema, prompt, messages })]; the call
    takes [latency] milliseconds whether it returns or throws. *)
Definition await_generateObject (documentId : string) (pdfBuffer : Buffer)
    (pageNumber : Z) : M (ExtractedPODSchema.t * option Usage.t) := fun w =>
  let w' := mkWorld (db_store w) (clock w + latency env pdfBuffer pageNumber)
              (uuids w) (db_uuids w)
              (history w ++ [(EvGenerateObject documentId pageNumber, db_store w)])
              (pending w) in
  match generateObject env pdfBuffer pageNumber with
  | ModelThrows e => (Throw e, w')
  | ModelReturns object usage => (Ok (object, usage), w')
  end.

End Environment.

(** ** packages/api/src/services/ocr-extraction.ts: the interfaces *)

Module ExtractedPODData.
Record t : Type := mk {
  pageNumber : Z;
  containerNumbers : list (option string);
  containerSizes : list (option string);
  fullEmptyStatuses : list (option string);
  pageDate : option string;
  instructionNumber : option string;
  vehicleNumber : option string;
  collectedFrom : option string;
  deliveredTo : option string;
  unsureFields : list string
}.
End ExtractedPODData.

Module TokenUsageData.
Record t : Type := mk {
  requestId : string;
  inputTokens : Z;
  toolUsePromptTokens : option Z;
  cachedContentTokens : option Z;
  candidatesTokens : option Z;
  thoughtsTokens : option Z;
  outputTokens : Z;
  totalTokens : Z;
  durationMs : Z
}.
End TokenUsageData.

(** The handle [db] of packages/db/src/index.ts: there is one store. *)
Inductive DB : Type := db.

(** ** The statements the sources send to the store *)

Section Statements.

Variable env : Env.

(** The row [db.insert(extractedPageData).values({...})] would add, when
    the column types accept the values; [id] is the key the store draws
    and [now] its clock. *)
Definition page_row (id : string) (now : Millis) (documentId : string)
    (v : ExtractedPODData.t) : option ExtractedPageData.row :=
  if Column.smallint (ExtractedPODData.pageNumber v) then
    match Column.varchar_null 255 (ExtractedPODData.pageDate v),
          Column.varchar_null 255 (ExtractedPODData.instructionNumber v),
          Column.varchar_null 255 (ExtractedPODData.vehicleNumber v),
          Column.varchar_null 255 (ExtractedPODData.collectedFrom v),
          Column.varchar_null 255 (ExtractedPODData.deliveredTo v) with
    | Some pd, Some ins, Some veh, Some cf, Some dt =>
        Some (ExtractedPageData.mk
                id
                documentId
                (ExtractedPODData.pageNumber v)
                (ExtractedPODData.containerNumbers v)
                (ExtractedPODData.containerSizes v)
                (ExtractedPODData.fullEmptyStatuses v)
                pd ins veh cf dt
                (Some (ExtractedPODData.unsureFields v))
                now now None (Some false))
    | _, _, _, _, _ => None
    end
  else None.

(** [db.insert(extractedPageData).values({...})]: the column types, the
    unique index on (document, page) and the foreign key to the document
    decide whether the row goes in. *)
Definition insert_extractedPageData (documentId : string)
    (v : ExtractedPODData.t) : M unit := fun w =>
  let s := db_store w in
  let e := EvInsertPage documentId (ExtractedPODData.pageNumber v) in
  match page_row (gen_random_uuid env (db_uuids w)) (clock w) documentId v with
  | None => (Throw (DatabaseError "extracted_page_data: value out of range"),
             set_store e s w)
  | Some r =>
      if existsb (page_key_is documentId (ExtractedPODData.pageNumber v))
           (extractedPageData s)
      then (Throw (DatabaseError "extracted_page_data_document_page_idx"),
            set_store e s w)
      else if negb (Column.mem documentId (document_ids s))
      then (Throw (DatabaseError "extracted_page_data_document_id_fk"),
            set_store e s w)
      else (Ok tt,
            set_store_keyed e
              (mkStore (users s) (companies s) (branches s) (uploadDocuments s)
                 (extractedPageData s ++ [r]) (documentTokenUsage s)) w)
  end.

(** The values of [db.insert(documentTokenUsage).values({...})]. *)
Record usage_values : Type := mk_usage_values {
  u_documentId : string;
  u_requestId : string;
  u_inputTokens : Z;
  u_toolUsePromptTokens : Z;
  u_cachedContentTokens : Z;
  u_candidatesTokens : Z;
  u_thoughtsTokens : Z;
  u_outputTokens : Z;
  u_totalTokens : Z;
  u_durationMs : Z
}.

(** The row that statement would add, when the column types accept the
    values. *)
Definition usage_row (id : string) (now : Millis) (v : usage_values)
    : option DocumentTokenUsage.row :=
  if Column.integer (u_inputTokens v)
     && Column.integer (u_toolUsePromptTokens v)
     && Column.integer (u_cachedContentTokens v)
     && Column.integer (u_candidatesTokens v)
     && Column.integer (u_thoughtsTokens v)
     && Column.integer (u_outputTokens v)
     && Column.integer (u_totalTokens v)
     && Column.integer (u_durationMs v)
  then
    match Column.varchar 255 (u_requestId v) with
    | Some rid =>
        Some (DocumentTokenUsage.mk
                id
                (u_documentId v) rid
                (u_inputTokens v) (u_toolUsePromptTokens v)
                (u_cachedContentTokens v) (u_candidatesTokens v)
                (u_thoughtsTokens v) (u_outputTokens v)
                (u_totalTokens v) (u_durationMs v)
                now now)
    | None => None
    end
  else None.

(** [db.insert(documentTokenUsage).values({...})]: the column types and
    the foreign key to the document decide whether the row goes in. *)
Definition insert_documentTokenUsage (v : usage_values) : M unit := fun w =>
  let s := db_store w in
  let e := EvInsertUsage (u_documentId v) (u_requestId v) in
  match usage_row (gen_random_uuid env (db_uuids w)) (clock w) v with
  | None => (Throw (DatabaseError "document_token_usage: value out of range"),
             set_store e s w)
  | Some r =>
      if negb (Column.mem (u_documentId v) (document_ids s))
      then (Throw (DatabaseError "document_token_usage_document_id_fk"),
            set_store e s w)
      else (Ok tt,
            set_store_keyed e
              (mkStore (users s) (companies s) (branches s) (uploadDocuments s)
                 (extractedPageData s) (documentTokenUsage s ++ [r])) w)
  end.

(** [.set({ extractionStatus, extractionId })] on one row; an [undefined]
    extraction id leaves the column as it is, and [updatedAt] is renewed. *)
Definition set_status (now : Millis) (status : DocumentExtactionStatusEnumType)
    (extractionId : option string) (r : UploadDocuments.row)
    : UploadDocuments.row :=
  UploadDocuments.mk
    (UploadDocuments.documentId r) (UploadDocuments.userId r)
    (UploadDocuments.instructionNumber r) (UploadDocuments.documentName r)
    (UploadDocuments.fileUrl r) (UploadDocuments.fileSizeInBytes r)
    (UploadDocuments.companyId r) (UploadDocuments.branchId r)
    status
    (match extractionId with
     | Some x => Some x
     | None => UploadDocuments.extractionId r
     end)
    (UploadDocuments.deletedAt r) (UploadDocuments.isDeleted r)
    (UploadDocuments.createdAt r) now.

Definition has_id (documentId : string) (r : UploadDocuments.row) : bool :=
  String.eqb (UploadDocuments.documentId r) documentId.

Definition has_extractionId (x : string) (r : UploadDocuments.row) : bool :=
  match UploadDocuments.extractionId r with
  | Some y => String.eqb y x
  | None => false
  end.

(** The unique constraint on [extraction_id]: the update is refused when
    it would give the document an id another document carries. *)
Definition extractionId_taken (documentId : string)
    (extractionId : option string) (s : Store) : bool :=
  match extractionId with
  | Some x =>
      existsb (has_id documentId) (uploadDocuments s)
      && existsb (fun r => negb (has_id documentId r) && has_extractionId x r)
           (uploadDocuments s)
  | None => false
  end.

(** The table after [.set({...}).where(eq(uploadDocuments.documentId,
    documentId))]. *)
Definition update_rows (documentId : string) (now : Millis)
    (status : DocumentExtactionStatusEnumType) (extractionId : option string)
    (rows : list UploadDocuments.row) : list UploadDocuments.row :=
  map (fun r => if has_id documentId r
                then set_status now status extractionId r
                else r)
    rows.

(** [db.update(uploadDocuments).set({...}).where(eq(documentId, ...))];
    a statement that matches no row succeeds and changes nothing. *)
Definition update_uploadDocuments (documentId : string)
    (status : DocumentExtactionStatusEnumType)
    (extractionId : option string) : M unit := fun w =>
  let s := db_store w in
  let e := EvUpdateStatus documentId status in
  if extractionId_taken documentId extractionId s
  then (Throw (DatabaseError "upload_documents_extraction_id_unique"),
        set_store e s w)
  else (Ok tt,
        set_store e
          (mkStore (users s) (companies s) (branches s)
             (update_rows documentId (clock w) status extractionId
                (uploadDocuments s))
             (extractedPageData s) (documentTokenUsage s)) w).

(** The values of [db.insert(uploadDocuments).values({...})]. *)
Record upload_values : Type := mk_upload_values {
  v_userId : string;
  v_instructionNumber : string;
  v_documentName : string;
  v_fileUrl : string;
  v_fileSizeInBytes : Z;
  v_companyId : option string;
  v_branchId : option string;
  v_extractionStatus : DocumentExtactionStatusEnumType
}.

(** [db.insert(uploadDocuments).values({...}).returning()], returning the
    one row inserted. *)
Definition insert_uploadDocuments (v : upload_values)
    : M UploadDocuments.row := fun w =>
  let s := db_store w in
  let id := gen_random_uuid env (db_uuids w) in
  let e := EvInsertDocument id in
  match Column.varchar 255 (v_instructionNumber v) with
  | None => (Throw (DatabaseError "upload_documents: value too long"),
             set_store e s w)
  | Some ins =>
      if negb (Column.integer (v_fileSizeInBytes v))
      then (Throw (DatabaseError "upload_documents: integer out of range"),
            set_store e s w)
      else if negb (Column.mem (v_userId v) (users s))
      then (Throw (DatabaseError "upload_documents_user_id_fk"),
            set_store e s w)
      else if negb (Column.references_null (v_companyId v) (companies s))
      then (Throw (DatabaseError "upload_documents_company_id_fk"),
            set_store e s w)
      else if negb (Column.references_null (v_branchId v) (branches s))
      then (Throw (DatabaseError "upload_documents_branch_id_fk"),
            set_store e s w)
      else
        let r := UploadDocuments.mk id (v_userId v) ins (v_documentName v)
                   (v_fileUrl v) (v_fileSizeInBytes v) (v_companyId v)
                   (v_branchId v) (v_extractionStatus v) None
                   None (Some false) (clock w) (clock w) in
        (Ok r,
         set_store_keyed e
           (mkStore (users s) (companies s) (branches s)
              (uploadDocuments s ++ [r])
              (extractedPageData s) (documentTokenUsage s)) w)
  end.

End Statements.

(** ** packages/api/src/services/ocr-extraction.ts *)

Section OcrExtraction.

Variable env : Env.

(** Save extracted page data to the database *)
Definition saveExtractedPageData (documentId : string)
    (pageData : ExtractedPODData.t) (_ : DB) : M unit :=
  insert_extractedPageData env documentId pageData.

(** Save token usage data to the database *)
Definition saveTokenUsage (documentId : string) (usage : TokenUsageData.t)
    (_ : DB) : M unit :=
  insert_documentTokenUsage env
    (mk_usage_values
       documentId
       (TokenUsageData.requestId usage)
       (TokenUsageData.inputTokens usage)
       (JS.or0 (TokenUsageData.toolUsePromptTokens usage))
       (JS.or0 (TokenUsageData.cachedContentTokens usage))
       (JS.or0 (TokenUsageData.candidatesTokens usage))
       (JS.or0 (TokenUsageData.thoughtsTokens usage))
       (TokenUsageData.outputTokens usage)
       (TokenUsageData.totalTokens usage)
       (TokenUsageData.durationMs usage)).

(** Update document extraction status *)
Definition updateDocumentStatus (documentId : string)
    (status : DocumentExtactionStatusEnumType)
    (extractionId : option string) (db : option DB) : M unit :=
  match db with
  | None => ret tt
  | Some _ => update_uploadDocuments documentId status extractionId
  end.

(** The page data built from [result.object]. *)
Definition pageData_of (pageNumber : Z) (extractedData : ExtractedPODSchema.t)
    : ExtractedPODData.t :=
  ExtractedPODData.mk
    pageNumber
    (ExtractedPODSchema.containerNumbers extractedData)
    (ExtractedPODSchema.containerSizes extractedData)
    (map (option_map FullEmpty_text)
       (ExtractedPODSchema.fullEmptyStatuses extractedData))
    (ExtractedPODSchema.pageDate extractedData)
    (ExtractedPODSchema.instructionNumber extractedData)
    (ExtractedPODSchema.vehicleNumber extractedData)
    (ExtractedPODSchema.collectedFrom extractedData)
    (ExtractedPODSchema.deliveredTo extractedData)
    (ExtractedPODSchema.unsureFields extractedData).

(** Extract data from a single PDF page *)
Definition extractPageData (pdfBuffer : Buffer) (pageNumber : Z)
    (documentId : string) (db : DB) (startTime : Millis)
    : M ExtractedPODData.t :=
  requestId <- crypto_randomUUID env ;;
  try_catch
    (result <- await_generateObject env documentId pdfBuffer pageNumber ;;
     let extractedData := fst result in
     let pageData := pageData_of pageNumber extractedData in
     saveExtractedPageData documentId pageData db ;;;
     match snd result with
     | Some usage =>
         now <- Date_now ;;
         saveTokenUsage documentId
           (TokenUsageData.mk
              requestId
              (JS.or0 (Usage.promptTokens usage))
              None
              None
              (Some (JS.or0 (Usage.completionTokens usage)))
              None
              (JS.or0 (Usage.completionTokens usage))
              (JS.or0 (Usage.totalTokens usage))
              (now - startTime))
           db
     | None => ret tt
     end ;;;
     ret pageData)
    (fun error => console_log ;;; throw error).

(** What the loop pushes when a page fails. *)
Definition placeholder (pageNum : Z) : ExtractedPODData.t :=
  ExtractedPODData.mk pageNum [] [] [] None None None None None ["*all*"].

(** [for (let pageNum = ...; pageNum <= numPages; pageNum++)] with
    [remaining] pages still to do, [pageNum] being the next one. *)
Fixpoint process_pages (pdfBuffer : Buffer) (documentId : string) (db : DB)
    (startTime : Millis) (remaining : nat) (pageNum : Z)
    (extractedPages : list ExtractedPODData.t)
    : M (list ExtractedPODData.t) :=
  match remaining with
  | O => ret extractedPages
  | S remaining' =>
      pushed <- try_catch
                  (pageData <- extractPageData pdfBuffer pageNum documentId
                                 db startTime ;;
                   ret (extractedPages ++ [pageData]))
                  (fun pageError =>
                     console_log ;;;
                     ret (extractedPages ++ [placeholder pageNum])) ;;
      process_pages pdfBuffer documentId db startTime remaining'
        (pageNum + 1) pushed
  end.

(** Process a PDF document and extract POD data *)
Definition extractPODDataFromPDF (documentId : string) (pdfBuffer : Buffer)
    (db : DB) : M (list ExtractedPODData.t) :=
  startTime <- Date_now ;;
  extractionId <- crypto_randomUUID env ;;
  try_catch
    (updateDocumentStatus documentId PROCESSING (Some extractionId) (Some db) ;;;
     numPages <- pdf_numpages env pdfBuffer ;;
     console_log ;;;
     extractedPages <- process_pages pdfBuffer documentId db startTime
                         (Z.to_nat numPages) 1 [] ;;
     updateDocumentStatus documentId COMPLETED (Some extractionId) (Some db) ;;;
     ret extractedPages)
    (fun error =>
       console_log ;;;
       updateDocumentStatus documentId FAILED (Some extractionId) (Some db) ;;;
       throw error).

End OcrExtraction.

(** ** Queries *)

(** [orderBy]: a stable sort, [le a b] telling that [a] may come first. *)
Fixpoint insert_by {A} (le : A -> A -> bool) (x : A) (l : list A) : list A :=
  match l with
  | [] => [x]
  | y :: l' => if le x y then x :: y :: l' else y :: insert_by le x l'
  end.

Definition orderBy {A} (le : A -> A -> bool) (l : list A) : list A :=
  fold_right (insert_by le) [] l.

(** [LIMIT] and [OFFSET]. *)
Definition limit_offset {A} (limit offset : Z) (l : list A) : list A :=
  firstn (Z.to_nat limit) (skipn (Z.to_nat offset) l).

(** A query reads the store and leaves the world as it is. *)
Definition query {A} (q : Store -> A) : M A := fun w => (Ok (q (db_store w)), w).

Definition desc_createdAt (a b : UploadDocuments.row) : bool :=
  UploadDocuments.createdAt b <=? UploadDocuments.createdAt a.

Definition asc_pageNumber (a b : ExtractedPageData.row) : bool :=
  ExtractedPageData.pageNumber a <=? ExtractedPageData.pageNumber b.

(** ** packages/api/src/routers/document.ts *)

Module documentRouter.

Record upload_input : Type := mk_upload_input {
  userId : string;
  instructionNumber : string;
  documentName : string;
  fileUrl : string;
  fileSizeInBytes : JS.number;
  companyId : option string;
  branchId : option string
}.

Record upload_output : Type := mk_upload_output {
  out_documentId : string;
  out_extractionStatus : DocumentExtactionStatusEnumType
}.

Record status_output : Type := mk_status_output {
  st_documentId : string;
  st_status : DocumentExtactionStatusEnumType;
  st_extractionId : option string
}.

Record list_input : Type := mk_list_input {
  limit : option JS.number;
  offset : option JS.number
}.

Section Procedures.

Variable env : Env.

Definition min1 (s : string) : bool := (1 <=? String.length s)%nat.

Definition optional_uuid (s : option string) : bool :=
  match s with
  | None => true
  | Some v => z_uuid env v
  end.

(** The input schema of [upload]; gives the file size when the input is
    accepted. *)
Definition parse_upload_input (input : upload_input) : Result Z :=
  if negb (z_uuid env (userId input)) then Throw (ZodError "userId")
  else if negb (min1 (instructionNumber input))
  then Throw (ZodError "instructionNumber")
  else if negb (min1 (documentName input)) then Throw (ZodError "documentName")
  else if negb (z_url env (fileUrl input)) then Throw (ZodError "fileUrl")
  else
    match fileSizeInBytes input with
    | JS.Fraction => Throw (ZodError "fileSizeInBytes")
    | JS.Integer n =>
        if negb (0 <? n) then Throw (ZodError "fileSizeInBytes")
        else if negb (optional_uuid (companyId input))
        then Throw (ZodError "companyId")
        else if negb (optional_uuid (branchId input))
        then Throw (ZodError "branchId")
        else Ok n
    end.

(** Upload a document for OCR processing.  The call of the extraction
    service is commented out in the source: the mutation logs the
    intent and returns. *)
Definition upload (input : upload_input) : M upload_output :=
  match parse_upload_input input with
  | Throw e => throw e
  | Ok size =>
      document <- insert_uploadDocuments env
                    (mk_upload_values
                       (userId input) (instructionNumber input)
                       (documentName input) (fileUrl input) size
                       (companyId input) (branchId input) IDEAL) ;;
      console_log ;;;
      ret (mk_upload_output
             (UploadDocuments.documentId document)
             (UploadDocuments.extractionStatus document))
  end.

(** The input schema [{ documentId: z.string().uuid() }]. *)
Definition parse_documentId (documentId : string) : M unit :=
  if z_uuid env documentId then ret tt else throw (ZodError "documentId").

(** Get document status and metadata *)
Definition getDocument (documentId : string) : M UploadDocuments.row :=
  parse_documentId documentId ;;;
  document <- query (fun s => find (has_id documentId) (uploadDocuments s)) ;;
  match document with
  | None => throw (JsError "Document not found")
  | Some d => ret d
  end.

(** Get all documents for a user *)
Definition getDocumentsByUser (userId : string)
    : M (list UploadDocuments.row) :=
  (if z_uuid env userId then ret tt else throw (ZodError "userId")) ;;;
  query (fun s =>
           orderBy desc_createdAt
             (filter (fun r => String.eqb (UploadDocuments.userId r) userId)
                (uploadDocuments s))).

(** Get extracted data for a document *)
Definition getExtractedData (documentId : string)
    : M (list ExtractedPageData.row) :=
  parse_documentId documentId ;;;
  query (fun s =>
           orderBy asc_pageNumber
             (filter
                (fun r => String.eqb (ExtractedPageData.documentId r) documentId)
                (extractedPageData s))).

(** Get extraction status *)
Definition getExtractionStatus (documentId : string) : M status_output :=
  parse_documentId documentId ;;;
  document <- query (fun s => find (has_id documentId) (uploadDocuments s)) ;;
  match document with
  | None => throw (JsError "Document not found")
  | Some d =>
      ret (mk_status_output
             (UploadDocuments.documentId d)
             (UploadDocuments.extractionStatus d)
             (UploadDocuments.extractionId d))
  end.

(** [z.number().int().positive().max(100).default(20)] *)
Definition parse_limit (limit : option JS.number) : Result Z :=
  match limit with
  | None => Ok 20
  | Some JS.Fraction => Throw (ZodError "limit")
  | Some (JS.Integer n) =>
      if (0 <? n) && (n <=? 100) then Ok n else Throw (ZodError "limit")
  end.

(** [z.number().int().nonnegative().default(0)] *)
Definition parse_offset (offset : option JS.number) : Result Z :=
  match offset with
  | None => Ok 0
  | Some JS.Fraction => Throw (ZodError "offset")
  | Some (JS.Integer n) =>
      if 0 <=? n then Ok n else Throw (ZodError "offset")
  end.

(** The optional input object of [listDocuments], then
    [const { limit = 20, offset = 0 } = input || {}]. *)
Definition parse_list_input (input : option list_input) : Result (Z * Z) :=
  match input with
  | None => Ok (20, 0)
  | Some i =>
      match parse_limit (limit i) with
      | Throw e => Throw e
      | Ok l =>
          match parse_offset (offset i) with
          | Throw e => Throw e
          | Ok o => Ok (l, o)
          end
      end
  end.

(** List all documents with their extraction status *)
Definition listDocuments (input : option list_input)
    : M (list UploadDocuments.row) :=
  match parse_list_input input with
  | Throw e => throw e
  | Ok (limit, offset) =>
      query (fun s =>
               limit_offset limit offset
                 (orderBy desc_createdAt (uploadDocuments s)))
  end.

End Procedures.

End documentRouter.

(** ** The upload endpoint of the server (POST /api/upload-document) *)

Module Server.

Record File : Type := mk_file {
  originalname : string;
  mimetype : string;
  buffer : Buffer
}.

Definition size (f : File) : Z := Z.of_nat (List.length (buffer f)).

Record Request : Type := mk_request {
  file : option File;
  body_userId : option string;
  body_instructionNumber : option string;
  body_companyId : option string;
  body_branchId : option string
}.

Inductive JsonValue : Type :=
| JString (s : string)
| JBool (b : bool).

Inductive Body : Type :=
| Json (fields : list (string * JsonValue))
| Html (text : string).

Record Response : Type := mk_response {
  status : Z;
  body : Body
}.

(** The field of a JSON answer, when it is there. *)
Fixpoint lookup (k : string) (fields : list (string * JsonValue))
    : option JsonValue :=
  match fields with
  | [] => None
  | (k', v) :: rest => if String.eqb k k' then Some v else lookup k rest
  end.

Definition field (k : string) (r : Response) : option JsonValue :=
  match body r with
  | Json fields => lookup k fields
  | Html _ => None
  end.

(** [error instanceof Error ? error.message : "Unknown error"] *)
Definition message (e : Error) : string :=
  match e with
  | JsError m => m
  | ZodError p => p
  | DatabaseError c => c
  | ProviderError m => m
  | PdfParseError => "Invalid PDF structure"
  end.

(** [upload.single("file")]: the file filter, then the size limit. *)
Definition multer_single (req : Request) : Result (option File) :=
  match file req with
  | None => Ok None
  | Some f =>
      if negb (String.eqb (mimetype f) "application/pdf")
      then Throw (JsError "Only PDF files are allowed")
      else if 10 * 1024 * 1024 <? size f
      then Throw (JsError "File too large")
      else Ok (Some f)
  end.

Section Endpoint.

Variable env : Env.

(** A call that is not awaited: its promise is left to the event loop.
    ([extractPODDataFromPDF] reads the clock and draws its run id when
    the loop gets to it; no time passes in between.) *)
Definition fire_and_forget (t : Task) : M unit := fun w =>
  (Ok tt,
   mkWorld (db_store w) (clock w) (uuids w) (db_uuids w) (history w)
     (pending w ++ [t])).

(** The body of the route handler, inside its [try]. *)
Definition upload_document_body (f : option File) (req : Request)
    : M Response :=
  match f with
  | None => ret (mk_response 400 (Json [("error", JString "No file uploaded")]))
  | Some file =>
      (* if (!userId || !instructionNumber) *)
      match JS.truthy (body_userId req),
            JS.truthy (body_instructionNumber req) with
      | Some userId, Some instructionNumber =>
          console_log ;;;
          document <- insert_uploadDocuments env
                        (mk_upload_values
                           userId instructionNumber
                           (originalname file)
                           ("memory://" ++ originalname file)%string
                           (size file)
                           (JS.or_null (body_companyId req))
                           (JS.or_null (body_branchId req))
                           IDEAL) ;;
          console_log ;;;
          fire_and_forget
            (TaskExtract (UploadDocuments.documentId document) (buffer file)) ;;;
          ret (mk_response 200
                 (Json [("success", JBool true);
                        ("documentId",
                         JString (UploadDocuments.documentId document));
                        ("message",
                         JString "Document uploaded successfully. Processing started.")]))
      | _, _ =>
          ret (mk_response 400
                 (Json [("error",
                         JString "Missing required fields: userId and instructionNumber")]))
      end
  end.

(** [app.post("/api/upload-document", upload.single("file"), handler)]:
    an error of the middleware goes to the default error handler, an
    error inside the handler becomes a 500 answer. *)
Definition upload_document (req : Request) : World -> Response * World :=
  fun w =>
  match multer_single req with
  | Throw e => (mk_response 500 (Html (message e)), w)
  | Ok f =>
      match upload_document_body f req w with
      | (Ok r, w') => (r, w')
      | (Throw e, w') =>
          (mk_response 500
             (Json [("error", JString "Upload failed");
                    ("message", JString (message e))]), w')
      end
  end.

(** The event loop takes up the oldest promise nobody awaits; its
    [.catch] logs a rejection and the value is dropped. *)
Definition run_task (t : Task) (w : World) : World :=
  match t with
  | TaskExtract documentId pdfBuffer =>
      snd (extractPODDataFromPDF env documentId pdfBuffer db w)
  end.

Definition event_loop_turn (w : World) : World :=
  match pending w with
  | [] => w
  | t :: rest =>
      run_task t
        (mkWorld (db_store w) (clock w) (uuids w) (db_uuids w) (history w) rest)
  end.

End Endpoint.

End Server.

(** ** Vocabulary of the statements *)

(** The status a reader of the store finds for a document. *)
Definition status_of (s : Store) (documentId : string)
    : option DocumentExtactionStatusEnumType :=
  option_map UploadDocuments.extractionStatus
    (find (has_id documentId) (uploadDocuments s)).

(** The page records of a document, in table order. *)
Definition pages_of (s : Store) (documentId : string)
    : list ExtractedPageData.row :=
  filter (fun r => String.eqb (ExtractedPageData.documentId r) documentId)
    (extractedPageData s).

(** The place of a status in IDEAL -> PROCESSING -> {COMPLETED, FAILED}. *)
Definition stage (st : DocumentExtactionStatusEnumType) : nat :=
  match st with
  | IDEAL => 0
  | PROCESSING => 1
  | COMPLETED => 2
  | FAILED => 2
  end.

(** No status of the sequence comes before an earlier one in the order of
    the stages. *)
Fixpoint monotonic (l : list DocumentExtactionStatusEnumType) : Prop :=
  match l with
  | [] => True
  | a :: rest =>
      (forall b, In b rest -> (stage a <= stage b)%nat) /\ monotonic rest
  end.

(** What a reader can see of a sequence: some of its elements, in order. *)
Inductive observed {A} : list A -> list A -> Prop :=
| observed_nil : observed [] []
| observed_skip x l l' : observed l l' -> observed l (x :: l')
| observed_take x l l' : observed l l' -> observed (x :: l) (x :: l').

(** The statuses of a document along a history; a snapshot without the
    document contributes nothing. *)
Fixpoint statuses (documentId : string) (h : list (Event * Store))
    : list DocumentExtactionStatusEnumType :=
  match h with
  | [] => []
  | (_, s) :: rest =>
      match status_of s documentId with
      | Some st => st :: statuses documentId rest
      | None => statuses documentId rest
      end
  end.

(** Work on a page: the model call and the two inserts. *)
Definition page_work (e : Event) : bool :=
  match e with
  | EvGenerateObject _ _ | EvInsertPage _ _ | EvInsertUsage _ _ => true
  | _ => false
  end.

(** [from], [from + 1], ... : [n] page numbers. *)
Fixpoint Zrange (from : Z) (n : nat) : list Z :=
  match n with
  | O => []
  | S n' => from :: Zrange (from + 1) n'
  end.

(** The page numbers the loop goes through: 1 .. numPages. *)
Definition page_numbers (numPages : Z) : list Z := Zrange 1 (Z.to_nat numPages).

(** The column types accept the values of a page record. *)
Definition page_values_ok (v : ExtractedPODData.t) : bool :=
  match page_row "" 0 "" v with
  | Some _ => true
  | None => false
  end.

(** The store [s] takes the page record [v] of document [d]. *)
Definition page_accepted (s : Store) (d : string) (v : ExtractedPODData.t)
    : bool :=
  page_values_ok v
  && negb (existsb (page_key_is d (ExtractedPODData.pageNumber v))
             (extractedPageData s))
  && Column.mem d (document_ids s).

(** The column types accept the values of a usage record. *)
Definition usage_values_ok (v : usage_values) : bool :=
  match usage_row "" 0 v with
  | Some _ => true
  | None => false
  end.

(** A run of [extractPODDataFromPDF env d buf] started on store [s0] at
    time [c0] with [u0] calls of [crypto.randomUUID()] made before: what
    each page of it does, read off the environment. *)
Section Run.

Variable env : Env.
Variable d : string.
Variable buf : Buffer.
Variable s0 : Store.
Variable c0 : Millis.
Variable u0 : nat.

(** Milliseconds spent in the model calls of pages 1 .. p. *)
Definition total_latency (p : Z) : Z :=
  fold_right Z.add 0 (map (latency env buf) (page_numbers p)).

(** The request id drawn for page [p]: the run id is draw [u0], page [p]
    makes draw [u0 + p]. *)
Definition request_id (p : Z) : string := randomUUID env (u0 + Z.to_nat p).

(** The values [extractPageData] hands to [saveTokenUsage] for page [p],
    as [saveTokenUsage] hands them to the store. *)
Definition usage_of_page (p : Z) (usage : Usage.t) : usage_values :=
  mk_usage_values d (request_id p)
    (JS.or0 (Usage.promptTokens usage)) 0 0
    (JS.or0 (Usage.completionTokens usage)) 0
    (JS.or0 (Usage.completionTokens usage))
    (JS.or0 (Usage.totalTokens usage))
    (total_latency p).

(** The page record of page [p] is written. *)
Definition page_saved (p : Z) : bool :=
  match generateObject env buf p with
  | ModelReturns o _ => page_accepted s0 d (pageData_of p o)
  | ModelThrows _ => false
  end.

(** A usage record is written for page [p]. *)
Definition usage_saved (p : Z) : bool :=
  match generateObject env buf p with
  | ModelReturns o (Some usage) =>
      page_accepted s0 d (pageData_of p o)
      && usage_values_ok (usage_of_page p usage)
  | _ => false
  end.

(** [extractPageData] returns for page [p]. *)
Definition page_succeeded (p : Z) : bool :=
  match generateObject env buf p with
  | ModelReturns o (Some usage) =>
      page_accepted s0 d (pageData_of p o)
      && usage_values_ok (usage_of_page p usage)
  | ModelReturns o None => page_accepted s0 d (pageData_of p o)
  | ModelThrows _ => false
  end.

(** What the loop pushes for page [p]. *)
Definition pushed (p : Z) : ExtractedPODData.t :=
  match generateObject env buf p with
  | ModelReturns o _ =>
      if page_succeeded p then pageData_of p o else placeholder p
  | ModelThrows _ => placeholder p
  end.

(** [r] is the row the store builds from the page record of page [p]. *)
Definition page_record_of (r : ExtractedPageData.row) (p : Z) : Prop :=
  exists id now o u,
    generateObject env buf p = ModelReturns o u
    /\ page_row id now d (pageData_of p o) = Some r.

(** [r] is the row the store builds from the usage of page [p]. *)
Definition usage_record_of (r : DocumentTokenUsage.row) (p : Z) : Prop :=
  exists id now o usage,
    generateObject env buf p = ModelReturns o (Some usage)
    /\ usage_row id now (usage_of_page p usage) = Some r.

(** The world [w] is where the run stands before page [p]. *)
Record before_page (p : Z) (w : World) : Prop := mk_before_page {
  bp_page : 1 <= p;
  bp_clock : clock w = c0 + total_latency (p - 1);
  bp_uuids : uuids w = (u0 + Z.to_nat p)%nat;
  bp_documents : document_ids (db_store w) = document_ids s0;
  bp_keys : forall q, p <= q ->
    existsb (page_key_is d q) (extractedPageData (db_store w))
    = existsb (page_key_is d q) (extractedPageData s0)
}.

(** The rows a stretch of the run over the pages [ps] has added between
    the stores [s] and [s']: a page record for each page saved and a usage
    record for each usage saved, in page order. *)
Record rows_added (ps : list Z) (s s' : Store) : Prop := mk_rows_added {
  ra_pages : exists added,
    extractedPageData s' = extractedPageData s ++ added
    /\ Forall2 page_record_of added (filter page_saved ps);
  ra_usage : exists added,
    documentTokenUsage s' = documentTokenUsage s ++ added
    /\ Forall2 usage_record_of added (filter usage_saved ps)
}.

(** What the loop leaves alone, and what it leaves in the history. *)
Record page_effects (ps : list Z) (w w' : World) : Prop := mk_page_effects {
  pe_documents :
    uploadDocuments (db_store w') = uploadDocuments (db_store w);
  pe_users : users (db_store w') = users (db_store w);
  pe_companies : companies (db_store w') = companies (db_store w);
  pe_branches : branches (db_store w') = branches (db_store w);
  pe_pending : pending w' = pending w;
  pe_rows : rows_added ps (db_store w) (db_store w');
  pe_history : exists events,
    history w' = history w ++ events
    /\ Forall (fun es => page_work (fst es) = true
                         /\ uploadDocuments (snd es)
                            = uploadDocuments (db_store w)) events
}.

End Run.

(** ** Stubs: a model client, a store and documents to run the code on *)

Module Stub.

Definition uuid (prefix : string) (n : nat) : string :=
  (prefix ++ NilEmpty.string_of_uint (Nat.to_uint n))%string.

(** The answer of the scenario of the specification for page 1. *)
Definition container : ExtractedPODSchema.t :=
  ExtractedPODSchema.mk [Some "ABCD1234567"] [Some "40ft"] [Some FULL]
    None None None None None [].

(** Two pages; the model answers for page 1 and throws for page 2; every
    call takes 100 ms. *)
Definition two_pages : Env :=
  mkEnv (fun _ => Some 2)
    (fun _ p =>
       if p =? 1
       then ModelReturns container (Some (Usage.mk (Some 40) (Some 60) (Some 100)))
       else ModelThrows (ProviderError "model call failed"))
    (fun _ _ => 100)
    (uuid "req-") (uuid "row-")
    (fun _ => true) (fun _ => true).

(** Three pages reporting usage with total tokens 100, 150 and 200; the
    completion count of page 3 is missing; every call takes 100 ms. *)
Definition three_pages : Env :=
  mkEnv (fun _ => Some 3)
    (fun _ p =>
       ModelReturns container
         (Some (if p =? 1 then Usage.mk (Some 40) (Some 60) (Some 100)
                else if p =? 2 then Usage.mk (Some 70) (Some 80) (Some 150)
                else Usage.mk (Some 200) None (Some 200))))
    (fun _ _ => 100)
    (uuid "req-") (uuid "row-")
    (fun _ => true) (fun _ => true).

Definition document (id : string) (created : Millis)
    (status : DocumentExtactionStatusEnumType) : UploadDocuments.row :=
  UploadDocuments.mk id "user-1" "INS-2024-001" "pod.pdf" "memory://pod.pdf"
    2048 None None status None None (Some false) created created.

(** One user and one document freshly uploaded. *)
Definition fresh_store : Store :=
  mkStore ["user-1"] [] [] [document "doc-1" 500 IDEAL] [] [].

Definition fresh_world : World := mkWorld fresh_store 1000 0 0 [] [].

(** Five documents created at distinct times, in no particular order. *)
Definition five_documents : Store :=
  mkStore ["user-1"] [] []
    [document "doc-c" 300 COMPLETED; document "doc-a" 100 IDEAL;
     document "doc-e" 500 PROCESSING; document "doc-b" 200 FAILED;
     document "doc-d" 400 IDEAL] [] [].

(** The page record of the round-trip example. *)
Definition nulls : ExtractedPODData.t :=
  ExtractedPODData.mk 1 [Some "A1"; None] [Some "20ft"; None]
    [Some "FULL"; None] None None None None None ["containerSizes"].

Definition upload_input : documentRouter.upload_input :=
  documentRouter.mk_upload_input "user-1" "INS-2024-001" "pod.pdf"
    "https://files.example/pod.pdf" (JS.Integer 2048) None None.

Definition pdf_file : Server.File :=
  Server.mk_file "pod.pdf" "application/pdf" [Byte.x25; Byte.x50; Byte.x44; Byte.x46].

Definition upload_request : Server.Request :=
  Server.mk_request (Some pdf_file) (Some "user-1") (Some "INS-2024-001")
    None None.

End Stub.

(** ** Further vocabulary *)

(** The pages the model was asked about along a history, in order. *)
Fixpoint model_calls (h : list (Event * Store)) : list Z :=
  match h with
  | [] => []
  | (EvGenerateObject _ p, _) :: rest => p :: model_calls rest
  | _ :: rest => model_calls rest
  end.

(** The key of a page record under the unique index. *)
Definition page_key (r : ExtractedPageData.row) : string * Z :=
  (ExtractedPageData.documentId r, ExtractedPageData.pageNumber r).

(** What a status update leaves alone in a document row: everything but
    the status, the extraction id and [updatedAt]. *)
Definition document_metadata (r : UploadDocuments.row)
    : string * string * string * string * string * Z
      * option string * option string * option Millis * option bool * Millis :=
  (UploadDocuments.documentId r, UploadDocuments.userId r,
   UploadDocuments.instructionNumber r, UploadDocuments.documentName r,
   UploadDocuments.fileUrl r, UploadDocuments.fileSizeInBytes r,
   UploadDocuments.companyId r, UploadDocuments.branchId r,
   UploadDocuments.deletedAt r, UploadDocuments.isDeleted r,
   UploadDocuments.createdAt r).

(** A computation leaves every world related by [R] to the world it
    started in. *)
Definition preserves {A} (R : World -> World -> Prop) (m : M A) : Prop :=
  forall w, R w (snd (m w)).

(** What a run for document [d] leaves untouched between [w] and [w']:
    the users, companies and branches, the pending promises, the metadata
    of every document and the rows of the other documents; the two other
    tables only grow, by rows of [d]. *)
Record untouched (d : string) (w w' : World) : Prop := mk_untouched {
  un_users : users (db_store w') = users (db_store w);
  un_companies : companies (db_store w') = companies (db_store w);
  un_branches : branches (db_store w') = branches (db_store w);
  un_pending : pending w' = pending w;
  un_metadata :
    map document_metadata (uploadDocuments (db_store w'))
    = map document_metadata (uploadDocuments (db_store w));
  un_others :
    filter (fun r => negb (has_id d r)) (uploadDocuments (db_store w'))
    = filter (fun r => negb (has_id d r)) (uploadDocuments (db_store w));
  un_pages : exists added,
    extractedPageData (db_store w') = extractedPageData (db_store w) ++ added
    /\ Forall (fun r => ExtractedPageData.documentId r = d) added;
  un_usage : exists added,
    documentTokenUsage (db_store w') = documentTokenUsage (db_store w) ++ added
    /\ Forall (fun r => DocumentTokenUsage.documentId r = d) added
}.

(** No two page records of the store share a document and a page number. *)
Definition unique_page_keys (s : Store) : Prop :=
  NoDup (map page_key (extractedPageData s)).

Module Stub2.

(** A page with every field read. *)
Definition full_page : ExtractedPODSchema.t :=
  ExtractedPODSchema.mk [Some "ABCD1234567"] [Some "40ft"] [Some FULL]
    (Some "2024-03-15") (Some "INS-2024-001") (Some "KA-01-AB-1234")
    (Some "Port Terminal 4") (Some "Inland Depot 2") ["pageDate"].

(** Three pages; the model throws for page 2 and reads pages 1 and 3 in
    full; every call takes 100 ms. *)
Definition middle_fails : Env :=
  mkEnv (fun _ => Some 3)
    (fun _ p =>
       if p =? 2
       then ModelThrows (ProviderError "model call failed")
       else ModelReturns full_page
              (Some (Usage.mk (Some 40) (Some 60) (Some 100))))
    (fun _ _ => 100)
    (Stub.uuid "req-") (Stub.uuid "row-")
    (fun _ => true) (fun _ => true).

(** A PDF without pages. *)
Definition no_pages : Env :=
  mkEnv (fun _ => Some 0) (fun _ _ => ModelReturns Stub.container None)
    (fun _ _ => 100) (Stub.uuid "req-") (Stub.uuid "row-")
    (fun _ => true) (fun _ => true).

(** Bytes that are not a PDF. *)
Definition unreadable : Env :=
  mkEnv (fun _ => None) (fun _ _ => ModelReturns Stub.container None)
    (fun _ _ => 100) (Stub.uuid "req-") (Stub.uuid "row-")
    (fun _ => true) (fun _ => true).

(** A PDF of 40000 pages, each answered without usage metrics. *)
Definition many_pages : Env :=
  mkEnv (fun _ => Some 40000) (fun _ _ => ModelReturns Stub.container None)
    (fun _ _ => 1) (Stub.uuid "req-") (Stub.uuid "row-")
    (fun _ => true) (fun _ => true).

(** One page, whose model call reports three billion tokens in total. *)
Definition overflow_usage : Usage.t :=
  Usage.mk (Some 10) (Some 20) (Some 3000000000).

Definition overflow : Env :=
  mkEnv (fun _ => Some 1)
    (fun _ _ => ModelReturns Stub.container (Some overflow_usage))
    (fun _ _ => 100) (Stub.uuid "req-") (Stub.uuid "row-")
    (fun _ => true) (fun _ => true).

(** A second document already carries the id the next run will draw. *)
Definition taken_store : Store :=
  mkStore ["user-1"] [] []
    [Stub.document "doc-1" 500 COMPLETED;
     UploadDocuments.mk "doc-2" "user-1" "INS-2024-002" "b.pdf" "memory://b.pdf"
       1024 None None COMPLETED (Some "req-0") None (Some false) 600 700]
    [] [].

Definition taken_world : World := mkWorld taken_store 1000 0 0 [] [].

(** Two documents, the second extracted under another run id. *)
Definition other_document : UploadDocuments.row :=
  UploadDocuments.mk "doc-2" "user-1" "INS-2024-002" "b.pdf" "memory://b.pdf"
    1024 None None COMPLETED (Some "run-77") None (Some false) 600 700.

Definition two_documents : World :=
  mkWorld
    (mkStore ["user-1"] [] [] [Stub.document "doc-1" 500 IDEAL; other_document]
       [] [])
    1000 0 0 [] [].

(** Documents of two users. *)
Definition of_user (id user : string) (created : Millis) : UploadDocuments.row :=
  UploadDocuments.mk id user "INS-2024-001" "pod.pdf" "memory://pod.pdf"
    2048 None None IDEAL None None (Some false) created created.

Definition two_users : World :=
  mkWorld
    (mkStore ["user-1"; "user-2"] [] []
       [of_user "doc-a" "user-1" 100; of_user "doc-b" "user-2" 200;
        of_user "doc-c" "user-1" 300] [] [])
    1000 0 0 [] [].

End Stub2.


(** ** The users table and the default user *)

Module Users.
Record row : Type := mk {
  userId : string;
  email : string;
  name : option string;
  createdAt : Millis;
  updatedAt : Millis;
  deletedAt : option Millis;
  isDeleted : option bool
}.
End Users.

(** [eq(users.email, e)] *)
Definition has_email (e : string) (r : Users.row) : bool :=
  String.eqb (Users.email r) e.

(** The answer of GET /api/default-user: the user row as JSON, or an
    error. *)
Inductive UserResponse : Type :=
| UserJson (status : Z) (user : Users.row)
| UserError (status : Z) (error : string).

Section DefaultUser.

Variable env : Env.

(** [db.insert(users).values({ email, name }).returning()] on the rows
    [t] of the table, whose keys the store keeps in [users]: the key and
    the timestamps are defaults, the email is unique. *)
Definition insert_users (email : string) (name : option string)
    (t : list Users.row) (w : World)
    : Result Users.row * list Users.row * World :=
  match Column.varchar 255 email, Column.varchar_null 255 name with
  | Some e, Some n =>
      if existsb (has_email e) t
      then (Throw (DatabaseError "users_email_unique"), t, w)
      else
        let s := db_store w in
        let id := gen_random_uuid env (db_uuids w) in
        let r := Users.mk id e n (clock w) (clock w) None (Some false) in
        (Ok r, t ++ [r],
         mkWorld
           (mkStore (users s ++ [id]) (companies s) (branches s)
              (uploadDocuments s) (extractedPageData s)
              (documentTokenUsage s))
           (clock w) (uuids w) (S (db_uuids w)) (history w) (pending w))
  | _, _ => (Throw (DatabaseError "users: value too long"), t, w)
  end.

(** [app.get("/api/default-user", handler)]: get or create default user. *)
Definition default_user (t : list Users.row) (w : World)
    : UserResponse * list Users.row * World :=
  match find (has_email "admin@pod-ocr.com") t with
  | Some user => (UserJson 200 user, t, w)
  | None =>
      match insert_users "admin@pod-ocr.com" (Some "Admin User") t w with
      | (Ok newUser, t', w') => (UserJson 200 newUser, t', w')
      | (Throw _, t', w') =>
          (UserError 500 "Failed to get default user", t', w')
      end
  end.

End DefaultUser.

(** ** The upload page of the web client *)

Module Web.

Inductive Toast : Type :=
| toast_success (m : Server.JsonValue)
| toast_error (m : Server.JsonValue).

(** The state of [DocumentUpload], with the toasts shown so far. *)
Record State : Type := mk_state {
  file : option Server.File;
  uploading : bool;
  (** [undefined] once a default-user answer carried no [userId] *)
  userId : option string;
  instructionNumber : string;
  uploadedDocId : option Server.JsonValue;
  toasts : list Toast
}.

(** [useState] initial values. *)
Definition initial : State := mk_state None false (Some "") "" None [].

Definition toast (t : Toast) (c : State) : State :=
  mk_state (file c) (uploading c) (userId c) (instructionNumber c)
    (uploadedDocId c) (toasts c ++ [t]).

Definition setUploading (b : bool) (c : State) : State :=
  mk_state (file c) b (userId c) (instructionNumber c) (uploadedDocId c)
    (toasts c).

Definition setUserId (u : option string) (c : State) : State :=
  mk_state (file c) (uploading c) u (instructionNumber c) (uploadedDocId c)
    (toasts c).

(** [v || d] on a JSON value that may be missing. *)
Definition or_else (v : option Server.JsonValue) (d : Server.JsonValue)
    : Server.JsonValue :=
  match v with
  | Some (Server.JString s) =>
      if (String.length s =? 0)%nat then d else Server.JString s
  | Some (Server.JBool true) => Server.JBool true
  | Some (Server.JBool false) => d
  | None => d
  end.

(** [response.ok] *)
Definition ok (r : Server.Response) : bool :=
  (200 <=? Server.status r) && (Server.status r <=? 299).

(** [await response.json()]: a body that is not JSON throws. *)
Definition json (r : Server.Response)
    : option (list (string * Server.JsonValue)) :=
  match Server.body r with
  | Server.Json fields => Some fields
  | Server.Html _ => None
  end.

Section Page.

Variable env : Env.

(** The effect run on mount: fetch the default user and keep its id.
    [reachable] tells whether the request gets to the server; when it does
    not, the rejection is logged and the state stays. *)
Definition on_mount (reachable : bool) (c : State) (t : list Users.row)
    (w : World) : State * list Users.row * World :=
  if reachable then
    match default_user env t w with
    | (UserJson _ user, t', w') => (setUserId (Some (Users.userId user)) c, t', w')
    | (UserError _ _, t', w') => (setUserId None c, t', w')
    end
  else (c, t, w).

(** [handleUpload]: the form data holds the file, [userId] and
    [instructionNumber], nothing else. *)
Definition handleUpload (reachable : bool) (c : State)
    : World -> State * World := fun w =>
  match file c, JS.truthy (userId c), JS.truthy (Some (instructionNumber c)) with
  | Some f, Some u, Some i =>
      (* setUploading(true) ... finally setUploading(false) *)
      if reachable then
        let (response, w') :=
          Server.upload_document env
            (Server.mk_request (Some f) (Some u) (Some i) None None) w in
        match json response with
        | Some data =>
            if ok response then
              (mk_state None false (userId c) ""
                 (Server.lookup "documentId" data)
                 (toasts c
                  ++ [toast_success
                        (Server.JString
                           "Document uploaded successfully! Processing started.")]),
               w')
            else
              (setUploading false
                 (toast
                    (toast_error
                       (or_else (Server.lookup "error" data)
                          (Server.JString "Upload failed"))) c),
               w')
        | None =>
            (setUploading false
               (toast (toast_error (Server.JString "Upload failed")) c), w')
        end
      else
        (setUploading false
           (toast (toast_error (Server.JString "Upload failed")) c), w)
  | _, _, _ =>
      (toast (toast_error (Server.JString "Please fill all required fields")) c,
       w)
  end.

End Page.

(** [s || "N/A"] *)
Definition or_na (s : option string) : string :=
  match JS.truthy s with
  | Some v => v
  | None => "N/A"
  end.

(** [xs?.[idx]] on an array of nullable strings. *)
Definition at_index (xs : list (option string)) (idx : nat) : option string :=
  match nth_error xs idx with
  | Some v => v
  | None => None
  end.

(** A row of the containers table: the three cells and whether the status
    badge is the blue one. *)
Record ContainerRow : Type := mk_container_row {
  cell_number : string;
  cell_size : string;
  cell_status : string;
  badge_blue : bool
}.

(** [xs.map((x, idx) => f x idx)], counting from [idx]. *)
Fixpoint map_indexed {A B} (f : A -> nat -> B) (idx : nat) (xs : list A)
    : list B :=
  match xs with
  | [] => []
  | x :: rest => f x idx :: map_indexed f (S idx) rest
  end.

Definition container_row (page : ExtractedPageData.row)
    (num : option string) (idx : nat) : ContainerRow :=
  mk_container_row
    (or_na num)
    (or_na (at_index (ExtractedPageData.containerSizes page) idx))
    (or_na (at_index (ExtractedPageData.fullEmptyStatuses page) idx))
    (match at_index (ExtractedPageData.fullEmptyStatuses page) idx with
     | Some st => String.eqb st "FULL"
     | None => false
     end).

(** The containers table of a page, when it is rendered:
    [page.containerNumbers && page.containerNumbers.length > 0 && ...]. *)
Definition containers_table (page : ExtractedPageData.row)
    : option (list ContainerRow) :=
  if (0 <? List.length (ExtractedPageData.containerNumbers page))%nat
  then Some (map_indexed (container_row page) 0
               (ExtractedPageData.containerNumbers page))
  else None.

End Web.

Module Stub3.

(** The page of the web client once a file and an instruction number have
    been entered, before the default user is known. *)
Definition filled : Web.State :=
  Web.mk_state (Some Stub.pdf_file) false (Some "") "INS-2024-001" None [].

(** A page record whose three arrays differ in length. *)
Definition ragged : ExtractedPageData.row :=
  ExtractedPageData.mk "page-1" "doc-1" 1
    [Some "ABCD1234567"; None] [Some "40ft"; Some "20ft"; Some "45ft"]
    [Some "FULL"] None None None None None None 0 0 None (Some false).

(** The users table before the default user exists. *)
Definition one_user : list Users.row :=
  [Users.mk "user-1" "someone@example.com" None 0 0 None (Some false)].

End Stub3.
(** * Properties *)

(** ** Page ranges and latencies *)

Lemma Zrange_length : forall n from, List.length (Zrange from n) = n.
Proof. induction n; intros; simpl; auto. Qed.

Lemma Zrange_In : forall n from q,
  In q (Zrange from n) <-> from <= q < from + Z.of_nat n.
Proof.
  induction n as [|n IH]; intros from q; simpl.
  - lia.
  - rewrite IH. lia.
Qed.

Lemma Zrange_snoc : forall n from,
  Zrange from (S n) = Zrange from n ++ [from + Z.of_nat n].
Proof.
  induction n as [|n IH]; intros from.
  - simpl. now rewrite Z.add_0_r.
  - change (Zrange from (S (S n))) with (from :: Zrange (from + 1) (S n)).
    rewrite IH. simpl. do 3 f_equal. lia.
Qed.

Lemma Zrange_NoDup : forall n from, NoDup (Zrange from n).
Proof.
  induction n as [|n IH]; intros from; simpl; constructor; auto.
  rewrite Zrange_In. lia.
Qed.

Lemma page_numbers_In : forall N q, In q (page_numbers N) <-> 1 <= q <= N.
Proof.
  intros N q. unfold page_numbers. rewrite Zrange_In. lia.
Qed.

Lemma total_latency_step : forall env buf p,
  1 <= p ->
  total_latency env buf p
  = total_latency env buf (p - 1) + latency env buf p.
Proof.
  intros env buf p Hp. unfold total_latency, page_numbers.
  replace (Z.to_nat p) with (S (Z.to_nat (p - 1))) by lia.
  rewrite Zrange_snoc, map_app, fold_right_app.
  replace (1 + Z.of_nat (Z.to_nat (p - 1))) with p by lia.
  cbn [map fold_right].
  generalize (map (latency env buf) (Zrange 1 (Z.to_nat (p - 1)))).
  intros l. induction l as [|x l IH]; cbn [fold_right]; lia.
Qed.

Lemma total_latency_0 : forall env buf, total_latency env buf 0 = 0.
Proof. reflexivity. Qed.

(** ** What the store accepts *)

Lemma page_row_cases : forall id now d v,
  (page_values_ok v = true /\ exists r, page_row id now d v = Some r)
  \/ (page_values_ok v = false /\ page_row id now d v = None).
Proof.
  intros id now d v. unfold page_values_ok, page_row.
  destruct (Column.smallint _); [|now right].
  repeat match goal with
         | |- context [Column.varchar_null ?n ?x] =>
             destruct (Column.varchar_null n x)
         end; eauto.
Qed.

Lemma usage_row_cases : forall id now v,
  (usage_values_ok v = true /\ exists r, usage_row id now v = Some r)
  \/ (usage_values_ok v = false /\ usage_row id now v = None).
Proof.
  intros id now v. unfold usage_values_ok, usage_row.
  match goal with
  | |- context [if (?a && ?b)%bool then _ else _] => destruct (a && b)%bool
  end;
    [|now right].
  destruct (Column.varchar 255 (u_requestId v)); eauto.
Qed.

Lemma page_row_fields : forall id now d v r,
  page_row id now d v = Some r ->
  ExtractedPageData.documentId r = d
  /\ ExtractedPageData.pageNumber r = ExtractedPODData.pageNumber v
  /\ ExtractedPageData.containerNumbers r = ExtractedPODData.containerNumbers v
  /\ ExtractedPageData.containerSizes r = ExtractedPODData.containerSizes v
  /\ ExtractedPageData.fullEmptyStatuses r = ExtractedPODData.fullEmptyStatuses v
  /\ ExtractedPageData.unsureFields r = Some (ExtractedPODData.unsureFields v).
Proof.
  intros id now d v r. unfold page_row.
  destruct (Column.smallint _); [|discriminate].
  repeat match goal with
         | |- context [Column.varchar_null ?n ?x] =>
             destruct (Column.varchar_null n x)
         end; try discriminate.
  intros H. injection H as <-. simpl. repeat split; reflexivity.
Qed.

Lemma usage_row_fields : forall id now v r,
  usage_row id now v = Some r ->
  DocumentTokenUsage.documentId r = u_documentId v
  /\ Column.varchar 255 (u_requestId v) = Some (DocumentTokenUsage.requestId r)
  /\ DocumentTokenUsage.inputTokens r = u_inputTokens v
  /\ DocumentTokenUsage.toolUsePromptTokens r = u_toolUsePromptTokens v
  /\ DocumentTokenUsage.cachedContentTokens r = u_cachedContentTokens v
  /\ DocumentTokenUsage.candidatesTokens r = u_candidatesTokens v
  /\ DocumentTokenUsage.thoughtsTokens r = u_thoughtsTokens v
  /\ DocumentTokenUsage.outputTokens r = u_outputTokens v
  /\ DocumentTokenUsage.totalTokens r = u_totalTokens v
  /\ DocumentTokenUsage.durationMs r = u_durationMs v.
Proof.
  intros id now v r. unfold usage_row.
  match goal with
  | |- context [if (?a && ?b)%bool then _ else _] => destruct (a && b)%bool
  end;
    [|discriminate].
  destruct (Column.varchar 255 (u_requestId v)) eqn:E; [|discriminate].
  intros H. injection H as <-. simpl. repeat split; auto.
Qed.

(** ** One page of a run *)

Section RunFacts.

Variable env : Env.
Variable d : string.
Variable buf : Buffer.
Variable s0 : Store.
Variable c0 : Millis.
Variable u0 : nat.

Lemma page_accepted_before : forall p w v,
  before_page env d buf s0 c0 u0 p w ->
  ExtractedPODData.pageNumber v = p ->
  page_values_ok v
  && negb (existsb (page_key_is d p) (extractedPageData (db_store w)))
  && Column.mem d (document_ids (db_store w))
  = page_accepted s0 d v.
Proof.
  intros p w v [Hp _ _ Hdocs Hkeys] Hv. unfold page_accepted.
  rewrite Hv, Hdocs, (Hkeys p) by lia. reflexivity.
Qed.

Lemma extractPageData_run : forall p w,
  before_page env d buf s0 c0 u0 p w ->
  exists r w',
    extractPageData env buf p d db c0 w = (r, w')
    /\ match r with Ok v => v | Throw _ => placeholder p end
       = pushed env d buf s0 u0 p
    /\ page_effects env d buf s0 u0 [p] w w'
    /\ clock w' = c0 + total_latency env buf p
    /\ uuids w' = S (uuids w).
Proof.
  intros p w Hb.
  pose proof (bp_page _ _ _ _ _ _ _ _ Hb) as Hp.
  pose proof (bp_clock _ _ _ _ _ _ _ _ Hb) as Hc.
  pose proof (bp_uuids _ _ _ _ _ _ _ _ Hb) as Hu.
  assert (Hclock : clock w + latency env buf p = c0 + total_latency env buf p)
    by (rewrite (total_latency_step env buf p Hp); lia).
  unfold extractPageData, bind, try_catch, crypto_randomUUID,
    await_generateObject, pushed, page_succeeded.
  cbn [fst snd db_store clock uuids db_uuids history pending].
  destruct (generateObject env buf p) as [e|o usage] eqn:Hg.
  - (* the model call throws *)
    cbn. do 2 eexists. split; [reflexivity|]. split; [reflexivity|].
    split; [|split; [exact Hclock | reflexivity]].
    constructor; [..|constructor|]; cbn; try reflexivity.
    + exists []. rewrite app_nil_r. split; [reflexivity|].
      unfold page_saved. rewrite Hg. constructor.
    + exists []. rewrite app_nil_r. split; [reflexivity|].
      unfold usage_saved. rewrite Hg. constructor.
    + eexists. split; [reflexivity|]. repeat constructor.
  - (* the model call returns *)
    unfold saveExtractedPageData, insert_extractedPageData, bind.
    cbn [fst snd db_store clock uuids db_uuids history pending].
    pose proof (page_accepted_before p _ (pageData_of p o) Hb eq_refl) as Hacc.
    cbn [ExtractedPODData.pageNumber pageData_of].
    assert (Hps : page_saved env d buf s0 p
                  = page_accepted s0 d (pageData_of p o))
      by (unfold page_saved; now rewrite Hg).
    assert (Hus : usage_saved env d buf s0 u0 p
                  = match usage with
                    | Some usage0 =>
                        page_accepted s0 d (pageData_of p o)
                        && usage_values_ok (usage_of_page env d buf u0 p usage0)
                    | None => false
                    end)
      by (unfold usage_saved; now rewrite Hg).
    destruct (page_row_cases (gen_random_uuid env (db_uuids w))
                (clock w + latency env buf p) d (pageData_of p o))
      as [[Hok [r Hr]]|[Hok Hr]]; rewrite Hr, Hok in *.
    + destruct (existsb (page_key_is d p) (extractedPageData (db_store w)))
        eqn:Hkey; cbn [negb andb] in Hacc.
      { (* the page is already there *)
        rewrite <- Hacc in *. cbn.
        do 2 eexists. split; [reflexivity|].
        split; [now destruct usage|].
        split; [|split; [exact Hclock | reflexivity]].
        constructor; [..|constructor|]; cbn; try reflexivity.
        - exists []. rewrite app_nil_r, Hps. split; [reflexivity|constructor].
        - exists []. rewrite app_nil_r, Hus. split; [reflexivity|].
          destruct usage; constructor.
        - eexists. rewrite <- app_assoc. split; [reflexivity|].
          repeat constructor. }
      destruct (Column.mem d (document_ids (db_store w))) eqn:Hmem;
        cbn [negb andb] in Hacc; rewrite <- Hacc in *; cbn [negb].
      2:{ (* the document is not there *)
        cbn.
        do 2 eexists. split; [reflexivity|].
        split; [now destruct usage|].
        split; [|split; [exact Hclock | reflexivity]].
        constructor; [..|constructor|]; cbn; try reflexivity.
        - exists []. rewrite app_nil_r, Hps. split; [reflexivity|constructor].
        - exists []. rewrite app_nil_r, Hus. split; [reflexivity|].
          destruct usage; constructor.
        - eexists. rewrite <- app_assoc. split; [reflexivity|].
          repeat constructor. }
      assert (Hrec : page_record_of env d buf r p)
        by (do 4 eexists; split; [exact Hg | exact Hr]).
      destruct usage as [usage|].
      * (* usage metrics are reported *)
        unfold Date_now, saveTokenUsage, insert_documentTokenUsage,
          set_store_keyed.
        cbn [fst snd db_store clock uuids db_uuids history pending
             TokenUsageData.requestId TokenUsageData.inputTokens
             TokenUsageData.toolUsePromptTokens
             TokenUsageData.cachedContentTokens
             TokenUsageData.candidatesTokens TokenUsageData.thoughtsTokens
             TokenUsageData.outputTokens TokenUsageData.totalTokens
             TokenUsageData.durationMs JS.or0 andb].
        match goal with
        | |- context [usage_row ?i ?n ?v] =>
            replace v with (usage_of_page env d buf u0 p usage)
              by (unfold usage_of_page, request_id; rewrite Hu; f_equal; lia);
            destruct (usage_row_cases i n (usage_of_page env d buf u0 p usage))
              as [[Huok [ru Hru]]|[Huok Hru]]; rewrite Hru, Huok in *
        end.
        -- (* the usage record goes in *)
           unfold document_ids in *.
           cbn [uploadDocuments u_documentId usage_of_page]. rewrite Hmem.
           cbn.
           do 2 eexists. split; [reflexivity|].
           split; [reflexivity|].
           split; [|split; [exact Hclock | reflexivity]].
           constructor; [..|constructor|]; cbn; try reflexivity.
           ++ exists [r]. rewrite Hps. split; [reflexivity|].
              repeat constructor. exact Hrec.
           ++ exists [ru]. rewrite Hus. split; [reflexivity|].
              repeat constructor. do 4 eexists. split; [exact Hg | exact Hru].
           ++ eexists. rewrite <- !app_assoc. split; [reflexivity|].
              repeat constructor.
        -- (* the usage record is refused: the page attempt throws *)
           cbn.
           do 2 eexists. split; [reflexivity|].
           split; [reflexivity|].
           split; [|split; [exact Hclock | reflexivity]].
           constructor; [..|constructor|]; cbn; try reflexivity.
           ++ exists [r]. rewrite Hps. split; [reflexivity|].
              repeat constructor. exact Hrec.
           ++ exists []. rewrite app_nil_r, Hus. split; [reflexivity|].
              constructor.
           ++ eexists. rewrite <- !app_assoc. split; [reflexivity|].
              repeat constructor.
      * (* no usage metrics *)
        cbn.
        do 2 eexists. split; [reflexivity|].
        split; [reflexivity|].
        split; [|split; [exact Hclock | reflexivity]].
        constructor; [..|constructor|]; cbn; try reflexivity.
        -- exists [r]. rewrite Hps. split; [reflexivity|].
           repeat constructor. exact Hrec.
        -- exists []. rewrite app_nil_r, Hus. split; [reflexivity|].
           constructor.
        -- eexists. rewrite <- !app_assoc. split; [reflexivity|].
           repeat constructor.
    + (* the column types refuse the page *)
      cbn [andb] in Hacc. rewrite <- Hacc in *. cbn.
      do 2 eexists. split; [reflexivity|].
      split; [now destruct usage|].
      split; [|split; [exact Hclock | reflexivity]].
      constructor; [..|constructor|]; cbn; try reflexivity.
      * exists []. rewrite app_nil_r, Hps. split; [reflexivity|constructor].
      * exists []. rewrite app_nil_r, Hus. split; [reflexivity|].
        destruct usage; constructor.
      * eexists. rewrite <- app_assoc. split; [reflexivity|].
        repeat constructor.
Qed.

Lemma page_effects_trans : forall ps qs w w1 w2,
  page_effects env d buf s0 u0 ps w w1 ->
  page_effects env d buf s0 u0 qs w1 w2 ->
  page_effects env d buf s0 u0 (ps ++ qs) w w2.
Proof.
  intros ps qs w w1 w2 [D1 U1 C1 B1 P1 [[ap1 [Hp1 Fp1]] [au1 [Hu1 Fu1]]] [e1 [He1 Fe1]]]
    [D2 U2 C2 B2 P2 [[ap2 [Hp2 Fp2]] [au2 [Hu2 Fu2]]] [e2 [He2 Fe2]]].
  constructor; [congruence..| |].
  - constructor.
    + exists (ap1 ++ ap2). rewrite Hp2, Hp1, app_assoc, filter_app.
      split; [reflexivity|]. now apply Forall2_app.
    + exists (au1 ++ au2). rewrite Hu2, Hu1, app_assoc, filter_app.
      split; [reflexivity|]. now apply Forall2_app.
  - exists (e1 ++ e2). rewrite He2, He1, app_assoc. split; [reflexivity|].
    apply Forall_app. split; [exact Fe1|].
    eapply Forall_impl; [|exact Fe2]. intros es [Hw Hd]. split; congruence.
Qed.

Lemma page_effects_nil : forall w, page_effects env d buf s0 u0 [] w w.
Proof.
  intros w. constructor; try reflexivity.
  - constructor; exists []; rewrite app_nil_r; split; auto; constructor.
  - exists []. rewrite app_nil_r. split; auto.
Qed.

(** A page record added for page [p] does not hide another page. *)
Lemma page_record_of_key : forall r p q,
  page_record_of env d buf r p -> q <> p -> page_key_is d q r = false.
Proof.
  intros r p q (id & now & o & u & _ & Hr) Hq.
  apply page_row_fields in Hr as (_ & Hn & _). unfold page_key_is.
  rewrite Hn. cbn. apply andb_false_iff. right. now apply Z.eqb_neq.
Qed.

Lemma before_page_next : forall p w w',
  before_page env d buf s0 c0 u0 p w ->
  page_effects env d buf s0 u0 [p] w w' ->
  clock w' = c0 + total_latency env buf p ->
  uuids w' = S (uuids w) ->
  before_page env d buf s0 c0 u0 (p + 1) w'.
Proof.
  intros p w w' [Hp Hc Hu Hd Hk] He Hc' Hu'.
  destruct He as [D _ _ _ _ [[ap [Hap Fp]] _] _].
  constructor.
  - lia.
  - replace (p + 1 - 1) with p by lia. exact Hc'.
  - rewrite Hu', Hu. lia.
  - unfold document_ids in *. now rewrite D.
  - intros q Hq. rewrite Hap, existsb_app, Hk by lia.
    replace (existsb (page_key_is d q) ap) with false;
      [apply orb_false_r|].
    symmetry. clear Hap.
    assert (Hall : forall x, In x (filter (page_saved env d buf s0) [p]) -> x = p)
      by (intros x Hx; apply filter_In in Hx as [[<-|[]] _]; reflexivity).
    revert Fp Hall. generalize (filter (page_saved env d buf s0) [p]) as l.
    intros l Fp Hall. induction Fp as [|r p' ap' ps' Hr _ IH]; [reflexivity|].
    cbn. rewrite IH, orb_false_r by (intros x Hx; apply Hall; now right).
    apply (page_record_of_key _ _ _ Hr).
    rewrite (Hall p') by now left. lia.
Qed.

Lemma process_pages_run : forall n p acc w,
  before_page env d buf s0 c0 u0 p w ->
  exists w',
    process_pages env buf d db c0 n p acc w
    = (Ok (acc ++ map (pushed env d buf s0 u0) (Zrange p n)), w')
    /\ page_effects env d buf s0 u0 (Zrange p n) w w'
    /\ clock w' = c0 + total_latency env buf (p + Z.of_nat n - 1)
    /\ uuids w' = (uuids w + n)%nat.
Proof.
  induction n as [|n IH]; intros p acc w Hb.
  - exists w. cbn [process_pages Zrange map]. rewrite app_nil_r.
    split; [reflexivity|]. split; [apply page_effects_nil|].
    split; [|lia]. replace (p + Z.of_nat 0 - 1) with (p - 1) by lia.
    apply (bp_clock _ _ _ _ _ _ _ _ Hb).
  - destruct (extractPageData_run p w Hb) as (r & w1 & Hrun & Hpush & He & Hc & Hu).
    pose proof (before_page_next p w w1 Hb He Hc Hu) as Hb1.
    destruct (IH (p + 1) (acc ++ [pushed env d buf s0 u0 p]) w1 Hb1)
      as (w' & Hloop & He' & Hc' & Hu').
    exists w'. split; [|split; [|split]].
    + cbn [process_pages]. unfold bind at 1. unfold try_catch, bind at 1.
      rewrite Hrun.
      destruct r as [v|e]; cbn in Hpush |- *; rewrite Hpush, Hloop;
        cbn [Zrange map]; now rewrite <- app_assoc.
    + change (Zrange p (S n)) with ([p] ++ Zrange (p + 1) n).
      eapply page_effects_trans; eassumption.
    + rewrite Hc'. f_equal. f_equal. lia.
    + rewrite Hu', Hu. lia.
Qed.

End RunFacts.

(** ** The whole run *)

Lemma update_rows_ids : forall d now st x rows,
  map UploadDocuments.documentId (update_rows d now st x rows)
  = map UploadDocuments.documentId rows.
Proof.
  intros. unfold update_rows. rewrite map_map. apply map_ext.
  intros r. now destruct (has_id d r).
Qed.

Lemma update_rows_taken : forall d now st x y rows s s',
  uploadDocuments s = rows ->
  uploadDocuments s' = update_rows d now st (Some x) rows ->
  extractionId_taken d (Some y) s' = extractionId_taken d (Some y) s.
Proof.
  intros d now st x y rows s s' Hs Hs'. unfold extractionId_taken.
  rewrite Hs, Hs'. clear Hs Hs'. unfold update_rows. f_equal.
  - induction rows as [|r rows IH]; cbn; [reflexivity|]. rewrite IH. f_equal.
    destruct (has_id d r) eqn:E; [exact E|exact E].
  - induction rows as [|r rows IH]; cbn; [reflexivity|]. rewrite IH. f_equal.
    destruct (has_id d r) eqn:E; cbn.
    + unfold has_id in *. cbn. now rewrite E.
    + now rewrite E.
Qed.

Lemma update_rows_status : forall d now st x rows,
  option_map UploadDocuments.extractionStatus
    (find (has_id d) (update_rows d now st x rows))
  = option_map (fun _ => st) (find (has_id d) rows).
Proof.
  intros. unfold update_rows.
  induction rows as [|r rows IH]; cbn; [reflexivity|].
  destruct (has_id d r) eqn:E.
  - unfold has_id in *. cbn. now rewrite E.
  - now rewrite E.
Qed.

Section WholeRun.

Variable env : Env.
Variable d : string.
Variable buf : Buffer.
Variable w : World.

Local Abbreviation x := (randomUUID env (uuids w)).
Local Abbreviation processing :=
  (update_rows d (clock w) PROCESSING (Some x) (uploadDocuments (db_store w))).
Local Abbreviation s1 :=
  (mkStore (users (db_store w)) (companies (db_store w))
     (branches (db_store w)) processing
     (extractedPageData (db_store w)) (documentTokenUsage (db_store w))).

(** The run id is refused: nothing is written, the run rejects. *)
Lemma run_refused :
  extractionId_taken d (Some x) (db_store w) = true ->
  exists w',
    extractPODDataFromPDF env d buf db w
    = (Throw (DatabaseError "upload_documents_extraction_id_unique"), w')
    /\ db_store w' = db_store w
    /\ history w'
       = history w ++ [(EvUpdateStatus d PROCESSING, db_store w);
                       (EvUpdateStatus d FAILED, db_store w)].
Proof.
  intros Ht.
  unfold extractPODDataFromPDF, bind, try_catch, Date_now, crypto_randomUUID,
    updateDocumentStatus, update_uploadDocuments, console_log, ret, throw.
  cbn [fst snd db_store clock uuids db_uuids history pending set_store].
  rewrite Ht. cbn -[extractionId_taken]. rewrite Ht. cbn.
  eexists. split; [reflexivity|]. split; [reflexivity|].
  cbn. now rewrite <- app_assoc.
Qed.

(** The PDF does not parse: the document is marked FAILED and the run
    rejects. *)
Lemma run_pdf_fails :
  extractionId_taken d (Some x) (db_store w) = false ->
  pdf env buf = None ->
  exists w' s,
    extractPODDataFromPDF env d buf db w = (Throw PdfParseError, w')
    /\ uploadDocuments s = processing
    /\ uploadDocuments (db_store w')
       = update_rows d (clock w) FAILED (Some x) processing
    /\ extractedPageData (db_store w') = extractedPageData (db_store w)
    /\ documentTokenUsage (db_store w') = documentTokenUsage (db_store w)
    /\ history w'
       = history w ++ [(EvUpdateStatus d PROCESSING, s); (EvPdf, s);
                       (EvUpdateStatus d FAILED, db_store w')].
Proof.
  intros Ht Hpdf.
  unfold extractPODDataFromPDF, bind, try_catch, Date_now, crypto_randomUUID,
    updateDocumentStatus, update_uploadDocuments, pdf_numpages,
    console_log, ret, throw.
  cbn [fst snd db_store clock uuids db_uuids history pending set_store].
  rewrite Ht, Hpdf. cbn -[extractionId_taken update_rows].
  erewrite update_rows_taken by (cbn; reflexivity). rewrite Ht. cbn.
  eexists. exists s1. split; [reflexivity|]. cbn.
  split; [reflexivity|]. split; [reflexivity|]. split; [reflexivity|].
  split; [reflexivity|]. now rewrite <- !app_assoc.
Qed.

(** The PDF parses to [N] pages: every page is attempted, the document is
    marked COMPLETED and the run returns what the loop pushed. *)
Lemma run_completes : forall N,
  extractionId_taken d (Some x) (db_store w) = false ->
  pdf env buf = Some N ->
  exists w' s events,
    extractPODDataFromPDF env d buf db w
    = (Ok (map (pushed env d buf (db_store w) (uuids w)) (page_numbers N)), w')
    /\ rows_added env d buf (db_store w) (uuids w) (page_numbers N)
         (db_store w) (db_store w')
    /\ uploadDocuments s = processing
    /\ uploadDocuments (db_store w')
       = update_rows d (clock w') COMPLETED (Some x) processing
    /\ clock w' = clock w + total_latency env buf N
    /\ pending w' = pending w
    /\ history w'
       = history w ++ (EvUpdateStatus d PROCESSING, s) :: (EvPdf, s)
                      :: events ++ [(EvUpdateStatus d COMPLETED, db_store w')]
    /\ Forall (fun es => page_work (fst es) = true
                         /\ uploadDocuments (snd es) = processing) events.
Proof.
  intros N Ht Hpdf.
  unfold extractPODDataFromPDF, bind at 1, Date_now.
  unfold bind at 1, crypto_randomUUID.
  unfold try_catch, bind at 1, updateDocumentStatus, update_uploadDocuments.
  cbn [fst snd db_store clock uuids db_uuids history pending set_store].
  rewrite Ht.
  unfold bind at 1, pdf_numpages. rewrite Hpdf.
  unfold bind at 1, console_log, ret at 1. unfold bind at 1.
  cbn [fst snd db_store clock uuids db_uuids history pending set_store].
  match goal with
  | |- context [process_pages _ _ _ _ _ _ _ _ ?wl] =>
      assert (Hb : before_page env d buf (db_store w) (clock w) (uuids w) 1 wl)
  end.
  { constructor; cbn.
    - lia.
    - unfold total_latency. cbn. lia.
    - lia.
    - unfold document_ids. cbn. apply update_rows_ids.
    - reflexivity. }
  destruct (process_pages_run env d buf (db_store w) (clock w) (uuids w)
              (Z.to_nat N) 1 [] _ Hb) as (w2 & Hloop & He & Hc & Hu).
  rewrite Hloop. clear Hloop Hb.
  destruct He as [D U C B P R [events [Hh Fe]]]. cbn in D, U, C, B, P, R, Hh, Fe.
  unfold bind at 1.
  cbn [fst snd db_store clock uuids db_uuids history pending set_store].
  rewrite (update_rows_taken d (clock w) PROCESSING x x _ (db_store w)
             (db_store w2) eq_refl D), Ht.
  unfold ret, set_store.
  cbn [app db_store clock uuids db_uuids history pending uploadDocuments
       extractedPageData documentTokenUsage users companies branches].
  eexists. exists s1. eexists. split; [reflexivity|].
  cbn [app db_store clock uuids db_uuids history pending uploadDocuments
       extractedPageData documentTokenUsage users companies branches].
  split.
  { destruct R as [[ap [Hap Fp]] [au [Hau Fu]]].
    cbn [extractedPageData documentTokenUsage] in Hap, Hau.
    constructor;
      cbn [app db_store extractedPageData documentTokenUsage]; eauto. }
  split; [reflexivity|].
  split; [now rewrite D|].
  split; [rewrite Hc; f_equal; unfold total_latency, page_numbers;
          do 3 f_equal; lia|].
  split; [exact P|].
  split; [|exact Fe].
  rewrite Hh, <- !app_assoc. reflexivity.
Qed.

End WholeRun.

Lemma total_latency_to_nat : forall env buf N,
  total_latency env buf (Z.of_nat (Z.to_nat N)) = total_latency env buf N.
Proof.
  intros. unfold total_latency, page_numbers. now rewrite Nat2Z.id.
Qed.

(** A run that returns has parsed the PDF and had its run id accepted. *)
Lemma run_returns : forall env d buf w res w',
  extractPODDataFromPDF env d buf db w = (Ok res, w') ->
  extractionId_taken d (Some (randomUUID env (uuids w))) (db_store w) = false
  /\ exists N, pdf env buf = Some N.
Proof.
  intros env d buf w res w' Hrun.
  destruct (extractionId_taken d (Some (randomUUID env (uuids w))) (db_store w))
    eqn:Ht.
  - destruct (run_refused env d buf w Ht) as (w1 & H1 & _). congruence.
  - split; [reflexivity|].
    destruct (pdf env buf) as [N|] eqn:Hpdf; [now exists N|].
    destruct (run_pdf_fails env d buf w Ht Hpdf) as (w1 & s & H1 & _).
    congruence.
Qed.

Lemma Forall2_In_r : forall {A B} (R : A -> B -> Prop) l l' y,
  Forall2 R l l' -> In y l' -> exists x, In x l /\ R x y.
Proof.
  intros A B R l l' y F. induction F as [|a b l l' Hab _ IH]; intros Hy.
  - contradiction.
  - destruct Hy as [<-|Hy].
    + exists a. split; [now left|exact Hab].
    + destruct (IH Hy) as (x & Hx & Hr). exists x. split; [now right|exact Hr].
Qed.

Lemma Forall2_In_l : forall {A B} (R : A -> B -> Prop) l l' x,
  Forall2 R l l' -> In x l -> exists y, In y l' /\ R x y.
Proof.
  intros A B R l l' x F. induction F as [|a b l l' Hab _ IH]; intros Hx.
  - contradiction.
  - destruct Hx as [<-|Hx].
    + exists b. split; [now left|exact Hab].
    + destruct (IH Hx) as (y & Hy & Hr). exists y. split; [now right|exact Hr].
Qed.

Lemma Forall2_map_eq : forall {A B C} (R : A -> B -> Prop)
    (f : A -> C) (g : B -> C) l l',
  Forall2 R l l' -> (forall a b, R a b -> f a = g b) -> map f l = map g l'.
Proof.
  intros A B C R f g l l' F H. induction F; cbn; [reflexivity|].
  f_equal; auto.
Qed.

Lemma map_pushed_pageNumber : forall env d buf s0 u0 ps,
  map ExtractedPODData.pageNumber (map (pushed env d buf s0 u0) ps) = ps.
Proof.
  intros. rewrite map_map. rewrite <- (map_id ps) at 2. apply map_ext.
  intros p. unfold pushed.
  destruct (generateObject env buf p); [reflexivity|].
  now destruct (page_succeeded env d buf s0 u0 p).
Qed.

(** ** C1: the pages a run returns and the pages it persists *)

(** C1 (as amended): when the PDF parses to [N] pages and the run returns,
    it returns exactly [N] page records with the page numbers 1 .. N in
    order; the Page Records it adds to the store belong to the document and
    are those of the pages whose model call returned and whose insert the
    store accepted, in page order; and for a page whose model call throws
    the placeholder is in the returned list while no Page Record of that
    page number is added. *)
Theorem extractPODDataFromPDF_pages : forall env d buf w N res w',
  pdf env buf = Some N ->
  extractPODDataFromPDF env d buf db w = (Ok res, w') ->
  map ExtractedPODData.pageNumber res = page_numbers N
  /\ exists added,
       extractedPageData (db_store w')
       = extractedPageData (db_store w) ++ added
       /\ (forall r, In r added -> ExtractedPageData.documentId r = d)
       /\ map ExtractedPageData.pageNumber added
          = filter (page_saved env d buf (db_store w)) (page_numbers N)
       /\ forall p e,
            In p (page_numbers N) ->
            generateObject env buf p = ModelThrows e ->
            In (placeholder p) res
            /\ ~ In p (map ExtractedPageData.pageNumber added).
Proof.
  intros env d buf w N res w' Hpdf Hrun.
  destruct (run_returns _ _ _ _ _ _ Hrun) as [Ht _].
  destruct (run_completes env d buf w N Ht Hpdf)
    as (w1 & s & events & Hrun1 & [[added [Hadd Fp]] _] & _).
  rewrite Hrun in Hrun1. injection Hrun1 as -> ->.
  split; [apply map_pushed_pageNumber|].
  exists added. split; [exact Hadd|].
  assert (Hnum : map ExtractedPageData.pageNumber added
                 = filter (page_saved env d buf (db_store w)) (page_numbers N)).
  { rewrite <- (map_id (filter _ _)).
    apply (Forall2_map_eq _ _ _ _ _ Fp).
    intros r p (id & now & o & u & _ & Hr).
    now apply page_row_fields in Hr as (_ & -> & _). }
  split; [|split; [exact Hnum|]].
  - intros r Hr.
    destruct (Forall2_In_l _ _ _ _ Fp Hr) as (p & _ & id & now & o & u & _ & Hrow).
    now apply page_row_fields in Hrow as (-> & _).
  - intros p e Hp Hg. split.
    + apply in_map_iff. exists p. split; [|exact Hp].
      unfold pushed. now rewrite Hg.
    + rewrite Hnum, filter_In. unfold page_saved. rewrite Hg.
      intros [_ Hf]. discriminate.
Qed.

Lemma extractPODDataFromPDF_pages_witness :
  exists res w',
    extractPODDataFromPDF Stub.two_pages "doc-1" [] db Stub.fresh_world
    = (Ok res, w')
    /\ map ExtractedPODData.pageNumber res = page_numbers 2
    /\ exists added,
         extractedPageData (db_store w')
         = extractedPageData (db_store Stub.fresh_world) ++ added
         /\ (forall r, In r added -> ExtractedPageData.documentId r = "doc-1")
         /\ map ExtractedPageData.pageNumber added
            = filter (page_saved Stub.two_pages "doc-1" []
                        (db_store Stub.fresh_world)) (page_numbers 2)
         /\ forall p e,
              In p (page_numbers 2) ->
              generateObject Stub.two_pages [] p = ModelThrows e ->
              In (placeholder p) res
              /\ ~ In p (map ExtractedPageData.pageNumber added).
Proof.
  do 2 eexists. split.
  - vm_compute. reflexivity.
  - apply (extractPODDataFromPDF_pages Stub.two_pages "doc-1" []
             Stub.fresh_world 2).
    + reflexivity.
    + vm_compute. reflexivity.
Defined.

(** C1 as stated fails: with two pages of which the second throws, the run
    returns two records, the second being the placeholder, but the store
    holds a single Page Record and none for page 2. *)
Lemma extractPODDataFromPDF_placeholder_not_persisted :
  let run := extractPODDataFromPDF Stub.two_pages "doc-1" [] db Stub.fresh_world in
  pdf Stub.two_pages [] = Some 2
  /\ (exists data, fst run = Ok [data; placeholder 2])
  /\ List.length (pages_of (db_store (snd run)) "doc-1") = 1%nat
  /\ map ExtractedPageData.pageNumber (pages_of (db_store (snd run)) "doc-1")
     = [1]
  /\ existsb (page_key_is "doc-1" 2) (extractedPageData (db_store (snd run)))
     = false.
Proof.
  cbv zeta. split; [reflexivity|]. split; [eexists; vm_compute; reflexivity|].
  repeat split; vm_compute; reflexivity.
Qed.

(** ** C2: one page fails, the others succeed *)

Lemma nth_error_Zrange : forall n from i,
  (i < n)%nat -> nth_error (Zrange from n) i = Some (from + Z.of_nat i).
Proof.
  induction n as [|n IH]; intros from i Hi; [lia|].
  destruct i as [|i]; cbn [Zrange nth_error].
  - f_equal. lia.
  - rewrite IH by lia. f_equal. lia.
Qed.

Lemma nth_error_page : forall N p,
  1 <= p <= N -> nth_error (page_numbers N) (Z.to_nat (p - 1)) = Some p.
Proof.
  intros N p Hp. unfold page_numbers. rewrite nth_error_Zrange by lia.
  f_equal. lia.
Qed.

Lemma status_of_completed : forall d s s' now now' x st0,
  status_of s d = Some st0 ->
  uploadDocuments s'
  = update_rows d now' COMPLETED (Some x)
      (update_rows d now PROCESSING (Some x) (uploadDocuments s)) ->
  status_of s' d = Some COMPLETED.
Proof.
  intros d s s' now now' x st0 Hs Hs'. unfold status_of in *.
  rewrite Hs', update_rows_status.
  assert (H : option_map UploadDocuments.extractionStatus
                (find (has_id d)
                   (update_rows d now PROCESSING (Some x) (uploadDocuments s)))
              = Some PROCESSING).
  { rewrite update_rows_status.
    destruct (find (has_id d) (uploadDocuments s)); [reflexivity|discriminate]. }
  destruct (find (has_id d) (update_rows d now PROCESSING (Some x) (uploadDocuments s)));
    [reflexivity|discriminate].
Qed.

Lemma page_row_scalars : forall id now d v r,
  page_row id now d v = Some r ->
  Column.varchar_null 255 (ExtractedPODData.pageDate v)
  = Some (ExtractedPageData.pageDate r)
  /\ Column.varchar_null 255 (ExtractedPODData.instructionNumber v)
     = Some (ExtractedPageData.instructionNumber r)
  /\ Column.varchar_null 255 (ExtractedPODData.vehicleNumber v)
     = Some (ExtractedPageData.vehicleNumber r)
  /\ Column.varchar_null 255 (ExtractedPODData.collectedFrom v)
     = Some (ExtractedPageData.collectedFrom r)
  /\ Column.varchar_null 255 (ExtractedPODData.deliveredTo v)
     = Some (ExtractedPageData.deliveredTo r).
Proof.
  intros id now d v r. unfold page_row.
  destruct (Column.smallint _); [|discriminate].
  destruct (Column.varchar_null 255 (ExtractedPODData.pageDate v));
    [|discriminate].
  destruct (Column.varchar_null 255 (ExtractedPODData.instructionNumber v));
    [|discriminate].
  destruct (Column.varchar_null 255 (ExtractedPODData.vehicleNumber v));
    [|discriminate].
  destruct (Column.varchar_null 255 (ExtractedPODData.collectedFrom v));
    [|discriminate].
  destruct (Column.varchar_null 255 (ExtractedPODData.deliveredTo v));
    [|discriminate].
  intros H. injection H as <-. cbn. repeat split; reflexivity.
Qed.

(** C2 (as amended): when the run id is accepted, the PDF parses to [N]
    pages, the model call of page [k] throws and the extraction of every
    other page succeeds, the run returns one record per page.  The record
    it returns for page [k] is the placeholder: page number [k], the three
    container arrays empty, [unsureFields = ["*all*"]] and none of the five
    other fields.  No Page Record is persisted for page [k]: a record of
    that page number found in the store afterwards was there before the
    run, and there is none when there was none.  For every other page the
    record returned carries each field as the model extracted it, and the
    Page Record persisted for it carries the same page number, arrays and
    uncertain fields, and the five other fields as their [varchar(255)]
    columns store them.  The document ends COMPLETED. *)
Theorem single_page_failure : forall env d buf w N k e st0,
  extractionId_taken d (Some (randomUUID env (uuids w))) (db_store w) = false ->
  status_of (db_store w) d = Some st0 ->
  pdf env buf = Some N ->
  1 <= k <= N ->
  generateObject env buf k = ModelThrows e ->
  (forall p, 1 <= p <= N -> p <> k ->
     page_succeeded env d buf (db_store w) (uuids w) p = true) ->
  exists res w',
    extractPODDataFromPDF env d buf db w = (Ok res, w')
    /\ List.length res = Z.to_nat N
    /\ (exists data,
          nth_error res (Z.to_nat (k - 1)) = Some data
          /\ ExtractedPODData.pageNumber data = k
          /\ ExtractedPODData.containerNumbers data = []
          /\ ExtractedPODData.containerSizes data = []
          /\ ExtractedPODData.fullEmptyStatuses data = []
          /\ ExtractedPODData.pageDate data = None
          /\ ExtractedPODData.instructionNumber data = None
          /\ ExtractedPODData.vehicleNumber data = None
          /\ ExtractedPODData.collectedFrom data = None
          /\ ExtractedPODData.deliveredTo data = None
          /\ ExtractedPODData.unsureFields data = ["*all*"])
    /\ (forall r,
          In r (pages_of (db_store w') d) ->
          ExtractedPageData.pageNumber r = k ->
          In r (pages_of (db_store w) d))
    /\ ((forall r, In r (pages_of (db_store w) d) ->
                   ExtractedPageData.pageNumber r <> k) ->
        forall r, In r (pages_of (db_store w') d) ->
                  ExtractedPageData.pageNumber r <> k)
    /\ (forall p o u,
          1 <= p <= N -> p <> k ->
          generateObject env buf p = ModelReturns o u ->
          (exists data,
             nth_error res (Z.to_nat (p - 1)) = Some data
             /\ ExtractedPODData.pageNumber data = p
             /\ ExtractedPODData.containerNumbers data
                = ExtractedPODSchema.containerNumbers o
             /\ ExtractedPODData.containerSizes data
                = ExtractedPODSchema.containerSizes o
             /\ ExtractedPODData.fullEmptyStatuses data
                = map (option_map FullEmpty_text)
                    (ExtractedPODSchema.fullEmptyStatuses o)
             /\ ExtractedPODData.pageDate data = ExtractedPODSchema.pageDate o
             /\ ExtractedPODData.instructionNumber data
                = ExtractedPODSchema.instructionNumber o
             /\ ExtractedPODData.vehicleNumber data
                = ExtractedPODSchema.vehicleNumber o
             /\ ExtractedPODData.collectedFrom data
                = ExtractedPODSchema.collectedFrom o
             /\ ExtractedPODData.deliveredTo data
                = ExtractedPODSchema.deliveredTo o
             /\ ExtractedPODData.unsureFields data
                = ExtractedPODSchema.unsureFields o)
          /\ exists r,
               In r (pages_of (db_store w') d)
               /\ ExtractedPageData.pageNumber r = p
               /\ ExtractedPageData.containerNumbers r
                  = ExtractedPODSchema.containerNumbers o
               /\ ExtractedPageData.containerSizes r
                  = ExtractedPODSchema.containerSizes o
               /\ ExtractedPageData.fullEmptyStatuses r
                  = map (option_map FullEmpty_text)
                      (ExtractedPODSchema.fullEmptyStatuses o)
               /\ Column.varchar_null 255 (ExtractedPODSchema.pageDate o)
                  = Some (ExtractedPageData.pageDate r)
               /\ Column.varchar_null 255
                    (ExtractedPODSchema.instructionNumber o)
                  = Some (ExtractedPageData.instructionNumber r)
               /\ Column.varchar_null 255 (ExtractedPODSchema.vehicleNumber o)
                  = Some (ExtractedPageData.vehicleNumber r)
               /\ Column.varchar_null 255 (ExtractedPODSchema.collectedFrom o)
                  = Some (ExtractedPageData.collectedFrom r)
               /\ Column.varchar_null 255 (ExtractedPODSchema.deliveredTo o)
                  = Some (ExtractedPageData.deliveredTo r)
               /\ ExtractedPageData.unsureFields r
                  = Some (ExtractedPODSchema.unsureFields o))
    /\ status_of (db_store w') d = Some COMPLETED.
Proof.
  intros env d buf w N k e st0 Ht Hst Hpdf Hk Hg Hothers.
  destruct (run_completes env d buf w N Ht Hpdf)
    as (w' & s & events & Hrun & [[added [Hadd Fp]] _] & _ & Hdocs & _).
  assert (Hkept : forall r,
            In r (pages_of (db_store w') d) ->
            ExtractedPageData.pageNumber r = k ->
            In r (pages_of (db_store w) d)).
  { intros r Hr Hrk. unfold pages_of in *.
    apply filter_In in Hr as [Hr Hd]. apply filter_In. split; [|exact Hd].
    rewrite Hadd in Hr. apply in_app_or in Hr as [Hr|Hr]; [exact Hr|].
    exfalso.
    destruct (Forall2_In_l _ _ _ _ Fp Hr)
      as (p & Hp & id & now & o & u & Hgp & Hrow).
    apply page_row_fields in Hrow as (_ & Hn & _).
    cbn [pageData_of ExtractedPODData.pageNumber] in Hn.
    assert (Hpk : p = k) by congruence.
    apply filter_In in Hp as [_ Hsaved].
    unfold page_saved in Hsaved. rewrite Hpk, Hg in Hsaved.
    discriminate. }
  do 2 eexists. split; [exact Hrun|].
  split; [rewrite length_map; unfold page_numbers; apply Zrange_length|].
  split; [|split; [exact Hkept|split; [|split]]].
  - exists (placeholder k).
    rewrite nth_error_map, (nth_error_page N k Hk). cbn [option_map].
    unfold pushed. rewrite Hg. repeat split; reflexivity.
  - intros Hnone r Hr Hrk. exact (Hnone r (Hkept r Hr Hrk) Hrk).
  - intros p o u Hp Hpk Hgp.
    pose proof (Hothers p Hp Hpk) as Hsucc. split.
    + exists (pageData_of p o). split; [|repeat split; reflexivity].
      rewrite nth_error_map, (nth_error_page N p Hp). cbn [option_map].
      unfold pushed. now rewrite Hgp, Hsucc.
    + assert (Hsaved : page_saved env d buf (db_store w) p = true).
      { unfold page_succeeded in Hsucc. unfold page_saved. rewrite Hgp in *.
        destruct u; [|exact Hsucc].
        now apply andb_true_iff in Hsucc as [-> _]. }
      assert (Hin : In p (filter (page_saved env d buf (db_store w))
                            (page_numbers N)))
        by (apply filter_In; split; [now apply page_numbers_In|exact Hsaved]).
      destruct (Forall2_In_r _ _ _ _ Fp Hin)
        as (r & Hr & id & now & o' & u' & Hg' & Hrow).
      rewrite Hgp in Hg'. injection Hg' as <- <-.
      pose proof (page_row_scalars _ _ _ _ _ Hrow)
        as (Hpd & Hins & Hveh & Hcf & Hdt).
      apply page_row_fields in Hrow as (Hd & Hn & Hc & Hs & Hf & Hun).
      exists r. split; [|now repeat split].
      unfold pages_of. apply filter_In. split.
      * rewrite Hadd. apply in_or_app. now right.
      * rewrite Hd. apply String.eqb_refl.
  - eapply status_of_completed; [exact Hst|exact Hdocs].
Qed.

Lemma single_page_failure_witness :
  pdf Stub2.middle_fails [] = Some 3
  /\ generateObject Stub2.middle_fails [] 2
     = ModelThrows (ProviderError "model call failed")
  /\ exists res w',
       extractPODDataFromPDF Stub2.middle_fails "doc-1" [] db Stub.fresh_world
       = (Ok res, w')
       /\ nth_error res 1 = Some (placeholder 2)
       /\ (forall r, In r (pages_of (db_store w') "doc-1") ->
                     ExtractedPageData.pageNumber r <> 2)
       /\ (exists r,
             In r (pages_of (db_store w') "doc-1")
             /\ ExtractedPageData.pageNumber r = 3
             /\ ExtractedPageData.containerNumbers r = [Some "ABCD1234567"]
             /\ ExtractedPageData.vehicleNumber r = Some "KA-01-AB-1234")
       /\ status_of (db_store w') "doc-1" = Some COMPLETED.
Proof.
  split; [reflexivity|]. split; [reflexivity|].
  destruct (single_page_failure Stub2.middle_fails "doc-1" []
              Stub.fresh_world 3 2 (ProviderError "model call failed") IDEAL)
    as (res & w' & Hrun & _ & (data & Hk & Hfields) & _ & Hnone & Hothers
        & Hst).
  - reflexivity.
  - reflexivity.
  - reflexivity.
  - lia.
  - reflexivity.
  - intros p Hp Hpk.
    assert (H : p = 1 \/ p = 3) by lia.
    destruct H as [ -> | -> ]; reflexivity.
  - exists res, w'. split; [exact Hrun|].
    split.
    { change (Z.to_nat (2 - 1)) with 1%nat in Hk.
      rewrite Hk. f_equal. destruct data.
      cbn in Hfields.
      destruct Hfields as (-> & -> & -> & -> & -> & -> & -> & -> & -> & ->).
      reflexivity. }
    split.
    { apply Hnone. intros r []. }
    split; [|exact Hst].
    destruct (Hothers 3 Stub2.full_page
                (Some (Usage.mk (Some 40) (Some 60) (Some 100))))
      as [_ (r & Hr & Hn & Hc & _ & _ & _ & _ & Hveh & _)];
      [lia|lia|reflexivity|].
    exists r. split; [exact Hr|]. split; [exact Hn|]. split; [exact Hc|].
    cbn in Hveh. now injection Hveh.
Defined.

(** C2 as stated fails: with three pages of which only the second throws,
    the run returns and the document ends COMPLETED, the pages 1 and 3 are
    persisted, but there is no Page Record for page 2 at all, so none with
    the three arrays empty and [unsureFields = ["*all*"]]; the placeholder
    is found in the returned list only. *)
Lemma single_page_failure_no_record :
  let run := extractPODDataFromPDF Stub2.middle_fails "doc-1" [] db
               Stub.fresh_world in
  pdf Stub2.middle_fails [] = Some 3
  /\ map (fun p => match generateObject Stub2.middle_fails [] p with
                   | ModelThrows _ => true
                   | ModelReturns _ _ => false
                   end) [1; 2; 3]
     = [false; true; false]
  /\ (exists first third, fst run = Ok [first; placeholder 2; third])
  /\ status_of (db_store (snd run)) "doc-1" = Some COMPLETED
  /\ map ExtractedPageData.pageNumber (pages_of (db_store (snd run)) "doc-1")
     = [1; 3]
  /\ filter (fun r => ExtractedPageData.pageNumber r =? 2)
       (extractedPageData (db_store (snd run)))
     = []
  /\ existsb (fun r => match ExtractedPageData.unsureFields r with
                       | Some ["*all*"] => true
                       | _ => false
                       end)
       (extractedPageData (db_store (snd run)))
     = false.
Proof.
  cbv zeta. split; [reflexivity|]. split; [reflexivity|].
  split; [do 2 eexists; vm_compute; reflexivity|].
  repeat split; vm_compute; reflexivity.
Qed.

(** ** C3: one usage record per page call that reports usage *)

(** C3 (as amended): a run that returns adds to the usage table exactly one
    Usage Record for each page whose model call reported usage metrics and
    whose records the store accepted, in page order and never an aggregate;
    the record of page [p] belongs to the document, carries the request id
    drawn by [crypto.randomUUID()] in that page's call (as the column
    [varchar(255)] stores it, which for an id of at most 255 characters is
    the id itself), the token counts of the model with a missing count
    replaced by 0, and as duration the time elapsed since the whole run
    began, which is the time taken by the model calls of the pages 1 .. p. *)
Theorem usage_record_per_page : forall env d buf w N res w',
  pdf env buf = Some N ->
  extractPODDataFromPDF env d buf db w = (Ok res, w') ->
  exists added,
    documentTokenUsage (db_store w') = documentTokenUsage (db_store w) ++ added
    /\ Forall2
         (fun r p =>
            exists o usage,
              generateObject env buf p = ModelReturns o (Some usage)
              /\ DocumentTokenUsage.documentId r = d
              /\ Column.varchar 255 (randomUUID env (uuids w + Z.to_nat p))
                 = Some (DocumentTokenUsage.requestId r)
              /\ ((String.length (randomUUID env (uuids w + Z.to_nat p))
                    <= 255)%nat ->
                  DocumentTokenUsage.requestId r
                  = randomUUID env (uuids w + Z.to_nat p))
              /\ DocumentTokenUsage.inputTokens r
                 = JS.or0 (Usage.promptTokens usage)
              /\ DocumentTokenUsage.candidatesTokens r
                 = JS.or0 (Usage.completionTokens usage)
              /\ DocumentTokenUsage.outputTokens r
                 = JS.or0 (Usage.completionTokens usage)
              /\ DocumentTokenUsage.totalTokens r
                 = JS.or0 (Usage.totalTokens usage)
              /\ DocumentTokenUsage.durationMs r = total_latency env buf p)
         added
         (filter (usage_saved env d buf (db_store w) (uuids w)) (page_numbers N)).
Proof.
  intros env d buf w N res w' Hpdf Hrun.
  destruct (run_returns _ _ _ _ _ _ Hrun) as [Ht _].
  destruct (run_completes env d buf w N Ht Hpdf)
    as (w1 & s & events & Hrun1 & [_ [added [Hadd Fu]]] & _).
  rewrite Hrun in Hrun1. injection Hrun1 as _ ->.
  exists added. split; [exact Hadd|].
  eapply Forall2_impl; [|exact Fu].
  intros r p (id & now & o & usage & Hg & Hrow).
  apply usage_row_fields in Hrow
    as (Hd & Hid & Hin & _ & _ & Hcand & _ & Hout & Htot & Hdur).
  exists o, usage. repeat split; try assumption.
  intros Hlen. cbn [u_requestId usage_of_page] in Hid.
  unfold request_id, Column.varchar in Hid.
  apply Nat.leb_le in Hlen. rewrite Hlen in Hid. now injection Hid as <-.
Qed.

Lemma usage_record_per_page_witness :
  exists res w' added,
    extractPODDataFromPDF Stub.three_pages "doc-1" [] db Stub.fresh_world
    = (Ok res, w')
    /\ documentTokenUsage (db_store w') = added
    /\ map DocumentTokenUsage.totalTokens added = [100; 150; 200]
    /\ map DocumentTokenUsage.candidatesTokens added = [60; 80; 0]
    /\ Forall2
         (fun r p =>
            Column.varchar 255 (randomUUID Stub.three_pages (Z.to_nat p))
            = Some (DocumentTokenUsage.requestId r)
            /\ DocumentTokenUsage.durationMs r
               = total_latency Stub.three_pages [] p)
         added [1; 2; 3].
Proof.
  destruct (usage_record_per_page Stub.three_pages "doc-1" [] Stub.fresh_world 3
              (map (pushed Stub.three_pages "doc-1" []
                      (db_store Stub.fresh_world) 0) (page_numbers 3))
              (snd (extractPODDataFromPDF Stub.three_pages "doc-1" [] db
                      Stub.fresh_world)))
    as (added & Hadd & F).
  - reflexivity.
  - vm_compute. reflexivity.
  - do 3 eexists. split; [vm_compute; reflexivity|].
    split; [exact Hadd|].
    split; [vm_compute in Hadd; now subst added|].
    split; [vm_compute in Hadd; now subst added|].
    change (filter _ (page_numbers 3)) with [1; 2; 3] in F.
    eapply Forall2_impl; [|exact F].
    intros r p (o & usage & _ & _ & Hid & _ & _ & _ & _ & _ & Hdur).
    split; [exact Hid|exact Hdur].
Defined.

(** C3 as stated fails on the duration: with three pages whose model calls
    take 100 ms each, the Usage Record of the second page call (request id
    "req-2") has a duration of 200 ms, the time since the run began, and not
    the 100 ms since that page's call began. *)
Lemma usage_duration_counts_from_run_start :
  let w' := snd (extractPODDataFromPDF Stub.three_pages "doc-1" [] db
                   Stub.fresh_world) in
  map DocumentTokenUsage.requestId (documentTokenUsage (db_store w'))
  = ["req-1"; "req-2"; "req-3"]
  /\ map DocumentTokenUsage.durationMs (documentTokenUsage (db_store w'))
     = [100; 200; 300]
  /\ map (latency Stub.three_pages []) [1; 2; 3] = [100; 100; 100]
  /\ exists r,
       nth_error (documentTokenUsage (db_store w')) 1 = Some r
       /\ DocumentTokenUsage.durationMs r <> latency Stub.three_pages [] 2.
Proof.
  cbv zeta. repeat split; try (vm_compute; reflexivity).
  eexists. split; [vm_compute; reflexivity|]. vm_compute. discriminate.
Qed.

(** ** C10: the token categories of a usage record *)

(** C10: in every Usage Record a run of the extraction adds,
    [outputTokens] equals [candidatesTokens], and [toolUsePromptTokens],
    [cachedContentTokens] and [thoughtsTokens] are 0. *)
Theorem usage_record_categories : forall env d buf w,
  exists added,
    documentTokenUsage
      (db_store (snd (extractPODDataFromPDF env d buf db w)))
    = documentTokenUsage (db_store w) ++ added
    /\ Forall
         (fun r =>
            DocumentTokenUsage.outputTokens r
            = DocumentTokenUsage.candidatesTokens r
            /\ DocumentTokenUsage.toolUsePromptTokens r = 0
            /\ DocumentTokenUsage.cachedContentTokens r = 0
            /\ DocumentTokenUsage.thoughtsTokens r = 0)
         added.
Proof.
  intros env d buf w.
  destruct (extractionId_taken d (Some (randomUUID env (uuids w))) (db_store w))
    eqn:Ht.
  - destruct (run_refused env d buf w Ht) as (w' & -> & Hs & _). cbn [snd].
    exists []. rewrite Hs, app_nil_r. split; [reflexivity|constructor].
  - destruct (pdf env buf) as [N|] eqn:Hpdf.
    + destruct (run_completes env d buf w N Ht Hpdf)
        as (w' & s & events & -> & [_ [added [Hadd Fu]]] & _).
      cbn [snd]. exists added. split; [exact Hadd|].
      apply Forall_forall. intros r Hr.
      destruct (Forall2_In_l _ _ _ _ Fu Hr)
        as (p & _ & id & now & o & usage & _ & Hrow).
      apply usage_row_fields in Hrow
        as (_ & _ & _ & Htool & Hcache & Hcand & Hth & Hout & _).
      rewrite Hout, Hcand, Htool, Hcache, Hth. cbn. auto.
    + destruct (run_pdf_fails env d buf w Ht Hpdf)
        as (w' & s & -> & _ & _ & _ & Hu & _).
      cbn [snd]. exists []. rewrite Hu, app_nil_r.
      split; [reflexivity|constructor].
Qed.

(** ** C4: the statuses a reader can see during a run *)

Lemma observed_In : forall {A} (l l' : list A) x,
  observed l l' -> In x l -> In x l'.
Proof.
  intros A l l' x O. induction O; cbn; intuition.
Qed.

Lemma observed_monotonic : forall seen l,
  observed seen l -> monotonic l -> monotonic seen.
Proof.
  intros seen l O. induction O as [|x l l' O IH|x l l' O IH]; cbn.
  - trivial.
  - intros [_ Hm]. auto.
  - intros [Hx Hm]. split; [|auto].
    intros b Hb. apply Hx. eapply observed_In; eassumption.
Qed.

Lemma monotonic_const : forall c l,
  (forall a, In a l -> a = c) -> monotonic l.
Proof.
  intros c l. induction l as [|a l IH]; cbn; intros H; [trivial|]. split.
  - intros b Hb. rewrite (H a), (H b) by auto. lia.
  - apply IH. auto.
Qed.

Lemma monotonic_app : forall l1 l2,
  monotonic l1 -> monotonic l2 ->
  (forall a b, In a l1 -> In b l2 -> (stage a <= stage b)%nat) ->
  monotonic (l1 ++ l2).
Proof.
  induction l1 as [|a l1 IH]; cbn; intros l2 H1 H2 H; [exact H2|].
  destruct H1 as [Ha H1]. split.
  - intros b Hb. apply in_app_or in Hb as [Hb|Hb]; auto.
  - apply IH; auto.
Qed.

Lemma statuses_app : forall d l1 l2,
  statuses d (l1 ++ l2) = statuses d l1 ++ statuses d l2.
Proof.
  intros d l1 l2. induction l1 as [|[e s] l1 IH]; cbn; [reflexivity|].
  destruct (status_of s d); cbn; now rewrite IH.
Qed.

Lemma statuses_In : forall d l st,
  In st (statuses d l) -> exists e s, In (e, s) l /\ status_of s d = Some st.
Proof.
  intros d l st. induction l as [|[e s] l IH]; cbn; [contradiction|].
  destruct (status_of s d) as [st'|] eqn:E.
  - intros [<-|H].
    + exists e, s. auto.
    + destruct (IH H) as (e' & s' & Hin & Hs). exists e', s'. auto.
  - intros H. destruct (IH H) as (e' & s' & Hin & Hs). exists e', s'. auto.
Qed.

Lemma find_update_rows : forall d now st x rows,
  find (has_id d) (update_rows d now st x rows)
  = option_map (set_status now st x) (find (has_id d) rows).
Proof.
  intros. unfold update_rows.
  induction rows as [|r rows IH]; cbn; [reflexivity|].
  destruct (has_id d r) eqn:E.
  - unfold has_id in *. cbn. now rewrite E.
  - now rewrite E.
Qed.

Lemma status_of_updated : forall d now st x s s' st',
  uploadDocuments s' = update_rows d now st x (uploadDocuments s) ->
  status_of s' d = Some st' -> st' = st.
Proof.
  intros d now st x s s' st' Hs. unfold status_of.
  rewrite Hs, update_rows_status.
  destruct (find (has_id d) (uploadDocuments s)); cbn; congruence.
Qed.

Lemma status_of_rows : forall d rows s st',
  uploadDocuments s = rows ->
  status_of s d = Some st' ->
  option_map UploadDocuments.extractionStatus (find (has_id d) rows) = Some st'.
Proof. intros d rows s st' <-. auto. Qed.

(** C4: the first thing a run does is the update to PROCESSING, with the
    run id just drawn; every step of page work (model call, page insert,
    usage insert) happens on a store where the document, when it exists, is
    PROCESSING under that run id; the statuses a reader polling during the
    run can see, in the order seen, never step back along
    IDEAL -> PROCESSING -> {COMPLETED, FAILED}; and the same holds with the
    status IDEAL, seen before the run's first write, put in front. *)
Theorem status_monotonic : forall env d buf w,
  exists s events,
    history (snd (extractPODDataFromPDF env d buf db w))
    = history w ++ (EvUpdateStatus d PROCESSING, s) :: events
    /\ (extractionId_taken d (Some (randomUUID env (uuids w))) (db_store w)
        = false ->
        forall r,
          find (has_id d) (uploadDocuments s) = Some r ->
          UploadDocuments.extractionStatus r = PROCESSING
          /\ UploadDocuments.extractionId r = Some (randomUUID env (uuids w)))
    /\ (forall e s' r,
          In (e, s') events -> page_work e = true ->
          find (has_id d) (uploadDocuments s') = Some r ->
          UploadDocuments.extractionStatus r = PROCESSING
          /\ UploadDocuments.extractionId r = Some (randomUUID env (uuids w)))
    /\ (forall seen,
          observed seen (statuses d ((EvUpdateStatus d PROCESSING, s) :: events)) ->
          monotonic seen)
    /\ (status_of (db_store w) d = Some IDEAL ->
        forall seen,
          observed seen
            (IDEAL :: statuses d ((EvUpdateStatus d PROCESSING, s) :: events)) ->
          monotonic seen).
Proof.
  intros env d buf w.
  assert (Hfront : forall l, monotonic l -> monotonic (IDEAL :: l))
    by (intros l Hl; split; [intros b _; cbn; lia|exact Hl]).
  assert (Hfirst : forall s,
    uploadDocuments s
    = update_rows d (clock w) PROCESSING (Some (randomUUID env (uuids w)))
        (uploadDocuments (db_store w)) ->
    forall r,
      find (has_id d) (uploadDocuments s) = Some r ->
      UploadDocuments.extractionStatus r = PROCESSING
      /\ UploadDocuments.extractionId r = Some (randomUUID env (uuids w))).
  { intros s Hs r Hfind. rewrite Hs, find_update_rows in Hfind.
    destruct (find (has_id d) (uploadDocuments (db_store w))); [|discriminate].
    injection Hfind as <-. split; reflexivity. }
  assert (Hgoal : forall s events,
    (extractionId_taken d (Some (randomUUID env (uuids w))) (db_store w)
     = false ->
     forall r,
       find (has_id d) (uploadDocuments s) = Some r ->
       UploadDocuments.extractionStatus r = PROCESSING
       /\ UploadDocuments.extractionId r = Some (randomUUID env (uuids w))) ->
    (forall e s' r,
        In (e, s') events -> page_work e = true ->
        find (has_id d) (uploadDocuments s') = Some r ->
        UploadDocuments.extractionStatus r = PROCESSING
        /\ UploadDocuments.extractionId r = Some (randomUUID env (uuids w))) ->
    monotonic (statuses d ((EvUpdateStatus d PROCESSING, s) :: events)) ->
    (extractionId_taken d (Some (randomUUID env (uuids w))) (db_store w)
     = false ->
     forall r,
       find (has_id d) (uploadDocuments s) = Some r ->
       UploadDocuments.extractionStatus r = PROCESSING
       /\ UploadDocuments.extractionId r = Some (randomUUID env (uuids w)))
    /\ (forall e s' r,
        In (e, s') events -> page_work e = true ->
        find (has_id d) (uploadDocuments s') = Some r ->
        UploadDocuments.extractionStatus r = PROCESSING
        /\ UploadDocuments.extractionId r = Some (randomUUID env (uuids w)))
    /\ (forall seen,
          observed seen (statuses d ((EvUpdateStatus d PROCESSING, s) :: events)) ->
          monotonic seen)
    /\ (status_of (db_store w) d = Some IDEAL ->
        forall seen,
          observed seen
            (IDEAL :: statuses d ((EvUpdateStatus d PROCESSING, s) :: events)) ->
          monotonic seen)).
  { intros s events Hset Hwork Hmono. split; [exact Hset|].
    split; [exact Hwork|]. split.
    - intros seen O. eapply observed_monotonic; eassumption.
    - intros _ seen O. eapply observed_monotonic; [exact O|]. now apply Hfront. }
  destruct (extractionId_taken d (Some (randomUUID env (uuids w))) (db_store w))
    eqn:Ht.
  - (* the run id is refused *)
    destruct (run_refused env d buf w Ht) as (w' & -> & Hs & Hh). cbn [snd].
    do 2 eexists. split; [exact Hh|]. apply Hgoal.
    + congruence.
    + intros e s' r [H|[]]. injection H as <- <-. discriminate.
    + cbn. destruct (status_of (db_store w) d) as [st|]; cbn; auto.
      split; [intros b [<-|[]]; lia|]. split; [intros b []|trivial].
  - destruct (pdf env buf) as [N|] eqn:Hpdf.
    + (* the run completes *)
      destruct (run_completes env d buf w N Ht Hpdf)
        as (w' & s & events & -> & _ & Hs & Hdocs & _ & _ & Hh & Fe).
      cbn [snd]. do 2 eexists. split; [exact Hh|]. apply Hgoal.
      * intros _. now apply Hfirst.
      * intros e s' r Hin Hw Hfind. cbn in Hin. destruct Hin as [H|Hin].
        { injection H as <- <-. discriminate. }
        apply in_app_or in Hin as [Hin|[H|[]]].
        2:{ injection H as <- <-. discriminate. }
        rewrite Forall_forall in Fe. destruct (Fe _ Hin) as [_ Hsnap].
        cbn [snd] in Hsnap. now apply (Hfirst s').
      * change ((EvUpdateStatus d PROCESSING, s) :: (EvPdf, s)
                :: events ++ [(EvUpdateStatus d COMPLETED, db_store w')])
          with (((EvUpdateStatus d PROCESSING, s) :: (EvPdf, s) :: events)
                ++ [(EvUpdateStatus d COMPLETED, db_store w')]).
        rewrite statuses_app. apply monotonic_app.
        -- apply (monotonic_const PROCESSING). intros a Ha.
           apply statuses_In in Ha as (e & s' & Hin & Hst).
           assert (Hsnap : uploadDocuments s'
                           = update_rows d (clock w) PROCESSING
                               (Some (randomUUID env (uuids w)))
                               (uploadDocuments (db_store w))).
           { destruct Hin as [H|[H|Hin]];
               [injection H as _ <-; exact Hs
               |injection H as _ <-; exact Hs|].
             rewrite Forall_forall in Fe. now destruct (Fe _ Hin). }
           eapply status_of_updated; eassumption.
        -- apply (monotonic_const COMPLETED). intros a Ha.
           apply statuses_In in Ha as (e & s' & [H|[]] & Hst).
           injection H as _ <-.
           eapply status_of_updated; [|exact Hst]. rewrite Hs. exact Hdocs.
        -- intros a b Ha Hb.
           apply statuses_In in Hb as (e & s' & [H|[]] & Hst).
           injection H as _ <-.
           assert (b = COMPLETED) as ->
             by (eapply status_of_updated; [|exact Hst]; rewrite Hs; exact Hdocs).
           destruct a; cbn; lia.
    + (* the PDF does not parse *)
      destruct (run_pdf_fails env d buf w Ht Hpdf)
        as (w' & s & -> & Hs & Hdocs & _ & _ & Hh).
      cbn [snd]. do 2 eexists. split; [exact Hh|]. apply Hgoal.
      * intros _. now apply Hfirst.
      * intros e s' r [H|[H|[]]]; injection H as <- <-; discriminate.
      * change [(EvUpdateStatus d PROCESSING, s); (EvPdf, s);
                (EvUpdateStatus d FAILED, db_store w')]
          with ([(EvUpdateStatus d PROCESSING, s); (EvPdf, s)]
                ++ [(EvUpdateStatus d FAILED, db_store w')]).
        rewrite statuses_app. apply monotonic_app.
        -- apply (monotonic_const PROCESSING). intros a Ha.
           apply statuses_In in Ha as (e & s' & Hin & Hst).
           assert (Hsnap : uploadDocuments s'
                           = update_rows d (clock w) PROCESSING
                               (Some (randomUUID env (uuids w)))
                               (uploadDocuments (db_store w)))
             by (destruct Hin as [H|[H|[]]]; injection H as _ <-; exact Hs).
           eapply status_of_updated; eassumption.
        -- apply (monotonic_const FAILED). intros a Ha.
           apply statuses_In in Ha as (e & s' & [H|[]] & Hst).
           injection H as _ <-.
           eapply status_of_updated; [|exact Hst]. rewrite Hs. exact Hdocs.
        -- intros a b Ha Hb.
           apply statuses_In in Hb as (e & s' & [H|[]] & Hst).
           injection H as _ <-.
           assert (b = FAILED) as ->
             by (eapply status_of_updated; [|exact Hst]; rewrite Hs; exact Hdocs).
           destruct a; cbn; lia.
Qed.

Lemma observed_refl : forall {A} (l : list A), observed l l.
Proof.
  induction l; [apply observed_nil|now apply observed_take].
Qed.

Lemma status_monotonic_witness :
  status_of (db_store Stub.fresh_world) "doc-1" = Some IDEAL
  /\ exists s events,
       history (snd (extractPODDataFromPDF Stub.two_pages "doc-1" [] db
                       Stub.fresh_world))
       = history Stub.fresh_world
         ++ (EvUpdateStatus "doc-1" PROCESSING, s) :: events
       /\ monotonic
            (IDEAL :: statuses "doc-1"
                        ((EvUpdateStatus "doc-1" PROCESSING, s) :: events)).
Proof.
  split; [reflexivity|].
  destruct (status_monotonic Stub.two_pages "doc-1" [] Stub.fresh_world)
    as (s & events & Hh & _ & _ & _ & Hm).
  exists s, events. split; [exact Hh|].
  apply Hm; [reflexivity|apply observed_refl].
Defined.

(** ** Ordered queries *)

Section OrderBy.

Context {A : Type}.
Variable le : A -> A -> bool.
Hypothesis le_total : forall a b, le a b = true \/ le b a = true.
Hypothesis le_trans : forall a b c,
  le a b = true -> le b c = true -> le a c = true.

Lemma insert_by_perm : forall x l, Permutation (insert_by le x l) (x :: l).
Proof.
  intros x l. induction l as [|y l IH]; cbn; [reflexivity|].
  destruct (le x y); [reflexivity|].
  rewrite IH. apply perm_swap.
Qed.

Lemma orderBy_perm : forall l, Permutation (orderBy le l) l.
Proof.
  induction l as [|x l IH]; cbn; [constructor|].
  rewrite insert_by_perm. now constructor.
Qed.

Lemma insert_by_sorted : forall x l,
  StronglySorted (fun a b => le a b = true) l ->
  StronglySorted (fun a b => le a b = true) (insert_by le x l).
Proof.
  intros x l S. induction S as [|y l S IH Hy]; cbn.
  - repeat constructor.
  - destruct (le x y) eqn:E.
    + constructor; [now constructor|].
      constructor; [exact E|].
      eapply Forall_impl; [|exact Hy]. intros z Hz. eauto.
    + constructor; [exact IH|].
      assert (Hyx : le y x = true)
        by (destruct (le_total x y); congruence).
      rewrite Forall_forall in *. intros z Hz.
      apply (Permutation_in _ (insert_by_perm x l)) in Hz.
      destruct Hz as [<-|Hz]; auto.
Qed.

Lemma orderBy_sorted : forall l,
  StronglySorted (fun a b => le a b = true) (orderBy le l).
Proof.
  induction l as [|x l IH]; cbn; [constructor|].
  now apply insert_by_sorted.
Qed.

End OrderBy.

Lemma desc_createdAt_total : forall a b,
  desc_createdAt a b = true \/ desc_createdAt b a = true.
Proof. intros a b. unfold desc_createdAt. lia. Qed.

Lemma desc_createdAt_trans : forall a b c,
  desc_createdAt a b = true -> desc_createdAt b c = true ->
  desc_createdAt a c = true.
Proof. intros a b c. unfold desc_createdAt. lia. Qed.

Lemma asc_pageNumber_total : forall a b,
  asc_pageNumber a b = true \/ asc_pageNumber b a = true.
Proof. intros a b. unfold asc_pageNumber. lia. Qed.

Lemma asc_pageNumber_trans : forall a b c,
  asc_pageNumber a b = true -> asc_pageNumber b c = true ->
  asc_pageNumber a c = true.
Proof. intros a b c. unfold asc_pageNumber. lia. Qed.

(** ** C9: a status update without a database handle *)

(** C9: called without a database handle, [updateDocumentStatus] returns
    normally and leaves the world, the store included, exactly as it was. *)
Theorem updateDocumentStatus_without_db :
  forall documentId status extractionId w,
    updateDocumentStatus documentId status extractionId None w = (Ok tt, w).
Proof. reflexivity. Qed.

(** ** C8: reading a document that is not there *)

Lemma find_has_id_none : forall id rows,
  ~ In id (map UploadDocuments.documentId rows) ->
  find (has_id id) rows = None.
Proof.
  intros id rows H. induction rows as [|r rows IH]; cbn; [reflexivity|].
  unfold has_id at 1. destruct (String.eqb_spec (UploadDocuments.documentId r) id).
  - exfalso. apply H. now left.
  - apply IH. intros Hin. apply H. now right.
Qed.

Lemma find_has_id_some : forall id rows,
  In id (map UploadDocuments.documentId rows) ->
  exists doc,
    find (has_id id) rows = Some doc
    /\ In doc rows /\ UploadDocuments.documentId doc = id.
Proof.
  intros id rows H. induction rows as [|r rows IH]; cbn in *; [contradiction|].
  unfold has_id at 1. destruct (String.eqb_spec (UploadDocuments.documentId r) id).
  - exists r. auto.
  - destruct H as [H|H]; [contradiction|].
    destruct (IH H) as (doc & Hf & Hin & Hid). exists doc. auto.
Qed.

(** C8: for an id that no document of the store carries, [getDocument] and
    [getExtractionStatus] both throw instead of returning a value, and for
    an id of the form the input schema asks for the error is
    "Document not found"; for an id some document carries they return, the
    first that document and the second its id, status and extraction id,
    and the world is as before. *)
Theorem read_paths_not_found : forall env id w,
  (~ In id (document_ids (db_store w)) ->
   (exists e, documentRouter.getDocument env id w = (Throw e, w))
   /\ (exists e, documentRouter.getExtractionStatus env id w = (Throw e, w))
   /\ (z_uuid env id = true ->
       documentRouter.getDocument env id w
       = (Throw (JsError "Document not found"), w)
       /\ documentRouter.getExtractionStatus env id w
          = (Throw (JsError "Document not found"), w)))
  /\ (In id (document_ids (db_store w)) ->
      z_uuid env id = true ->
      exists doc,
        In doc (uploadDocuments (db_store w))
        /\ UploadDocuments.documentId doc = id
        /\ documentRouter.getDocument env id w = (Ok doc, w)
        /\ documentRouter.getExtractionStatus env id w
           = (Ok (documentRouter.mk_status_output id
                    (UploadDocuments.extractionStatus doc)
                    (UploadDocuments.extractionId doc)), w)).
Proof.
  intros env id w. unfold document_ids.
  unfold documentRouter.getDocument, documentRouter.getExtractionStatus,
    documentRouter.parse_documentId, bind, query, ret, throw.
  split.
  - intros Hno. apply find_has_id_none in Hno.
    destruct (z_uuid env id); cbn; rewrite ?Hno; repeat split; eauto;
      discriminate.
  - intros Hin Hid. apply find_has_id_some in Hin as (doc & Hf & Hin & Hd).
    exists doc. rewrite Hid. cbn. rewrite Hf, Hd. auto.
Qed.

Lemma read_paths_not_found_witness :
  In "doc-1" (document_ids Stub.fresh_store)
  /\ ~ In "doc-9" (document_ids Stub.fresh_store)
  /\ documentRouter.getDocument Stub.two_pages "doc-9" Stub.fresh_world
     = (Throw (JsError "Document not found"), Stub.fresh_world)
  /\ documentRouter.getExtractionStatus Stub.two_pages "doc-9" Stub.fresh_world
     = (Throw (JsError "Document not found"), Stub.fresh_world)
  /\ exists doc,
       documentRouter.getDocument Stub.two_pages "doc-1" Stub.fresh_world
       = (Ok doc, Stub.fresh_world)
       /\ documentRouter.getExtractionStatus Stub.two_pages "doc-1"
            Stub.fresh_world
          = (Ok (documentRouter.mk_status_output "doc-1" IDEAL None),
             Stub.fresh_world).
Proof.
  assert (Hin : In "doc-1" (document_ids Stub.fresh_store)) by (now left).
  assert (Hno : ~ In "doc-9" (document_ids Stub.fresh_store))
    by (intros [H|[]]; discriminate).
  split; [exact Hin|]. split; [exact Hno|].
  destruct (read_paths_not_found Stub.two_pages "doc-9" Stub.fresh_world)
    as [Hmiss _].
  destruct (Hmiss Hno) as (_ & _ & Hnf).
  destruct (Hnf eq_refl) as [H1 H2].
  split; [exact H1|]. split; [exact H2|].
  destruct (read_paths_not_found Stub.two_pages "doc-1" Stub.fresh_world)
    as [_ Hhit].
  destruct (Hhit Hin eq_refl) as (doc & Hd & Hid & Hg & Hs).
  exists doc. split; [exact Hg|].
  rewrite Hs. destruct Hd as [<-|[]]. reflexivity.
Defined.

(** ** C7: a page record read back *)

Lemma StronglySorted_weaken : forall {A} (R R' : A -> A -> Prop) l,
  (forall a b, R a b -> R' a b) -> StronglySorted R l -> StronglySorted R' l.
Proof.
  intros A R R' l H S. induction S as [|x l S IH Hx]; constructor; auto.
  eapply Forall_impl; [|exact Hx]. auto.
Qed.

(** C7: once [saveExtractedPageData] has written a page record of a
    document, [getExtractedData] for that document returns a list ordered by
    page number ascending in which exactly one record has that page number,
    and this record holds the three arrays, element for element with their
    nulls, and the list of unsure fields as they were written. *)
Theorem page_record_round_trip : forall env d pageData w w',
  z_uuid env d = true ->
  saveExtractedPageData env d pageData db w = (Ok tt, w') ->
  exists pages r,
    documentRouter.getExtractedData env d w' = (Ok pages, w')
    /\ StronglySorted
         (fun a b => ExtractedPageData.pageNumber a
                     <= ExtractedPageData.pageNumber b) pages
    /\ In r pages
    /\ ExtractedPageData.pageNumber r = ExtractedPODData.pageNumber pageData
    /\ ExtractedPageData.containerNumbers r
       = ExtractedPODData.containerNumbers pageData
    /\ ExtractedPageData.containerSizes r
       = ExtractedPODData.containerSizes pageData
    /\ ExtractedPageData.fullEmptyStatuses r
       = ExtractedPODData.fullEmptyStatuses pageData
    /\ ExtractedPageData.unsureFields r
       = Some (ExtractedPODData.unsureFields pageData)
    /\ forall r',
         In r' pages ->
         ExtractedPageData.pageNumber r'
         = ExtractedPODData.pageNumber pageData ->
         r' = r.
Proof.
  intros env d pageData w w' Hid Hsave.
  unfold saveExtractedPageData, insert_extractedPageData in Hsave.
  destruct (page_row _ _ d pageData) as [r|] eqn:Hrow; [|discriminate].
  destruct (existsb _ _) eqn:Hkey in Hsave; [discriminate|].
  destruct (negb _) in Hsave; [discriminate|].
  injection Hsave as <-.
  apply page_row_fields in Hrow as (Hd & Hn & Hc & Hs & Hf & Hu).
  unfold documentRouter.getExtractedData, documentRouter.parse_documentId,
    bind, query, ret.
  rewrite Hid. cbn.
  set (rows := filter _ (extractedPageData (db_store w) ++ [r])).
  assert (Hperm : Permutation (orderBy asc_pageNumber rows) rows)
    by apply orderBy_perm.
  exists (orderBy asc_pageNumber rows), r.
  split; [reflexivity|]. split; [|split; [|repeat split; try assumption]].
  - eapply StronglySorted_weaken;
      [|apply (orderBy_sorted _ asc_pageNumber_total asc_pageNumber_trans)].
    intros a b. unfold asc_pageNumber. lia.
  - apply (Permutation_in _ (Permutation_sym Hperm)).
    apply filter_In. split; [apply in_or_app; right; now left|].
    rewrite Hd. apply String.eqb_refl.
  - intros r' Hin Hp. apply (Permutation_in _ Hperm) in Hin.
    apply filter_In in Hin as [Hin Hd'].
    apply in_app_or in Hin as [Hin|[<-|[]]]; [|reflexivity].
    exfalso.
    assert (Hex : existsb (page_key_is d (ExtractedPODData.pageNumber pageData))
                    (extractedPageData (db_store w)) = true).
    { apply existsb_exists. exists r'. split; [exact Hin|].
      unfold page_key_is. rewrite Hd', Hp. cbn. apply Z.eqb_refl. }
    congruence.
Qed.

(** The store takes a page record with nulls in its arrays, and the record
    read back is that record. *)
Lemma page_record_round_trip_witness :
  exists w' pages r,
    saveExtractedPageData Stub.two_pages "doc-1" Stub.nulls db Stub.fresh_world
    = (Ok tt, w')
    /\ documentRouter.getExtractedData Stub.two_pages "doc-1" w' = (Ok pages, w')
    /\ In r pages
    /\ ExtractedPageData.containerNumbers r = [Some "A1"; None]
    /\ ExtractedPageData.containerSizes r = [Some "20ft"; None]
    /\ ExtractedPageData.fullEmptyStatuses r = [Some "FULL"; None]
    /\ ExtractedPageData.unsureFields r = Some ["containerSizes"].
Proof.
  destruct (page_record_round_trip Stub.two_pages "doc-1" Stub.nulls
              Stub.fresh_world
              (snd (saveExtractedPageData Stub.two_pages "doc-1" Stub.nulls db
                      Stub.fresh_world)))
    as (pages & r & Hget & _ & Hin & _ & Hc & Hs & Hf & Hu & _).
  - reflexivity.
  - reflexivity.
  - do 3 eexists. split; [reflexivity|]. split; [exact Hget|].
    split; [exact Hin|]. repeat split; assumption.
Defined.

(** ** C6: listing documents *)




(** ** C5: what an upload returns and what it starts *)

Lemma insert_uploadDocuments_ok : forall env v w r w',
  insert_uploadDocuments env v w = (Ok r, w') ->
  UploadDocuments.documentId r = gen_random_uuid env (db_uuids w)
  /\ UploadDocuments.extractionStatus r = v_extractionStatus v
  /\ uploadDocuments (db_store w') = uploadDocuments (db_store w) ++ [r]
  /\ extractedPageData (db_store w') = extractedPageData (db_store w)
  /\ documentTokenUsage (db_store w') = documentTokenUsage (db_store w)
  /\ pending w' = pending w
  /\ history w'
     = history w ++ [(EvInsertDocument (UploadDocuments.documentId r),
                      db_store w')].
Proof.
  intros env v w r w'. unfold insert_uploadDocuments.
  destruct (Column.varchar 255 (v_instructionNumber v)); [|discriminate].
  repeat match goal with
         | |- context [if negb ?b then _ else _] =>
             destruct b; cbn [negb]; try discriminate
         end.
  intros H. injection H as <- <-. cbn. repeat split; reflexivity.
Qed.

(** C5 (as amended): the two upload paths differ.  The [upload] procedure
    of the document router, when it returns, returns the identifier of the
    document created together with the status IDEAL, the document being in
    the store with that status, and starts nothing: no promise is left
    pending.  The POST /api/upload-document endpoint, when it answers 200,
    answers with the identifier of the document created and no status
    field, the document being in the store with status IDEAL; no step of
    the extraction has happened by then, and the extraction of that document
    on the uploaded bytes is left pending as a promise nobody awaits, which
    a later turn of the event loop runs. *)
Theorem upload_and_extraction_start : forall env w,
  (forall input out w',
     documentRouter.upload env input w = (Ok out, w') ->
     documentRouter.out_extractionStatus out = IDEAL
     /\ (exists row,
           uploadDocuments (db_store w') = uploadDocuments (db_store w) ++ [row]
           /\ UploadDocuments.documentId row = documentRouter.out_documentId out
           /\ UploadDocuments.extractionStatus row = IDEAL)
     /\ pending w' = pending w
     /\ history w'
        = history w ++ [(EvInsertDocument (documentRouter.out_documentId out),
                         db_store w')])
  /\ (forall req resp w',
        Server.upload_document env req w = (resp, w') ->
        Server.status resp = 200 ->
        exists f id,
          Server.file req = Some f
          /\ Server.field "success" resp = Some (Server.JBool true)
          /\ Server.field "documentId" resp = Some (Server.JString id)
          /\ Server.field "extractionStatus" resp = None
          /\ Server.field "status" resp = None
          /\ (exists row,
                uploadDocuments (db_store w')
                = uploadDocuments (db_store w) ++ [row]
                /\ UploadDocuments.documentId row = id
                /\ UploadDocuments.extractionStatus row = IDEAL)
          /\ extractedPageData (db_store w') = extractedPageData (db_store w)
          /\ documentTokenUsage (db_store w') = documentTokenUsage (db_store w)
          /\ history w'
             = history w ++ [(EvInsertDocument id, db_store w')]
          /\ pending w' = pending w ++ [TaskExtract id (Server.buffer f)]
          /\ (pending w = [] ->
              Server.event_loop_turn env w'
              = snd (extractPODDataFromPDF env id (Server.buffer f) db
                       (mkWorld (db_store w') (clock w') (uuids w')
                          (db_uuids w') (history w') [])))).
Proof.
  intros env w. split.
  - intros input out w'. unfold documentRouter.upload.
    destruct (documentRouter.parse_upload_input env input) as [size|e];
      [|discriminate].
    unfold bind, console_log, ret.
    destruct (insert_uploadDocuments env _ w) as [[row|e] w1] eqn:Hins;
      [|discriminate].
    intros H. injection H as <- <-.
    apply insert_uploadDocuments_ok in Hins
      as (Hid & Hst & Hdocs & _ & _ & Hp & Hh).
    cbn in *. repeat split; eauto.
  - intros req resp w'. unfold Server.upload_document.
    destruct (Server.multer_single req) as [f|e] eqn:Hm.
    2:{ intros H. injection H as <- <-. discriminate. }
    unfold Server.upload_document_body.
    destruct f as [f|].
    2:{ unfold ret. intros H. injection H as <- <-. discriminate. }
    assert (Hfile : Server.file req = Some f).
    { unfold Server.multer_single in Hm.
      destruct (Server.file req) as [f'|]; [|discriminate].
      destruct (negb _) in Hm; [discriminate|].
      destruct (_ <? _) in Hm; [discriminate|]. now injection Hm as ->. }
    destruct (JS.truthy (Server.body_userId req)) as [userId|].
    2:{ unfold ret. intros H. injection H as <- <-. discriminate. }
    destruct (JS.truthy (Server.body_instructionNumber req))
      as [instructionNumber|].
    2:{ unfold ret. intros H. injection H as <- <-. discriminate. }
    unfold bind, console_log, ret, Server.fire_and_forget.
    destruct (insert_uploadDocuments env _ w) as [[row|e] w1] eqn:Hins.
    2:{ intros H. injection H as <- <-. discriminate. }
    intros H _. injection H as <- <-.
    apply insert_uploadDocuments_ok in Hins
      as (Hid & Hst & Hdocs & Hpages & Husage & Hp & Hh).
    exists f, (UploadDocuments.documentId row).
    cbn in *. rewrite Hp.
    repeat split; eauto.
    intros ->. unfold Server.event_loop_turn. cbn. reflexivity.
Qed.

Lemma upload_and_extraction_start_witness :
  exists id w',
    snd (Server.upload_document Stub.two_pages Stub.upload_request
           Stub.fresh_world) = w'
    /\ Server.field "documentId"
         (fst (Server.upload_document Stub.two_pages Stub.upload_request
                 Stub.fresh_world))
       = Some (Server.JString id)
    /\ Server.field "extractionStatus"
         (fst (Server.upload_document Stub.two_pages Stub.upload_request
                 Stub.fresh_world))
       = None
    /\ pending w' = [TaskExtract id (Server.buffer Stub.pdf_file)]
    /\ extractedPageData (db_store w') = [].
Proof.
  destruct (upload_and_extraction_start Stub.two_pages Stub.fresh_world)
    as [_ Hhttp].
  destruct (Hhttp Stub.upload_request
              (fst (Server.upload_document Stub.two_pages Stub.upload_request
                      Stub.fresh_world))
              (snd (Server.upload_document Stub.two_pages Stub.upload_request
                      Stub.fresh_world)))
    as (f & id & Hf & _ & Hid & Hno & _ & _ & Hpages & _ & _ & Hpend & _).
  - reflexivity.
  - reflexivity.
  - exists id. eexists. split; [reflexivity|]. split; [exact Hid|].
    split; [exact Hno|]. split; [|exact Hpages].
    rewrite Hpend. cbn in Hf. now injection Hf as <-.
Defined.

(** C5 as stated fails on both paths: the [upload] procedure returns the
    identifier with IDEAL and no extraction is ever started for the
    document, and the upload endpoint, which does start one, answers
    without a status. *)
Lemma upload_paths_differ :
  let trpc := documentRouter.upload Stub.two_pages Stub.upload_input
                Stub.fresh_world in
  let http := Server.upload_document Stub.two_pages Stub.upload_request
                Stub.fresh_world in
  fst trpc = Ok (documentRouter.mk_upload_output "row-0" IDEAL)
  /\ pending (snd trpc) = []
  /\ Server.event_loop_turn Stub.two_pages (snd trpc) = snd trpc
  /\ Server.status (fst http) = 200
  /\ Server.field "documentId" (fst http) = Some (Server.JString "row-0")
  /\ Server.field "extractionStatus" (fst http) = None
  /\ Server.field "status" (fst http) = None.
Proof.
  cbv zeta. repeat split; vm_compute; reflexivity.
Qed.

(** * Further properties *)

(** ** The model is asked once per page *)

Lemma model_calls_app : forall h1 h2,
  model_calls (h1 ++ h2) = model_calls h1 ++ model_calls h2.
Proof.
  induction h1 as [|[e s] h1 IH]; intros h2; cbn; [reflexivity|].
  destruct e; cbn; now rewrite IH.
Qed.

Lemma extractPageData_model_call : forall env buf p d st w,
  exists events,
    history (snd (extractPageData env buf p d db st w)) = history w ++ events
    /\ model_calls events = [p].
Proof.
  intros env buf p d st w.
  unfold extractPageData, bind, try_catch, crypto_randomUUID,
    await_generateObject, saveExtractedPageData, insert_extractedPageData,
    saveTokenUsage, insert_documentTokenUsage, Date_now, console_log, ret,
    throw, set_store, set_store_keyed.
  cbn [fst snd db_store clock uuids db_uuids history pending].
  destruct (generateObject env buf p) as [e|o usage];
    cbn [fst snd db_store clock uuids db_uuids history pending].
  { eexists. split; reflexivity. }
  destruct (page_row _ _ d (pageData_of p o));
    cbn [fst snd db_store clock uuids db_uuids history pending].
  2:{ eexists. split; [rewrite <- ?app_assoc; reflexivity|reflexivity]. }
  destruct (existsb _ _);
    cbn [fst snd db_store clock uuids db_uuids history pending].
  { eexists. split; [rewrite <- ?app_assoc; reflexivity|reflexivity]. }
  destruct (negb _);
    cbn [fst snd db_store clock uuids db_uuids history pending].
  { eexists. split; [rewrite <- ?app_assoc; reflexivity|reflexivity]. }
  destruct usage as [usage|];
    cbn [fst snd db_store clock uuids db_uuids history pending].
  2:{ eexists. split; [rewrite <- ?app_assoc; reflexivity|reflexivity]. }
  destruct (usage_row _ _ _);
    cbn [fst snd db_store clock uuids db_uuids history pending].
  2:{ eexists. split; [rewrite <- ?app_assoc; reflexivity|reflexivity]. }
  destruct (negb _);
    cbn [fst snd db_store clock uuids db_uuids history pending];
    eexists; (split; [rewrite <- ?app_assoc; reflexivity|reflexivity]).
Qed.

Lemma process_pages_model_calls : forall env buf d st n p acc w,
  exists events,
    history (snd (process_pages env buf d db st n p acc w))
    = history w ++ events
    /\ model_calls events = Zrange p n.
Proof.
  intros env buf d st. induction n as [|n IH]; intros p acc w.
  - exists []. cbn. now rewrite app_nil_r.
  - cbn [process_pages Zrange]. unfold bind at 1. unfold try_catch, bind at 1.
    destruct (extractPageData_model_call env buf p d st w)
      as (ev1 & Hh1 & Hc1).
    destruct (extractPageData env buf p d db st w) as [[v|e] w1];
      cbn [snd] in Hh1; unfold ret, console_log, bind;
      cbn -[process_pages Zrange];
      match goal with
      | |- context [process_pages _ _ _ _ _ n (p + 1) ?a w1] =>
          destruct (IH (p + 1) a w1) as (ev2 & Hh2 & Hc2)
      end;
      exists (ev1 ++ ev2);
      (split; [now rewrite Hh2, Hh1, app_assoc
              |now rewrite model_calls_app, Hc1, Hc2]).
Qed.

Lemma run_model_calls : forall env d buf w,
  exists events,
    history (snd (extractPODDataFromPDF env d buf db w)) = history w ++ events
    /\ model_calls events
       = if extractionId_taken d (Some (randomUUID env (uuids w))) (db_store w)
         then []
         else match pdf env buf with
              | Some N => page_numbers N
              | None => []
              end.
Proof.
  intros env d buf w.
  destruct (extractionId_taken d (Some (randomUUID env (uuids w))) (db_store w))
    eqn:Ht.
  - destruct (run_refused env d buf w Ht) as (w' & -> & _ & Hh).
    eexists. split; [exact Hh|reflexivity].
  - destruct (pdf env buf) as [N|] eqn:Hpdf.
    + unfold extractPODDataFromPDF, bind at 1, Date_now.
      unfold bind at 1, crypto_randomUUID.
      unfold try_catch, bind at 1, updateDocumentStatus, update_uploadDocuments.
      cbn [fst snd db_store clock uuids db_uuids history pending set_store].
      rewrite Ht.
      unfold bind at 1, pdf_numpages. rewrite Hpdf.
      unfold bind at 1, console_log, ret at 1. unfold bind at 1.
      cbn [fst snd db_store clock uuids db_uuids history pending set_store].
      match goal with
      | |- context [process_pages _ _ _ _ ?st ?n 1 [] ?wl] =>
          destruct (process_pages_model_calls env buf d st n 1 [] wl)
            as (events & Hh & Hc);
          destruct (process_pages env buf d db st n 1 [] wl) as [r w2]
      end.
      unfold set_store in Hh. cbn [snd history] in Hh.
      assert (Hdone : forall tail,
                model_calls tail = [] ->
                exists events0,
                  history w2 ++ tail = history w ++ events0
                  /\ model_calls events0 = page_numbers N).
      { intros tail Htail. rewrite Hh, <- !app_assoc. eexists.
        split; [reflexivity|].
        cbn [app model_calls]. now rewrite model_calls_app, Hc, Htail, app_nil_r. }
      unfold bind, updateDocumentStatus, update_uploadDocuments, set_store,
        ret, throw, console_log.
      destruct r as [res|e];
        cbn [fst snd db_store clock uuids db_uuids history pending];
        destruct (extractionId_taken _ _ (db_store w2)) eqn:E;
        cbn [fst snd db_store clock uuids db_uuids history pending];
        rewrite ?E;
        cbn [fst snd db_store clock uuids db_uuids history pending];
        rewrite <- ?app_assoc; apply Hdone; reflexivity.
    + destruct (run_pdf_fails env d buf w Ht Hpdf)
        as (w' & s & -> & _ & _ & _ & _ & Hh).
      eexists. split; [exact Hh|reflexivity].
Qed.

(** The model is asked about each page once, in page order, and not at all
    when the run id is refused or the PDF does not parse: there is no
    retry and no call for a page that does not exist. *)
Theorem model_called_once_per_page : forall env d buf w,
  exists events,
    history (snd (extractPODDataFromPDF env d buf db w)) = history w ++ events
    /\ model_calls events
       = if extractionId_taken d (Some (randomUUID env (uuids w))) (db_store w)
         then []
         else match pdf env buf with
              | Some N => page_numbers N
              | None => []
              end.
Proof. exact run_model_calls. Qed.

(** ** What every step of a run preserves *)

(** A relation between the world before and after a computation holds for
    a run as soon as it is a preorder and holds for each operation the run
    is made of. *)
Section Preserved.

Variable env : Env.
Variable d : string.
Variable buf : Buffer.
Variable R : World -> World -> Prop.

Hypothesis R_refl : forall w, R w w.
Hypothesis R_trans : forall w1 w2 w3, R w1 w2 -> R w2 w3 -> R w1 w3.
Hypothesis R_uuid : forall w, R w (snd (crypto_randomUUID env w)).
Hypothesis R_update : forall st x w,
  R w (snd (update_uploadDocuments d st x w)).
Hypothesis R_pdf : forall w, R w (snd (pdf_numpages env buf w)).
Hypothesis R_model : forall p w,
  R w (snd (await_generateObject env d buf p w)).
Hypothesis R_page : forall v w,
  R w (snd (insert_extractedPageData env d v w)).
Hypothesis R_usage : forall v w,
  u_documentId v = d -> R w (snd (insert_documentTokenUsage env v w)).

Lemma preserves_ret : forall {A} (a : A), preserves R (ret a).
Proof. intros A a w. apply R_refl. Qed.

Lemma preserves_throw : forall {A} e, preserves R (@throw A e).
Proof. intros A e w. apply R_refl. Qed.

Lemma preserves_bind : forall {A B} (m : M A) (k : A -> M B),
  preserves R m -> (forall a, preserves R (k a)) -> preserves R (bind m k).
Proof.
  intros A B m k Hm Hk w. unfold bind. specialize (Hm w).
  destruct (m w) as [[a|e] w1]; cbn [snd] in *.
  - eapply R_trans; [exact Hm|apply Hk].
  - exact Hm.
Qed.

Lemma preserves_try_catch : forall {A} (m : M A) (h : Error -> M A),
  preserves R m -> (forall e, preserves R (h e)) -> preserves R (try_catch m h).
Proof.
  intros A m h Hm Hh w. unfold try_catch. specialize (Hm w).
  destruct (m w) as [[a|e] w1]; cbn [snd] in *.
  - exact Hm.
  - eapply R_trans; [exact Hm|apply Hh].
Qed.

Lemma preserves_updateDocumentStatus : forall st x h,
  preserves R (updateDocumentStatus d st x h).
Proof.
  intros st x [h|]; cbn.
  - intros w. apply R_update.
  - apply preserves_ret.
Qed.

Lemma preserves_extractPageData : forall p st,
  preserves R (extractPageData env buf p d db st).
Proof.
  intros p st. unfold extractPageData.
  apply preserves_bind; [exact R_uuid|]. intros requestId.
  apply preserves_try_catch.
  - apply preserves_bind; [intros w; apply R_model|]. intros result.
    apply preserves_bind; [intros w; apply R_page|]. intros _.
    apply preserves_bind; [|intros _; apply preserves_ret].
    destruct (snd result) as [usage|]; [|apply preserves_ret].
    apply preserves_bind; [intros w; apply R_refl|]. intros now.
    intros w. apply R_usage. reflexivity.
  - intros e. apply preserves_bind; [apply preserves_ret|].
    intros _. apply preserves_throw.
Qed.

Lemma preserves_process_pages : forall st n p acc,
  preserves R (process_pages env buf d db st n p acc).
Proof.
  intros st. induction n as [|n IH]; intros p acc; cbn [process_pages].
  - apply preserves_ret.
  - apply preserves_bind; [|intros pushed; apply IH].
    apply preserves_try_catch.
    + apply preserves_bind; [apply preserves_extractPageData|].
      intros v. apply preserves_ret.
    + intros e. apply preserves_bind; [apply preserves_ret|].
      intros _. apply preserves_ret.
Qed.

Lemma preserves_extractPODDataFromPDF :
  preserves R (extractPODDataFromPDF env d buf db).
Proof.
  unfold extractPODDataFromPDF.
  apply preserves_bind; [intros w; apply R_refl|]. intros startTime.
  apply preserves_bind; [exact R_uuid|]. intros extractionId.
  apply preserves_try_catch.
  - apply preserves_bind; [apply preserves_updateDocumentStatus|]. intros _.
    apply preserves_bind; [exact R_pdf|]. intros numPages.
    apply preserves_bind; [apply preserves_ret|]. intros _.
    apply preserves_bind; [apply preserves_process_pages|]. intros pages.
    apply preserves_bind; [apply preserves_updateDocumentStatus|]. intros _.
    apply preserves_ret.
  - intros e. apply preserves_bind; [apply preserves_ret|]. intros _.
    apply preserves_bind; [apply preserves_updateDocumentStatus|]. intros _.
    apply preserves_throw.
Qed.

End Preserved.

Lemma untouched_refl : forall d w, untouched d w w.
Proof.
  intros d w. constructor; try reflexivity.
  all: exists []; rewrite app_nil_r; (split; [reflexivity|constructor]).
Qed.

Lemma untouched_trans : forall d w1 w2 w3,
  untouched d w1 w2 -> untouched d w2 w3 -> untouched d w1 w3.
Proof.
  intros d w1 w2 w3 [U1 C1 B1 P1 M1 O1 [ap1 [Hp1 Fp1]] [au1 [Hu1 Fu1]]]
    [U2 C2 B2 P2 M2 O2 [ap2 [Hp2 Fp2]] [au2 [Hu2 Fu2]]].
  constructor; try congruence.
  - exists (ap1 ++ ap2). rewrite Hp2, Hp1, app_assoc. split; [reflexivity|].
    apply Forall_app. auto.
  - exists (au1 ++ au2). rewrite Hu2, Hu1, app_assoc. split; [reflexivity|].
    apply Forall_app. auto.
Qed.

(** The same store: nothing is touched. *)
Lemma untouched_same_store : forall d w w',
  db_store w' = db_store w -> pending w' = pending w -> untouched d w w'.
Proof.
  intros d w w' Hs Hp.
  constructor; rewrite ?Hs; try reflexivity; try exact Hp.
  all: exists []; rewrite app_nil_r; (split; [reflexivity|constructor]).
Qed.

Lemma update_rows_metadata : forall d now st x rows,
  map document_metadata (update_rows d now st x rows)
  = map document_metadata rows.
Proof.
  intros. unfold update_rows. rewrite map_map. apply map_ext.
  intros r. now destruct (has_id d r).
Qed.

Lemma update_rows_others : forall d now st x rows,
  filter (fun r => negb (has_id d r)) (update_rows d now st x rows)
  = filter (fun r => negb (has_id d r)) rows.
Proof.
  intros. unfold update_rows.
  induction rows as [|r rows IH]; cbn; [reflexivity|].
  destruct (has_id d r) eqn:E.
  - unfold has_id in *. cbn. rewrite E. cbn. exact IH.
  - rewrite E. cbn. now rewrite IH.
Qed.

Lemma untouched_update : forall d st x w,
  untouched d w (snd (update_uploadDocuments d st x w)).
Proof.
  intros d st x w. unfold update_uploadDocuments.
  destruct (extractionId_taken d x (db_store w)); cbn [snd].
  - now apply untouched_same_store.
  - constructor; cbn; try reflexivity.
    + apply update_rows_metadata.
    + apply update_rows_others.
    + exists []. rewrite app_nil_r. split; [reflexivity|constructor].
    + exists []. rewrite app_nil_r. split; [reflexivity|constructor].
Qed.

Lemma untouched_page : forall env d v w,
  untouched d w (snd (insert_extractedPageData env d v w)).
Proof.
  intros env d v w. unfold insert_extractedPageData.
  destruct (page_row _ _ d v) as [r|] eqn:Hr; cbn [snd];
    [|now apply untouched_same_store].
  destruct (existsb _ _); cbn [snd]; [now apply untouched_same_store|].
  destruct (negb _); cbn [snd]; [now apply untouched_same_store|].
  apply page_row_fields in Hr as (Hd & _).
  constructor; cbn; try reflexivity.
  - exists [r]. split; [reflexivity|]. now repeat constructor.
  - exists []. rewrite app_nil_r. split; [reflexivity|constructor].
Qed.

Lemma untouched_usage : forall env d v w,
  u_documentId v = d ->
  untouched d w (snd (insert_documentTokenUsage env v w)).
Proof.
  intros env d v w Hv. unfold insert_documentTokenUsage.
  destruct (usage_row _ _ v) as [r|] eqn:Hr; cbn [snd];
    [|now apply untouched_same_store].
  destruct (negb _); cbn [snd]; [now apply untouched_same_store|].
  apply usage_row_fields in Hr as (Hd & _).
  constructor; cbn; try reflexivity.
  - exists []. rewrite app_nil_r. split; [reflexivity|constructor].
  - exists [r]. split; [reflexivity|]. repeat constructor. congruence.
Qed.

Lemma untouched_run : forall env d buf w,
  untouched d w (snd (extractPODDataFromPDF env d buf db w)).
Proof.
  intros env d buf.
  apply (preserves_extractPODDataFromPDF env d buf (untouched d)).
  - apply untouched_refl.
  - apply untouched_trans.
  - intros w. now apply untouched_same_store.
  - apply untouched_update.
  - intros w. unfold pdf_numpages.
    destruct (pdf env buf); now apply untouched_same_store.
  - intros p w. unfold await_generateObject.
    destruct (generateObject env buf p); now apply untouched_same_store.
  - apply untouched_page.
  - apply untouched_usage.
Qed.

(** A run for a document, whatever its outcome, changes nothing of the
    other documents and nothing of any document but status, extraction id
    and [updatedAt]; it leaves users, companies, branches and pending
    promises as they are; and it only appends to the page and usage tables,
    rows of that document, so that no existing record is replaced or
    removed. *)
Theorem run_touches_its_document_only : forall env d buf w,
  untouched d w (snd (extractPODDataFromPDF env d buf db w))
  /\ forall r,
       UploadDocuments.documentId r <> d ->
       (In r (uploadDocuments
                (db_store (snd (extractPODDataFromPDF env d buf db w))))
        <-> In r (uploadDocuments (db_store w))).
Proof.
  intros env d buf w. pose proof (untouched_run env d buf w) as H.
  split; [exact H|].
  intros r Hr.
  assert (Hn : negb (has_id d r) = true).
  { unfold has_id. destruct (String.eqb_spec (UploadDocuments.documentId r) d);
      [contradiction|reflexivity]. }
  pose proof (un_others _ _ _ H) as Ho. split; intros Hin.
  - assert (Hf : In r (filter (fun r => negb (has_id d r))
                         (uploadDocuments (db_store w))))
      by (rewrite <- Ho; apply filter_In; auto).
    now apply filter_In in Hf.
  - assert (Hf : In r (filter (fun r => negb (has_id d r))
                         (uploadDocuments
                            (db_store
                               (snd (extractPODDataFromPDF env d buf db w))))))
      by (rewrite Ho; apply filter_In; auto).
    now apply filter_In in Hf.
Qed.

Lemma run_touches_its_document_only_witness :
  In Stub2.other_document
    (uploadDocuments
       (db_store
          (snd (extractPODDataFromPDF Stub.two_pages "doc-1" [] db
                  Stub2.two_documents)))).
Proof.
  destruct (run_touches_its_document_only Stub.two_pages "doc-1" []
              Stub2.two_documents) as [_ H].
  apply H.
  - discriminate.
  - right. now left.
Defined.

(** ** The unique index on (document, page) *)

Lemma page_key_is_spec : forall d p r,
  page_key_is d p r = true <-> page_key r = (d, p).
Proof.
  intros d p r. unfold page_key_is, page_key. rewrite andb_true_iff.
  rewrite String.eqb_eq, Z.eqb_eq. split.
  - intros [-> ->]. reflexivity.
  - intros H. injection H as -> ->. auto.
Qed.

Lemma page_key_absent : forall d p rows,
  existsb (page_key_is d p) rows = false -> ~ In (d, p) (map page_key rows).
Proof.
  intros d p rows H Hin. apply in_map_iff in Hin as (r & Hk & Hr).
  assert (existsb (page_key_is d p) rows = true)
    by (apply existsb_exists; exists r; split; [exact Hr|];
        now apply page_key_is_spec).
  congruence.
Qed.

Lemma unique_page_keys_insert : forall env d v w,
  unique_page_keys (db_store w) ->
  unique_page_keys (db_store (snd (insert_extractedPageData env d v w))).
Proof.
  intros env d v w Hu. unfold insert_extractedPageData.
  destruct (page_row _ _ d v) as [r|] eqn:Hr; cbn [snd]; [|exact Hu].
  destruct (existsb _ _) eqn:Hk; cbn [snd]; [exact Hu|].
  destruct (negb _); cbn [snd]; [exact Hu|].
  unfold unique_page_keys in *. cbn. rewrite map_app. cbn.
  apply page_row_fields in Hr as (Hd & Hn & _).
  apply page_key_absent in Hk.
  apply Permutation_NoDup with (l := page_key r :: map page_key
                                       (extractedPageData (db_store w))).
  - apply Permutation_cons_append.
  - constructor; [|exact Hu]. unfold page_key at 1. now rewrite Hd, Hn.
Qed.

(** The store never holds two page records of one document under one page
    number: if it holds none, it holds none after [saveExtractedPageData],
    whether the record went in or was refused, and none after a run of the
    extraction, whatever the run's outcome. *)
Theorem page_keys_stay_unique : forall env d buf w,
  unique_page_keys (db_store w) ->
  (forall pageData,
     unique_page_keys
       (db_store (snd (saveExtractedPageData env d pageData db w))))
  /\ unique_page_keys (db_store (snd (extractPODDataFromPDF env d buf db w))).
Proof.
  intros env d buf w Hu. split.
  - intros pageData. now apply unique_page_keys_insert.
  - revert Hu.
    apply (preserves_extractPODDataFromPDF env d buf
             (fun w w' => unique_page_keys (db_store w) ->
                          unique_page_keys (db_store w'))).
    + auto.
    + auto.
    + intros w0 H. exact H.
    + intros st x w0 H. unfold update_uploadDocuments.
      destruct (extractionId_taken d x (db_store w0)); exact H.
    + intros w0 H. unfold pdf_numpages. destruct (pdf env buf); exact H.
    + intros p w0 H. unfold await_generateObject.
      destruct (generateObject env buf p); exact H.
    + intros v w0. apply unique_page_keys_insert.
    + intros v w0 _ H. unfold insert_documentTokenUsage.
      destruct (usage_row _ _ v); [|exact H].
      destruct (negb _); exact H.
Qed.

Lemma page_keys_stay_unique_witness :
  unique_page_keys
    (db_store (snd (extractPODDataFromPDF Stub.three_pages "doc-1" [] db
                      (snd (extractPODDataFromPDF Stub.three_pages "doc-1" []
                              db Stub.fresh_world))))).
Proof.
  apply (page_keys_stay_unique Stub.three_pages "doc-1" []).
  apply (page_keys_stay_unique Stub.three_pages "doc-1" [] Stub.fresh_world).
  constructor.
Defined.

(** ** Runs that fail and runs that save nothing *)

Lemma status_of_twice : forall d s s' n1 n2 st1 st2 x1 x2 st0,
  status_of s d = Some st0 ->
  uploadDocuments s'
  = update_rows d n2 st2 x2 (update_rows d n1 st1 x1 (uploadDocuments s)) ->
  status_of s' d = Some st2.
Proof.
  intros d s s' n1 n2 st1 st2 x1 x2 st0 Hs Hs'. unfold status_of in *.
  rewrite Hs', update_rows_status, find_update_rows.
  destruct (find (has_id d) (uploadDocuments s)); [reflexivity|discriminate].
Qed.

(** When the PDF does not parse, the run rejects with the parser's error,
    the document, if there is one, ends FAILED, and no page record and no
    usage record is written. *)
Theorem unparsable_pdf_fails_document : forall env d buf w,
  extractionId_taken d (Some (randomUUID env (uuids w))) (db_store w) = false ->
  pdf env buf = None ->
  exists w',
    extractPODDataFromPDF env d buf db w = (Throw PdfParseError, w')
    /\ (forall st0,
          status_of (db_store w) d = Some st0 ->
          status_of (db_store w') d = Some FAILED)
    /\ extractedPageData (db_store w') = extractedPageData (db_store w)
    /\ documentTokenUsage (db_store w') = documentTokenUsage (db_store w).
Proof.
  intros env d buf w Ht Hpdf.
  destruct (run_pdf_fails env d buf w Ht Hpdf)
    as (w' & s & Hrun & _ & Hdocs & Hp & Hu & _).
  exists w'. split; [exact Hrun|]. split; [|split; assumption].
  intros st0 Hst. eapply status_of_twice; eassumption.
Qed.

Lemma unparsable_pdf_fails_document_witness :
  exists w',
    extractPODDataFromPDF Stub2.unreadable "doc-1" [] db Stub.fresh_world
    = (Throw PdfParseError, w')
    /\ status_of (db_store w') "doc-1" = Some FAILED
    /\ extractedPageData (db_store w') = [].
Proof.
  destruct (unparsable_pdf_fails_document Stub2.unreadable "doc-1" []
              Stub.fresh_world eq_refl eq_refl)
    as (w' & Hrun & Hst & Hp & _).
  exists w'. split; [exact Hrun|]. split; [|exact Hp].
  apply (Hst IDEAL). reflexivity.
Defined.

(** When the run id just drawn is one another document carries, the update
    to PROCESSING is refused and so is the update to FAILED in the handler:
    the run rejects with the store exactly as it was, the document keeping
    the status it had. *)
Theorem refused_run_id_changes_nothing : forall env d buf w,
  extractionId_taken d (Some (randomUUID env (uuids w))) (db_store w) = true ->
  exists w',
    extractPODDataFromPDF env d buf db w
    = (Throw (DatabaseError "upload_documents_extraction_id_unique"), w')
    /\ db_store w' = db_store w
    /\ status_of (db_store w') d = status_of (db_store w) d.
Proof.
  intros env d buf w Ht.
  destruct (run_refused env d buf w Ht) as (w' & Hrun & Hs & _).
  exists w'. split; [exact Hrun|]. split; [exact Hs|]. now rewrite Hs.
Qed.

Lemma refused_run_id_changes_nothing_witness :
  exists w',
    extractPODDataFromPDF Stub.two_pages "doc-1" [] db Stub2.taken_world
    = (Throw (DatabaseError "upload_documents_extraction_id_unique"), w')
    /\ status_of (db_store w') "doc-1" = Some COMPLETED.
Proof.
  destruct (refused_run_id_changes_nothing Stub.two_pages "doc-1" []
              Stub2.taken_world eq_refl)
    as (w' & Hrun & _ & Hst).
  exists w'. split; [exact Hrun|]. rewrite Hst. reflexivity.
Defined.

Lemma filter_none : forall {A} (f : A -> bool) l,
  (forall x, In x l -> f x = false) -> filter f l = [].
Proof.
  intros A f l H. induction l as [|x l IH]; cbn; [reflexivity|].
  rewrite (H x) by now left. apply IH. intros y Hy. apply H. now right.
Qed.

(** A run none of whose pages can be saved. *)
Lemma run_saves_nothing : forall env d buf w N,
  extractionId_taken d (Some (randomUUID env (uuids w))) (db_store w) = false ->
  pdf env buf = Some N ->
  (forall p, In p (page_numbers N) ->
     page_saved env d buf (db_store w) p = false) ->
  exists w',
    extractPODDataFromPDF env d buf db w
    = (Ok (map placeholder (page_numbers N)), w')
    /\ extractedPageData (db_store w') = extractedPageData (db_store w)
    /\ documentTokenUsage (db_store w') = documentTokenUsage (db_store w)
    /\ uploadDocuments (db_store w')
       = update_rows d (clock w') COMPLETED (Some (randomUUID env (uuids w)))
           (update_rows d (clock w) PROCESSING
              (Some (randomUUID env (uuids w)))
              (uploadDocuments (db_store w))).
Proof.
  intros env d buf w N Ht Hpdf Hnone.
  destruct (run_completes env d buf w N Ht Hpdf)
    as (w' & s & events & Hrun & [[ap [Hap Fp]] [au [Hau Fu]]] & _ & Hdocs & _).
  exists w'. split; [|split; [|split; [|exact Hdocs]]].
  - rewrite Hrun. do 2 f_equal. apply map_ext_in. intros p Hp.
    specialize (Hnone p Hp). unfold pushed, page_succeeded, page_saved in *.
    destruct (generateObject env buf p) as [e|o [u|]]; [reflexivity|..];
      now rewrite Hnone.
  - rewrite filter_none in Fp by exact Hnone. inversion Fp; subst.
    now rewrite Hap, app_nil_r.
  - rewrite filter_none in Fu.
    + inversion Fu; subst. now rewrite Hau, app_nil_r.
    + intros p Hp. specialize (Hnone p Hp).
      unfold usage_saved, page_saved in *.
      destruct (generateObject env buf p) as [e|o [u|]]; try reflexivity.
      now rewrite Hnone.
Qed.

(** Running the extraction again on a document whose pages 1 .. N are all
    in the store adds no page record and no usage record and changes none:
    every page insert is refused by the unique index, the run returns a
    placeholder for every page, and the document ends COMPLETED. *)
Theorem rerun_returns_placeholders_only : forall env d buf w N st0,
  extractionId_taken d (Some (randomUUID env (uuids w))) (db_store w) = false ->
  status_of (db_store w) d = Some st0 ->
  pdf env buf = Some N ->
  (forall p, 1 <= p <= N ->
     existsb (page_key_is d p) (extractedPageData (db_store w)) = true) ->
  exists w',
    extractPODDataFromPDF env d buf db w
    = (Ok (map placeholder (page_numbers N)), w')
    /\ extractedPageData (db_store w') = extractedPageData (db_store w)
    /\ documentTokenUsage (db_store w') = documentTokenUsage (db_store w)
    /\ status_of (db_store w') d = Some COMPLETED.
Proof.
  intros env d buf w N st0 Ht Hst Hpdf Hall.
  destruct (run_saves_nothing env d buf w N Ht Hpdf)
    as (w' & Hrun & Hp & Hu & Hdocs).
  - intros p Hp. apply page_numbers_In in Hp. unfold page_saved.
    destruct (generateObject env buf p) as [e|o u]; [reflexivity|].
    unfold page_accepted. cbn [ExtractedPODData.pageNumber pageData_of].
    rewrite (Hall p Hp). cbn. now rewrite andb_false_r.
  - exists w'. repeat split; try assumption.
    eapply status_of_twice; eassumption.
Qed.

Lemma rerun_returns_placeholders_only_witness :
  let w1 := snd (extractPODDataFromPDF Stub.three_pages "doc-1" [] db
                   Stub.fresh_world) in
  List.length (extractedPageData (db_store w1)) = 3%nat
  /\ exists w2,
       extractPODDataFromPDF Stub.three_pages "doc-1" [] db w1
       = (Ok [placeholder 1; placeholder 2; placeholder 3], w2)
       /\ extractedPageData (db_store w2) = extractedPageData (db_store w1)
       /\ documentTokenUsage (db_store w2) = documentTokenUsage (db_store w1).
Proof.
  cbv zeta. split; [reflexivity|].
  destruct (rerun_returns_placeholders_only Stub.three_pages "doc-1" []
              (snd (extractPODDataFromPDF Stub.three_pages "doc-1" [] db
                      Stub.fresh_world)) 3 COMPLETED)
    as (w2 & Hrun & Hp & Hu & _).
  - reflexivity.
  - reflexivity.
  - reflexivity.
  - intros p Hp.
    assert (H : p = 1 \/ p = 2 \/ p = 3) by lia.
    destruct H as [ -> | [ -> | -> ] ]; reflexivity.
  - exists w2. split; [exact Hrun|]. split; assumption.
Defined.

(** A PDF without pages: the run asks the model nothing, returns the empty
    list, writes no record, and the document ends COMPLETED. *)
Theorem empty_pdf_completes : forall env d buf w N st0,
  extractionId_taken d (Some (randomUUID env (uuids w))) (db_store w) = false ->
  status_of (db_store w) d = Some st0 ->
  pdf env buf = Some N ->
  N <= 0 ->
  exists w' events,
    extractPODDataFromPDF env d buf db w = (Ok [], w')
    /\ extractedPageData (db_store w') = extractedPageData (db_store w)
    /\ documentTokenUsage (db_store w') = documentTokenUsage (db_store w)
    /\ status_of (db_store w') d = Some COMPLETED
    /\ history w' = history w ++ events
    /\ model_calls events = [].
Proof.
  intros env d buf w N st0 Ht Hst Hpdf HN.
  assert (Hnone : page_numbers N = [])
    by (unfold page_numbers; now replace (Z.to_nat N) with 0%nat by lia).
  destruct (run_saves_nothing env d buf w N Ht Hpdf)
    as (w' & Hrun & Hp & Hu & Hdocs).
  { rewrite Hnone. contradiction. }
  destruct (run_model_calls env d buf w) as (events & Hh & Hc).
  rewrite Ht, Hpdf, Hnone, Hrun in *. cbn [snd map] in *.
  exists w', events. repeat split; try assumption.
  eapply status_of_twice; eassumption.
Qed.

Lemma empty_pdf_completes_witness :
  exists w',
    extractPODDataFromPDF Stub2.no_pages "doc-1" [] db Stub.fresh_world
    = (Ok [], w')
    /\ status_of (db_store w') "doc-1" = Some COMPLETED.
Proof.
  destruct (empty_pdf_completes Stub2.no_pages "doc-1" [] Stub.fresh_world 0
              IDEAL eq_refl eq_refl eq_refl)
    as (w' & events & Hrun & _ & _ & Hst & _).
  - lia.
  - exists w'. split; assumption.
Defined.

Lemma update_rows_absent : forall d now st x rows,
  ~ In d (map UploadDocuments.documentId rows) ->
  update_rows d now st x rows = rows.
Proof.
  intros d now st x rows H. unfold update_rows.
  rewrite <- (map_id rows) at 2. apply map_ext_in. intros r Hr.
  unfold has_id. destruct (String.eqb_spec (UploadDocuments.documentId r) d);
    [|reflexivity].
  exfalso. apply H. apply in_map_iff. exists r. auto.
Qed.

Lemma existsb_has_id_absent : forall d rows,
  ~ In d (map UploadDocuments.documentId rows) ->
  existsb (has_id d) rows = false.
Proof.
  intros d rows H. destruct (existsb (has_id d) rows) eqn:E; [|reflexivity].
  apply existsb_exists in E as (r & Hr & Hid).
  unfold has_id in Hid. apply String.eqb_eq in Hid.
  exfalso. apply H. apply in_map_iff. exists r. auto.
Qed.

Lemma mem_absent : forall d l, ~ In d l -> Column.mem d l = false.
Proof.
  intros d l H. unfold Column.mem.
  destruct (existsb (String.eqb d) l) eqn:E; [|reflexivity].
  apply existsb_exists in E as (x & Hx & Heq). apply String.eqb_eq in Heq.
  subst. contradiction.
Qed.

(** A run for an id no document carries creates no document and writes
    nothing: each status update matches no row, each page insert is refused
    by the foreign key, so that the store ends exactly as it was; yet the
    run returns normally, with a placeholder for every page, and the model
    has been asked about every page. *)
Theorem run_on_missing_document : forall env d buf w N,
  ~ In d (document_ids (db_store w)) ->
  pdf env buf = Some N ->
  exists w' events,
    extractPODDataFromPDF env d buf db w
    = (Ok (map placeholder (page_numbers N)), w')
    /\ db_store w' = db_store w
    /\ history w' = history w ++ events
    /\ model_calls events = page_numbers N.
Proof.
  intros env d buf w N Hno Hpdf. unfold document_ids in Hno.
  assert (Ht : extractionId_taken d (Some (randomUUID env (uuids w)))
                 (db_store w) = false)
    by (unfold extractionId_taken; now rewrite existsb_has_id_absent).
  destruct (run_saves_nothing env d buf w N Ht Hpdf)
    as (w' & Hrun & Hp & Hu & Hdocs).
  { intros p _. unfold page_saved.
    destruct (generateObject env buf p) as [e|o u]; [reflexivity|].
    unfold page_accepted, document_ids. rewrite (mem_absent d) by exact Hno.
    apply andb_false_r. }
  destruct (run_model_calls env d buf w) as (events & Hh & Hc).
  pose proof (untouched_run env d buf w) as [U C B _ _ _ _ _].
  rewrite Ht, Hpdf, Hrun in *. cbn [snd] in *.
  exists w', events. split; [reflexivity|]. split; [|split; assumption].
  rewrite update_rows_absent in Hdocs.
  2:{ now rewrite update_rows_ids. }
  rewrite update_rows_absent in Hdocs by exact Hno.
  destruct (db_store w'), (db_store w). cbn in *. congruence.
Qed.

Lemma run_on_missing_document_witness :
  exists w' events,
    extractPODDataFromPDF Stub.three_pages "doc-9" [] db Stub.fresh_world
    = (Ok [placeholder 1; placeholder 2; placeholder 3], w')
    /\ db_store w' = Stub.fresh_store
    /\ history w' = events
    /\ model_calls events = [1; 2; 3].
Proof.
  destruct (run_on_missing_document Stub.three_pages "doc-9" []
              Stub.fresh_world 3)
    as (w' & events & Hrun & Hs & Hh & Hc).
  - intros [H|[]]. discriminate.
  - reflexivity.
  - exists w', events. repeat split; assumption.
Defined.

(** ** Column bounds met by a run *)

Lemma page_values_ok_smallint : forall v,
  page_values_ok v = true ->
  Column.smallint (ExtractedPODData.pageNumber v) = true.
Proof.
  intros v. unfold page_values_ok, page_row.
  destruct (Column.smallint _); [reflexivity|discriminate].
Qed.

(** [page_number] is a [smallint]: of a PDF with more than 32767 pages the
    run stores no page beyond page 32767, whatever the model answers for
    it, and returns the placeholder for each of them. *)
Theorem pages_beyond_smallint_are_lost : forall env d buf w N,
  extractionId_taken d (Some (randomUUID env (uuids w))) (db_store w) = false ->
  pdf env buf = Some N ->
  exists res w' added,
    extractPODDataFromPDF env d buf db w = (Ok res, w')
    /\ extractedPageData (db_store w') = extractedPageData (db_store w) ++ added
    /\ Forall (fun r => 1 <= ExtractedPageData.pageNumber r <= 32767) added
    /\ forall p,
         32767 < p <= N ->
         nth_error res (Z.to_nat (p - 1)) = Some (placeholder p).
Proof.
  intros env d buf w N Ht Hpdf.
  destruct (run_completes env d buf w N Ht Hpdf)
    as (w' & s & events & Hrun & [[added [Hadd Fp]] _] & _).
  assert (Hbig : forall p o,
            32767 < p -> page_accepted (db_store w) d (pageData_of p o) = false).
  { intros p o Hp. unfold page_accepted.
    destruct (page_values_ok (pageData_of p o)) eqn:E; [|reflexivity].
    apply page_values_ok_smallint in E. unfold Column.smallint in E.
    cbn in E. lia. }
  do 3 eexists. split; [exact Hrun|]. split; [exact Hadd|]. split.
  - apply Forall_forall. intros r Hr.
    destruct (Forall2_In_l _ _ _ _ Fp Hr)
      as (p & Hp & id & now & o & u & Hg & Hrow).
    apply filter_In in Hp as [Hp Hsaved].
    apply page_numbers_In in Hp.
    apply page_row_fields in Hrow as (_ & Hn & _). cbn in Hn. rewrite Hn.
    split; [lia|].
    destruct (Z_le_gt_dec p 32767) as [Hle|Hgt]; [exact Hle|].
    unfold page_saved in Hsaved. rewrite Hg, Hbig in Hsaved by lia.
    discriminate.
  - intros p Hp.
    rewrite nth_error_map, (nth_error_page N p) by lia. cbn [option_map].
    f_equal. unfold pushed, page_succeeded.
    destruct (generateObject env buf p) as [e|o [u|]]; [reflexivity|..];
      now rewrite Hbig by lia.
Qed.

Lemma pages_beyond_smallint_are_lost_witness :
  exists res w',
    extractPODDataFromPDF Stub2.many_pages "doc-1" [] db Stub.fresh_world
    = (Ok res, w')
    /\ nth_error res (Z.to_nat (40000 - 1)) = Some (placeholder 40000)
    /\ Forall (fun r => ExtractedPageData.pageNumber r <= 32767)
         (extractedPageData (db_store w')).
Proof.
  destruct (pages_beyond_smallint_are_lost Stub2.many_pages "doc-1" []
              Stub.fresh_world 40000 eq_refl eq_refl)
    as (res & w' & added & Hrun & Hadd & Hall & Hlost).
  exists res, w'. split; [exact Hrun|]. split; [apply Hlost; lia|].
  rewrite Hadd. cbn [Stub.fresh_world db_store Stub.fresh_store extractedPageData app].
  eapply Forall_impl; [|exact Hall]. cbn. intros r Hr. lia.
Defined.

Lemma usage_values_ok_total : forall v,
  usage_values_ok v = true -> Column.integer (u_totalTokens v) = true.
Proof.
  intros v. unfold usage_values_ok, usage_row.
  destruct (Column.integer (u_totalTokens v)); [reflexivity|].
  rewrite !andb_false_r. cbn. rewrite ?andb_false_r. discriminate.
Qed.

(** The token counts are [integer] columns.  When the model reports, for a
    page whose record the store accepts, a total beyond 2147483647, the
    page record is written with what the model extracted, the usage insert
    is refused, no usage record with that total is stored, and the failed
    insert makes the run return the placeholder for that page: the store
    and the returned list disagree on it. *)
Theorem refused_usage_hides_saved_page : forall env d buf w N p o usage,
  extractionId_taken d (Some (randomUUID env (uuids w))) (db_store w) = false ->
  pdf env buf = Some N ->
  1 <= p <= N ->
  generateObject env buf p = ModelReturns o (Some usage) ->
  page_accepted (db_store w) d (pageData_of p o) = true ->
  2147483647 < JS.or0 (Usage.totalTokens usage) ->
  exists res w' added,
    extractPODDataFromPDF env d buf db w = (Ok res, w')
    /\ nth_error res (Z.to_nat (p - 1)) = Some (placeholder p)
    /\ (exists r,
          In r (pages_of (db_store w') d)
          /\ ExtractedPageData.pageNumber r = p
          /\ ExtractedPageData.containerNumbers r
             = ExtractedPODSchema.containerNumbers o
          /\ ExtractedPageData.unsureFields r
             = Some (ExtractedPODSchema.unsureFields o))
    /\ documentTokenUsage (db_store w') = documentTokenUsage (db_store w) ++ added
    /\ Forall (fun r => DocumentTokenUsage.totalTokens r <= 2147483647) added.
Proof.
  intros env d buf w N p o usage Ht Hpdf Hp Hg Hacc Hbig.
  destruct (run_completes env d buf w N Ht Hpdf)
    as (w' & s & events & Hrun & [[ap [Hap Fp]] [au [Hau Fu]]] & _).
  assert (Hno : usage_values_ok (usage_of_page env d buf (uuids w) p usage)
                = false).
  { destruct (usage_values_ok _) eqn:E; [|reflexivity].
    apply usage_values_ok_total in E. unfold Column.integer in E.
    cbn in E. lia. }
  do 3 eexists. split; [exact Hrun|]. split; [|split; [|split; [exact Hau|]]].
  - rewrite nth_error_map, (nth_error_page N p Hp). cbn [option_map].
    unfold pushed, page_succeeded. now rewrite Hg, Hacc, Hno.
  - assert (Hin : In p (filter (page_saved env d buf (db_store w))
                          (page_numbers N))).
    { apply filter_In. split; [now apply page_numbers_In|].
      unfold page_saved. now rewrite Hg. }
    destruct (Forall2_In_r _ _ _ _ Fp Hin)
      as (r & Hr & id & now & o' & u' & Hg' & Hrow).
    rewrite Hg in Hg'. injection Hg' as <- <-.
    apply page_row_fields in Hrow as (Hd & Hn & Hc & _ & _ & Hun).
    exists r. split; [|now repeat split].
    unfold pages_of. apply filter_In. split.
    + rewrite Hap. apply in_or_app. now right.
    + rewrite Hd. apply String.eqb_refl.
  - apply Forall_forall. intros r Hr.
    destruct (Forall2_In_l _ _ _ _ Fu Hr)
      as (q & _ & id & now & o' & u' & _ & Hrow).
    destruct (usage_row_cases id now (usage_of_page env d buf (uuids w) q u'))
      as [[Hok _]|[_ Hnone]]; [|congruence].
    apply usage_values_ok_total in Hok.
    apply usage_row_fields in Hrow
      as (_ & _ & _ & _ & _ & _ & _ & _ & Htot & _).
    rewrite Htot. unfold Column.integer in Hok. lia.
Qed.

Lemma refused_usage_hides_saved_page_witness :
  exists res w',
    extractPODDataFromPDF Stub2.overflow "doc-1" [] db Stub.fresh_world
    = (Ok res, w')
    /\ nth_error res 0 = Some (placeholder 1)
    /\ (exists r,
          In r (pages_of (db_store w') "doc-1")
          /\ ExtractedPageData.containerNumbers r = [Some "ABCD1234567"])
    /\ documentTokenUsage (db_store w') = [].
Proof.
  destruct (refused_usage_hides_saved_page Stub2.overflow "doc-1" []
              Stub.fresh_world 1 1 Stub.container Stub2.overflow_usage)
    as (res & w' & added & Hrun & Hnth & (r & Hr & _ & Hc & _) & Hu & Hall).
  - reflexivity.
  - reflexivity.
  - lia.
  - reflexivity.
  - reflexivity.
  - cbn. lia.
  - exists res, w'. split; [exact Hrun|]. split; [exact Hnth|].
    split; [exists r; split; assumption|].
    vm_compute in Hrun. injection Hrun as _ <-. reflexivity.
Defined.

(** ** Request ids *)

Lemma NoDup_map_on : forall {A B} (f : A -> B) l,
  (forall x y, In x l -> In y l -> f x = f y -> x = y) ->
  NoDup l -> NoDup (map f l).
Proof.
  intros A B f l Hinj Hnd. induction Hnd as [|x l Hx Hnd IH]; cbn.
  - constructor.
  - constructor.
    + intros Hin. apply in_map_iff in Hin as (y & Hy & Hin).
      assert (y = x) by (apply Hinj; cbn; auto). subst. contradiction.
    + apply IH. intros a b Ha Hb. apply Hinj; cbn; auto.
Qed.

Lemma varchar_fits : forall n s,
  (String.length s <= n)%nat -> Column.varchar n s = Some s.
Proof.
  intros n s H. unfold Column.varchar. apply Nat.leb_le in H. now rewrite H.
Qed.

(** When the draws of [crypto.randomUUID()] made during a run differ from
    one another and fit the [varchar(255)] column, the usage records the run
    adds carry pairwise distinct request ids, none of them the run id written
    to the document: a usage record names the one page call it comes from. *)
Theorem request_ids_are_distinct : forall env d buf w N,
  extractionId_taken d (Some (randomUUID env (uuids w))) (db_store w) = false ->
  pdf env buf = Some N ->
  (forall p q,
     0 <= p <= N -> 0 <= q <= N ->
     randomUUID env (uuids w + Z.to_nat p)
     = randomUUID env (uuids w + Z.to_nat q) ->
     p = q) ->
  (forall p,
     1 <= p <= N ->
     (String.length (randomUUID env (uuids w + Z.to_nat p)) <= 255)%nat) ->
  exists res w' added,
    extractPODDataFromPDF env d buf db w = (Ok res, w')
    /\ documentTokenUsage (db_store w') = documentTokenUsage (db_store w) ++ added
    /\ NoDup (map DocumentTokenUsage.requestId added)
    /\ ~ In (randomUUID env (uuids w)) (map DocumentTokenUsage.requestId added).
Proof.
  intros env d buf w N Ht Hpdf Hinj Hlen.
  destruct (run_completes env d buf w N Ht Hpdf)
    as (w' & s & events & Hrun & [_ [added [Hadd Fu]]] & _).
  assert (Hids : map DocumentTokenUsage.requestId added
                 = map (request_id env (uuids w))
                     (filter (usage_saved env d buf (db_store w) (uuids w))
                        (page_numbers N))).
  { clear Hadd. revert Fu.
    assert (Hsub : forall p,
              In p (filter (usage_saved env d buf (db_store w) (uuids w))
                      (page_numbers N)) -> 1 <= p <= N)
      by (intros p Hp; apply filter_In in Hp as [Hp _];
          now apply page_numbers_In).
    revert Hsub. generalize (filter (usage_saved env d buf (db_store w) (uuids w))
                               (page_numbers N)) as ps.
    intros ps Hsub Fu.
    induction Fu as [|r p added ps (id & now & o & u & _ & Hrow) _ IH];
      cbn; [reflexivity|].
    rewrite IH by (intros q Hq; apply Hsub; now right). f_equal.
    apply usage_row_fields in Hrow as (_ & Hid & _).
    cbn [u_requestId usage_of_page] in Hid. unfold request_id in *.
    rewrite varchar_fits in Hid by (apply Hlen, Hsub; now left).
    now injection Hid. }
  do 3 eexists. split; [exact Hrun|]. split; [exact Hadd|]. rewrite Hids.
  split.
  - apply NoDup_map_on.
    + intros p q Hp Hq. apply filter_In in Hp as [Hp _].
      apply filter_In in Hq as [Hq _].
      apply page_numbers_In in Hp. apply page_numbers_In in Hq.
      unfold request_id. apply Hinj; lia.
    + apply NoDup_filter, Zrange_NoDup.
  - intros Hin. apply in_map_iff in Hin as (p & Heq & Hp).
    apply filter_In in Hp as [Hp _]. apply page_numbers_In in Hp.
    unfold request_id in Heq.
    assert (p = 0); [|lia].
    apply Hinj; [lia|lia|]. rewrite Heq. cbn. f_equal. lia.
Qed.

Lemma request_ids_are_distinct_witness :
  exists res w' added,
    extractPODDataFromPDF Stub.three_pages "doc-1" [] db Stub.fresh_world
    = (Ok res, w')
    /\ documentTokenUsage (db_store w') = added
    /\ NoDup (map DocumentTokenUsage.requestId added)
    /\ ~ In "req-0" (map DocumentTokenUsage.requestId added).
Proof.
  destruct (request_ids_are_distinct Stub.three_pages "doc-1" []
              Stub.fresh_world 3 eq_refl eq_refl)
    as (res & w' & added & Hrun & Hadd & Hnd & Hno).
  - intros p q Hp Hq.
    assert (H1 : p = 0 \/ p = 1 \/ p = 2 \/ p = 3) by lia.
    assert (H2 : q = 0 \/ q = 1 \/ q = 2 \/ q = 3) by lia.
    destruct H1 as [ -> | [ -> | [ -> | -> ] ] ];
      destruct H2 as [ -> | [ -> | [ -> | -> ] ] ];
      vm_compute; congruence.
  - intros p Hp.
    assert (H1 : p = 1 \/ p = 2 \/ p = 3) by lia.
    destruct H1 as [ -> | [ -> | -> ] ]; vm_compute; lia.
  - exists res, w', added. repeat split; assumption.
Defined.

(** ** The listings of the document router *)

(** [getDocumentsByUser] refuses a user id that is not of the form the
    input schema asks for; otherwise it returns the documents of that user
    and no other, each once, latest first; a user without documents gets
    the empty list, not an error. *)
Theorem getDocumentsByUser_lists_own_documents : forall env userId w,
  (z_uuid env userId = false ->
   documentRouter.getDocumentsByUser env userId w
   = (Throw (ZodError "userId"), w))
  /\ (z_uuid env userId = true ->
      exists docs,
        documentRouter.getDocumentsByUser env userId w = (Ok docs, w)
        /\ Permutation docs
             (filter (fun r => String.eqb (UploadDocuments.userId r) userId)
                (uploadDocuments (db_store w)))
        /\ StronglySorted
             (fun a b => UploadDocuments.createdAt b
                         <= UploadDocuments.createdAt a) docs
        /\ (forall r,
              In r docs
              <-> In r (uploadDocuments (db_store w))
                  /\ UploadDocuments.userId r = userId)
        /\ ((forall r, In r (uploadDocuments (db_store w)) ->
               UploadDocuments.userId r <> userId) ->
            docs = [])).
Proof.
  intros env userId w.
  unfold documentRouter.getDocumentsByUser, bind, query, ret, throw.
  split; intros Hid; rewrite Hid; cbn; [reflexivity|].
  set (mine := filter _ (uploadDocuments (db_store w))).
  pose proof (orderBy_perm desc_createdAt mine) as Hperm.
  exists (orderBy desc_createdAt mine). split; [reflexivity|].
  split; [exact Hperm|]. split; [|split].
  - eapply StronglySorted_weaken;
      [|apply (orderBy_sorted _ desc_createdAt_total desc_createdAt_trans)].
    intros a b. unfold desc_createdAt. lia.
  - intros r. split.
    + intros Hin. apply (Permutation_in _ Hperm) in Hin.
      apply filter_In in Hin as [Hin Hu]. split; [exact Hin|].
      now apply String.eqb_eq.
    + intros [Hin Hu]. apply (Permutation_in _ (Permutation_sym Hperm)).
      apply filter_In. split; [exact Hin|]. now apply String.eqb_eq.
  - intros Hnone.
    assert (Hm : mine = []).
    { apply filter_none. intros r Hr. apply String.eqb_neq. now apply Hnone. }
    rewrite Hm. reflexivity.
Qed.

Lemma getDocumentsByUser_lists_own_documents_witness :
  fst (documentRouter.getDocumentsByUser Stub.two_pages "user-1"
         Stub2.two_users)
  = Ok [Stub2.of_user "doc-c" "user-1" 300; Stub2.of_user "doc-a" "user-1" 100]
  /\ fst (documentRouter.getDocumentsByUser Stub.two_pages "user-3"
            Stub2.two_users)
     = Ok [].
Proof.
  destruct (getDocumentsByUser_lists_own_documents Stub.two_pages "user-1"
              Stub2.two_users) as [_ H1].
  destruct (H1 eq_refl) as (docs1 & Hrun1 & _).
  destruct (getDocumentsByUser_lists_own_documents Stub.two_pages "user-3"
              Stub2.two_users) as [_ H3].
  destruct (H3 eq_refl) as (docs3 & Hrun3 & _ & _ & _ & Hempty).
  split.
  - rewrite Hrun1. vm_compute in Hrun1. now injection Hrun1 as <-.
  - rewrite Hrun3. cbn [fst]. f_equal. apply Hempty.
    intros r [<-|[<-|[<-|[]]]]; discriminate.
Defined.

Lemma NoDup_map_filter : forall {A B} (f : A -> B) (g : A -> bool) l,
  NoDup (map f l) -> NoDup (map f (filter g l)).
Proof.
  intros A B f g l. induction l as [|x l IH]; cbn; intros H; [constructor|].
  inversion H as [|? ? Hx Hl]; subst.
  destruct (g x); cbn; [|auto]. constructor; [|auto].
  intros Hin. apply Hx. apply in_map_iff in Hin as (y & Hy & Hin).
  apply filter_In in Hin as [Hin _]. apply in_map_iff. exists y. auto.
Qed.

Lemma StronglySorted_strict : forall (l : list ExtractedPageData.row),
  StronglySorted
    (fun a b => ExtractedPageData.pageNumber a <= ExtractedPageData.pageNumber b)
    l ->
  NoDup (map ExtractedPageData.pageNumber l) ->
  StronglySorted
    (fun a b => ExtractedPageData.pageNumber a < ExtractedPageData.pageNumber b)
    l.
Proof.
  intros l S. induction S as [|a l S IH Ha]; intros Hnd; [constructor|].
  cbn in Hnd. inversion Hnd as [|? ? Hna Hnl]; subst.
  constructor; [auto|].
  rewrite Forall_forall in *. intros b Hb.
  specialize (Ha b Hb).
  assert (ExtractedPageData.pageNumber a <> ExtractedPageData.pageNumber b).
  { intros E. apply Hna. rewrite E. now apply in_map. }
  lia.
Qed.

(** [getExtractedData] returns the page records of the document asked for,
    no other and each once, ordered by page number; when the store keeps
    the page keys unique the page numbers strictly increase; and for a
    document without page records, or an id no document carries, it returns
    the empty list and no error. *)
Theorem getExtractedData_lists_pages : forall env d w,
  z_uuid env d = true ->
  exists pages,
    documentRouter.getExtractedData env d w = (Ok pages, w)
    /\ Permutation pages (pages_of (db_store w) d)
    /\ StronglySorted
         (fun a b => ExtractedPageData.pageNumber a
                     <= ExtractedPageData.pageNumber b) pages
    /\ (unique_page_keys (db_store w) ->
        StronglySorted
          (fun a b => ExtractedPageData.pageNumber a
                      < ExtractedPageData.pageNumber b) pages)
    /\ (pages_of (db_store w) d = [] -> pages = []).
Proof.
  intros env d w Hid.
  unfold documentRouter.getExtractedData, documentRouter.parse_documentId,
    bind, query, ret.
  rewrite Hid. cbn. fold (pages_of (db_store w) d).
  pose proof (orderBy_perm asc_pageNumber (pages_of (db_store w) d)) as Hperm.
  assert (Hsorted : StronglySorted
                      (fun a b => ExtractedPageData.pageNumber a
                                  <= ExtractedPageData.pageNumber b)
                      (orderBy asc_pageNumber (pages_of (db_store w) d))).
  { eapply StronglySorted_weaken;
      [|apply (orderBy_sorted _ asc_pageNumber_total asc_pageNumber_trans)].
    intros a b. unfold asc_pageNumber. lia. }
  eexists. split; [reflexivity|]. split; [exact Hperm|].
  split; [exact Hsorted|]. split.
  - intros Hu. apply StronglySorted_strict; [exact Hsorted|].
    apply (Permutation_NoDup
             (Permutation_map _ (Permutation_sym Hperm))).
    unfold unique_page_keys in Hu.
    apply (NoDup_map_filter page_key
             (fun r => String.eqb (ExtractedPageData.documentId r) d)) in Hu.
    fold (pages_of (db_store w) d) in Hu.
    assert (Hd : forall r, In r (pages_of (db_store w) d) ->
                   ExtractedPageData.documentId r = d)
      by (intros r Hr; apply filter_In in Hr as [_ Hr];
          now apply String.eqb_eq).
    revert Hu Hd. generalize (pages_of (db_store w) d) as rows.
    induction rows as [|r rows IH]; cbn; intros Hu Hd; [constructor|].
    inversion Hu as [|? ? Hr Hrows]; subst. constructor.
    + intros Hin. apply Hr. apply in_map_iff in Hin as (r' & Hn & Hin).
      apply in_map_iff. exists r'. split; [|exact Hin].
      unfold page_key. rewrite Hn, (Hd r), (Hd r'); auto.
    + apply IH; auto.
  - intros ->. reflexivity.
Qed.

Lemma getExtractedData_lists_pages_witness :
  let w := snd (extractPODDataFromPDF Stub.three_pages "doc-1" [] db
                  Stub.fresh_world) in
  (exists pages,
     documentRouter.getExtractedData Stub.three_pages "doc-1" w = (Ok pages, w)
     /\ map ExtractedPageData.pageNumber pages = [1; 2; 3])
  /\ documentRouter.getExtractedData Stub.three_pages "doc-9" w = (Ok [], w).
Proof.
  cbv zeta. split.
  - destruct (getExtractedData_lists_pages Stub.three_pages "doc-1"
                (snd (extractPODDataFromPDF Stub.three_pages "doc-1" [] db
                        Stub.fresh_world)) eq_refl)
      as (pages & Hget & _).
    exists pages. split; [exact Hget|].
    vm_compute in Hget. now injection Hget as <-.
  - destruct (getExtractedData_lists_pages Stub.three_pages "doc-9"
                (snd (extractPODDataFromPDF Stub.three_pages "doc-1" [] db
                        Stub.fresh_world)) eq_refl)
      as (pages & Hget & _ & _ & _ & Hempty).
    rewrite Hget. now rewrite Hempty.
Defined.

Lemma firstn_add : forall {A} (a b : nat) (l : list A),
  firstn (a + b) l = firstn a l ++ firstn b (skipn a l).
Proof.
  intros A a. induction a as [|a IH]; intros b l; cbn; [reflexivity|].
  destruct l as [|x l]; cbn.
  - now rewrite firstn_nil.
  - now rewrite IH.
Qed.

Lemma skipn_add : forall {A} (a b : nat) (l : list A),
  skipn (a + b) l = skipn b (skipn a l).
Proof.
  intros A a. induction a as [|a IH]; intros b l; cbn; [reflexivity|].
  destruct l as [|x l]; cbn; [now rewrite skipn_nil|apply IH].
Qed.

Lemma listDocuments_in_range : forall limit offset w,
  1 <= limit <= 100 -> 0 <= offset ->
  documentRouter.listDocuments
    (Some (documentRouter.mk_list_input
             (Some (JS.Integer limit)) (Some (JS.Integer offset)))) w
  = (Ok (limit_offset limit offset
           (orderBy desc_createdAt (uploadDocuments (db_store w)))), w).
Proof.
  intros limit offset w Hl Ho.
  unfold documentRouter.listDocuments, documentRouter.parse_list_input,
    documentRouter.parse_limit, documentRouter.parse_offset.
  cbn [documentRouter.limit documentRouter.offset].
  replace ((0 <? limit) && (limit <=? 100)) with true
    by (symmetry; apply andb_true_iff; split; lia).
  replace (0 <=? offset) with true by (symmetry; lia).
  reflexivity.
Qed.

Lemma NoDup_map_eq : forall {A B} (f : A -> B) l x y,
  NoDup (map f l) -> In x l -> In y l -> f x = f y -> x = y.
Proof.
  intros A B f l. induction l as [|a l IH]; intros x y Hnd Hx Hy Hf;
    [contradiction|].
  cbn in Hnd. inversion Hnd as [|? ? Hna Hnd']; subst.
  destruct Hx as [<-|Hx], Hy as [<-|Hy].
  - reflexivity.
  - exfalso. apply Hna. rewrite Hf. now apply in_map.
  - exfalso. apply Hna. rewrite <- Hf. now apply in_map.
  - now apply IH.
Qed.

(** Documents created at distinct times have one latest-first order. *)
Lemma latest_first_unique : forall (l1 l2 : list UploadDocuments.row),
  Permutation l1 l2 ->
  NoDup (map UploadDocuments.createdAt l1) ->
  StronglySorted
    (fun a b => UploadDocuments.createdAt b <= UploadDocuments.createdAt a) l1 ->
  StronglySorted
    (fun a b => UploadDocuments.createdAt b <= UploadDocuments.createdAt a) l2 ->
  l1 = l2.
Proof.
  intros l1. induction l1 as [|x l1 IH]; intros l2 Hp Hnd H1 H2.
  - now apply Permutation_nil in Hp.
  - destruct l2 as [|y l2];
      [apply Permutation_sym, Permutation_nil in Hp; discriminate|].
    assert (Hxy : x = y).
    { apply (NoDup_map_eq UploadDocuments.createdAt (x :: l1));
        [exact Hnd|now left| |].
      - apply (Permutation_in y (Permutation_sym Hp)). now left.
      - apply StronglySorted_inv in H1 as [_ F1].
        apply StronglySorted_inv in H2 as [_ F2].
        rewrite Forall_forall in F1, F2.
        assert (Hy : In y (x :: l1))
          by (apply (Permutation_in y (Permutation_sym Hp)); now left).
        assert (Hx : In x (y :: l2))
          by (apply (Permutation_in x Hp); now left).
        destruct Hy as [Hy|Hy]; [now subst|].
        destruct Hx as [Hx|Hx]; [now subst|].
        pose proof (F1 y Hy). pose proof (F2 x Hx). lia. }
    subst y. f_equal.
    apply IH.
    + now apply Permutation_cons_inv in Hp.
    + cbn in Hnd. now inversion Hnd.
    + now apply StronglySorted_inv in H1.
    + now apply StronglySorted_inv in H2.
Qed.

(** Pages of [listDocuments] fit together when no two documents share
    their time of creation, which is all the query orders by.  Then there
    is one latest-first order of the documents, whatever breaks ties
    elsewhere, every page is a stretch of it, and a page of [l1] documents
    at offset [o] followed by the page of [l2] documents at offset
    [o + l1] is the page of [l1 + l2] documents at offset [o], so that
    paging through the list neither repeats nor skips a document; a page
    holds at most [limit] documents, a page shorter than its limit is the
    last one, and an offset at or past the number of documents gives the
    empty page. *)
Theorem listDocuments_pages_compose : forall l1 l2 o w,
  NoDup (map UploadDocuments.createdAt (uploadDocuments (db_store w))) ->
  1 <= l1 -> 1 <= l2 -> l1 + l2 <= 100 -> 0 <= o ->
  exists a b,
    documentRouter.listDocuments
      (Some (documentRouter.mk_list_input
               (Some (JS.Integer l1)) (Some (JS.Integer o)))) w
    = (Ok a, w)
    /\ documentRouter.listDocuments
         (Some (documentRouter.mk_list_input
                  (Some (JS.Integer l2)) (Some (JS.Integer (o + l1))))) w
       = (Ok b, w)
    /\ documentRouter.listDocuments
         (Some (documentRouter.mk_list_input
                  (Some (JS.Integer (l1 + l2))) (Some (JS.Integer o)))) w
       = (Ok (a ++ b), w)
    /\ (forall sorted,
          Permutation sorted (uploadDocuments (db_store w)) ->
          StronglySorted
            (fun x y => UploadDocuments.createdAt y
                        <= UploadDocuments.createdAt x) sorted ->
          a = firstn (Z.to_nat l1) (skipn (Z.to_nat o) sorted)
          /\ b = firstn (Z.to_nat l2) (skipn (Z.to_nat (o + l1)) sorted))
    /\ Z.of_nat (List.length a) <= l1
    /\ (Z.of_nat (List.length a) < l1 -> b = [])
    /\ (Z.of_nat (List.length (uploadDocuments (db_store w))) <= o -> a = []).
Proof.
  intros l1 l2 o w Hnd H1 H2 H12 Ho.
  rewrite !listDocuments_in_range by lia.
  set (mine := orderBy desc_createdAt (uploadDocuments (db_store w))).
  assert (Hperm : Permutation mine (uploadDocuments (db_store w)))
    by apply orderBy_perm.
  assert (Hsorted : StronglySorted
                      (fun x y => UploadDocuments.createdAt y
                                  <= UploadDocuments.createdAt x) mine).
  { eapply StronglySorted_weaken;
      [|apply (orderBy_sorted desc_createdAt desc_createdAt_total
                 desc_createdAt_trans)].
    intros x y Hxy. unfold desc_createdAt in Hxy. cbn in Hxy. lia. }
  assert (Hlen : List.length mine
                 = List.length (uploadDocuments (db_store w)))
    by apply Permutation_length, Hperm.
  do 2 eexists. split; [reflexivity|]. split; [reflexivity|].
  unfold limit_offset.
  replace (Z.to_nat (l1 + l2)) with (Z.to_nat l1 + Z.to_nat l2)%nat by lia.
  replace (Z.to_nat (o + l1)) with (Z.to_nat o + Z.to_nat l1)%nat by lia.
  rewrite firstn_add, skipn_add.
  split; [reflexivity|]. split; [|split; [|split]].
  - intros sorted Hp Hs.
    assert (Heq : mine = sorted).
    { apply latest_first_unique; [| |exact Hsorted|exact Hs].
      - eapply Permutation_trans; [exact Hperm|now apply Permutation_sym].
      - eapply Permutation_NoDup; [|exact Hnd].
        apply Permutation_map, Permutation_sym, Hperm. }
    rewrite <- Heq, skipn_add. split; reflexivity.
  - pose proof (firstn_le_length (Z.to_nat l1) (skipn (Z.to_nat o) mine)).
    lia.
  - intros Hshort. rewrite length_firstn in Hshort.
    rewrite skipn_all2; [apply firstn_nil|]. lia.
  - intros Hpast. rewrite skipn_all2 by lia. apply firstn_nil.
Qed.

Lemma listDocuments_pages_compose_witness :
  let w := mkWorld Stub.five_documents 0 0 0 [] [] in
  NoDup (map UploadDocuments.createdAt (uploadDocuments Stub.five_documents))
  /\ exists a b,
       fst (documentRouter.listDocuments
              (Some (documentRouter.mk_list_input
                       (Some (JS.Integer 2)) (Some (JS.Integer 0)))) w) = Ok a
       /\ fst (documentRouter.listDocuments
                 (Some (documentRouter.mk_list_input
                          (Some (JS.Integer 3)) (Some (JS.Integer 2)))) w)
          = Ok b
       /\ fst (documentRouter.listDocuments
                 (Some (documentRouter.mk_list_input
                          (Some (JS.Integer 5)) (Some (JS.Integer 0)))) w)
          = Ok (a ++ b).
Proof.
  cbv zeta.
  assert (Hnd : NoDup (map UploadDocuments.createdAt
                         (uploadDocuments Stub.five_documents))).
  { cbn. repeat constructor; cbn; intros H;
      repeat (destruct H as [H|H]; [discriminate|]); exact H. }
  split; [exact Hnd|].
  destruct (listDocuments_pages_compose 2 3 0
              (mkWorld Stub.five_documents 0 0 0 [] []) Hnd)
    as (a & b & Ha & Hb & Hab & _); try lia.
  exists a, b. change (0 + 2) with 2 in Hb. change (2 + 3) with 5 in Hab.
  rewrite Ha, Hb, Hab. repeat split; reflexivity.
Defined.

(** ** The upload procedure *)

Lemma insert_uploadDocuments_throw : forall env v w e w',
  insert_uploadDocuments env v w = (Throw e, w') ->
  db_store w' = db_store w /\ pending w' = pending w.
Proof.
  intros env v w e w'. unfold insert_uploadDocuments.
  destruct (Column.varchar 255 (v_instructionNumber v)).
  2:{ intros H. injection H as _ <-. split; reflexivity. }
  repeat match goal with
         | |- context [if negb ?b then _ else _] =>
             destruct b; cbn [negb];
             try (intros H; injection H as _ <-; split; reflexivity)
         end.
  discriminate.
Qed.

Lemma insert_uploadDocuments_row : forall env v w r w',
  insert_uploadDocuments env v w = (Ok r, w') ->
  UploadDocuments.userId r = v_userId v
  /\ Column.varchar 255 (v_instructionNumber v)
     = Some (UploadDocuments.instructionNumber r)
  /\ UploadDocuments.documentName r = v_documentName v
  /\ UploadDocuments.fileUrl r = v_fileUrl v
  /\ UploadDocuments.fileSizeInBytes r = v_fileSizeInBytes v
  /\ UploadDocuments.companyId r = v_companyId v
  /\ UploadDocuments.branchId r = v_branchId v
  /\ UploadDocuments.extractionId r = None
  /\ UploadDocuments.createdAt r = clock w
  /\ In (v_userId v) (users (db_store w)).
Proof.
  intros env v w r w'. unfold insert_uploadDocuments.
  destruct (Column.varchar 255 (v_instructionNumber v)) as [ins|];
    [|discriminate].
  destruct (Column.integer _); cbn [negb]; [|discriminate].
  destruct (Column.mem (v_userId v) (users (db_store w))) eqn:Hu;
    cbn [negb]; [|discriminate].
  destruct (Column.references_null (v_companyId v) _); cbn [negb];
    [|discriminate].
  destruct (Column.references_null (v_branchId v) _); cbn [negb];
    [|discriminate].
  intros H. injection H as <- _. cbn. repeat split; try reflexivity.
  unfold Column.mem in Hu. apply existsb_exists in Hu as (x & Hx & Heq).
  apply String.eqb_eq in Heq. now subst.
Qed.

(** The [upload] procedure creates one document or nothing.  When it
    returns, one row has been appended to the documents, carrying the
    identifier returned, the fields of the input, status IDEAL, no
    extraction id and the current time, for a user the store knows; when it
    throws, on an input the schema refuses or on a row the store refuses,
    the store and the pending promises are as before. *)
Theorem upload_creates_one_document_or_nothing : forall env input w,
  match documentRouter.upload env input w with
  | (Ok out, w') =>
      exists row size,
        documentRouter.fileSizeInBytes input = JS.Integer size
        /\ uploadDocuments (db_store w')
           = uploadDocuments (db_store w) ++ [row]
        /\ UploadDocuments.documentId row = documentRouter.out_documentId out
        /\ UploadDocuments.userId row = documentRouter.userId input
        /\ Column.varchar 255 (documentRouter.instructionNumber input)
           = Some (UploadDocuments.instructionNumber row)
        /\ UploadDocuments.documentName row = documentRouter.documentName input
        /\ UploadDocuments.fileUrl row = documentRouter.fileUrl input
        /\ UploadDocuments.fileSizeInBytes row = size
        /\ UploadDocuments.companyId row = documentRouter.companyId input
        /\ UploadDocuments.branchId row = documentRouter.branchId input
        /\ UploadDocuments.extractionStatus row = IDEAL
        /\ UploadDocuments.extractionId row = None
        /\ UploadDocuments.createdAt row = clock w
        /\ In (documentRouter.userId input) (users (db_store w))
        /\ 0 < size
  | (Throw e, w') => db_store w' = db_store w /\ pending w' = pending w
  end.
Proof.
  intros env input w. unfold documentRouter.upload.
  destruct (documentRouter.parse_upload_input env input) as [size|e] eqn:Hparse;
    [|cbn; auto].
  unfold bind, console_log, ret.
  destruct (insert_uploadDocuments env _ w) as [[row|e] w1] eqn:Hins.
  - pose proof (insert_uploadDocuments_ok _ _ _ _ _ Hins)
      as (_ & Hst & Hdocs & _).
    apply insert_uploadDocuments_row in Hins
      as (Hu & Hi & Hn & Hf & Hs & Hc & Hb & Hx & Hcr & Hin).
    cbn in *.
    assert (Hsize : documentRouter.fileSizeInBytes input = JS.Integer size
                    /\ 0 < size).
    { unfold documentRouter.parse_upload_input in Hparse.
      repeat match type of Hparse with
             | (if negb ?b then _ else _) = _ =>
                 destruct b; cbn [negb] in Hparse; try discriminate
             end.
      destruct (documentRouter.fileSizeInBytes input) as [n|];
        [|discriminate].
      destruct (0 <? n) eqn:Hpos; cbn [negb] in Hparse; [|discriminate].
      repeat match type of Hparse with
             | (if negb ?b then _ else _) = _ =>
                 destruct b; cbn [negb] in Hparse; try discriminate
             end.
      injection Hparse as ->. split; [reflexivity|lia]. }
    destruct Hsize as [Hsz Hpos].
    exists row, size. repeat split; assumption.
  - now apply insert_uploadDocuments_throw in Hins.
Qed.

(** ** The upload endpoint *)

Lemma find_app_none : forall {A} (p : A -> bool) l x,
  find p l = None -> p x = true -> find p (l ++ [x]) = Some x.
Proof.
  intros A p l x. induction l as [|y l IH]; cbn; intros Hn Hx.
  - now rewrite Hx.
  - destruct (p y); [discriminate|]. now apply IH.
Qed.

(** What a request to the upload endpoint can come to: an answer that is
    not 200 and no trace in the store, or a new document and the promise
    of its extraction. *)
Lemma upload_document_cases : forall env req w,
  let resp := fst (Server.upload_document env req w) in
  let w' := snd (Server.upload_document env req w) in
  ((Server.status resp = 400 \/ Server.status resp = 500)
   /\ Server.field "documentId" resp = None
   /\ Server.field "success" resp = None
   /\ db_store w' = db_store w
   /\ pending w' = pending w
   /\ (Server.status resp = 400 <->
       Server.file req = None
       \/ (exists f, Server.multer_single req = Ok (Some f))
          /\ (JS.truthy (Server.body_userId req) = None
              \/ JS.truthy (Server.body_instructionNumber req) = None)))
  \/ (exists f row,
        Server.file req = Some f
        /\ Server.status resp = 200
        /\ Server.field "documentId" resp
           = Some (Server.JString (UploadDocuments.documentId row))
        /\ uploadDocuments (db_store w')
           = uploadDocuments (db_store w) ++ [row]
        /\ pending w'
           = pending w
             ++ [TaskExtract (UploadDocuments.documentId row) (Server.buffer f)]
        /\ uuids w' = uuids w
        /\ UploadDocuments.extractionStatus row = IDEAL
        /\ UploadDocuments.extractionId row = None).
Proof.
  intros env req w. cbv zeta. unfold Server.upload_document.
  destruct (Server.multer_single req) as [[f|]|e] eqn:Hm.
  - assert (Hf : Server.file req = Some f).
    { unfold Server.multer_single in Hm.
      destruct (Server.file req) as [f'|]; [|discriminate].
      destruct (negb _); [discriminate|].
      destruct (_ <? _); [discriminate|]. now injection Hm as ->. }
    unfold Server.upload_document_body.
    destruct (JS.truthy (Server.body_userId req)) as [u|] eqn:Hu.
    2:{ left. cbn. repeat split; auto.
        - intros _. right. split; [now exists f|now left].
      }
    destruct (JS.truthy (Server.body_instructionNumber req)) as [i|] eqn:Hi.
    2:{ left. cbn. repeat split; auto.
        intros _. right. split; [now exists f|now right]. }
    unfold bind, console_log, ret, Server.fire_and_forget.
    destruct (insert_uploadDocuments env _ w) as [[row|e] w1] eqn:Hins.
    + right. exists f, row.
      pose proof (insert_uploadDocuments_ok _ _ _ _ _ Hins)
        as (_ & Hst & Hdocs & _ & _ & Hp & _).
      pose proof (insert_uploadDocuments_row _ _ _ _ _ Hins)
        as (_ & _ & _ & _ & _ & _ & _ & Hx & _).
      assert (Hu' : uuids w1 = uuids w /\ clock w1 = clock w).
      { revert Hins. unfold insert_uploadDocuments.
        destruct (Column.varchar _ _); [|discriminate].
        repeat match goal with
               | |- context [if negb ?b then _ else _] =>
                   destruct b; cbn [negb]; try discriminate
               end.
        intros H. injection H as _ <-. split; reflexivity. }
      cbn [fst snd db_store pending uuids clock Server.status Server.field
           Server.body Server.lookup].
      destruct Hu' as [Hu1 Hc1].
      split; [exact Hf|]. split; [reflexivity|]. split; [reflexivity|].
      split; [exact Hdocs|]. split; [now rewrite Hp|].
      split; [exact Hu1|]. split; [exact Hst|exact Hx].
    + left. apply insert_uploadDocuments_throw in Hins as [Hs Hp].
      cbn. repeat split; auto; try discriminate.
      intros [Hnone|[_ [Hnone|Hnone]]]; congruence.
  - left. cbn.
    assert (Hf : Server.file req = None).
    { unfold Server.multer_single in Hm.
      destruct (Server.file req) as [f'|]; [|reflexivity].
      destruct (negb _); [discriminate|].
      destruct (_ <? _); discriminate. }
    repeat split; auto.
  - left. cbn. repeat split; auto; try discriminate.
    intros [Hnone|[[f Hf] _]]; [|discriminate].
    unfold Server.multer_single in Hm. rewrite Hnone in Hm. discriminate.
Qed.

(** An upload the endpoint does not answer with 200 leaves no trace: the
    answer is 400 or 500 and carries no document id, no document is
    created and no extraction is started.  It is 400 exactly when no file
    came with the request, or when the file passed the filter and the
    size limit and [userId] or [instructionNumber] is missing or empty; a
    file that is not a PDF or exceeds 10 MB, and a row the store refuses
    (an unknown user among them), are answered with 500. *)
Theorem rejected_upload_leaves_no_trace : forall env req resp w w',
  Server.upload_document env req w = (resp, w') ->
  Server.status resp <> 200 ->
  (Server.status resp = 400 \/ Server.status resp = 500)
  /\ Server.field "documentId" resp = None
  /\ db_store w' = db_store w
  /\ pending w' = pending w
  /\ (Server.status resp = 400 <->
      Server.file req = None
      \/ (exists f, Server.multer_single req = Ok (Some f))
         /\ (JS.truthy (Server.body_userId req) = None
             \/ JS.truthy (Server.body_instructionNumber req) = None)).
Proof.
  intros env req resp w w' Hrun Hne.
  pose proof (upload_document_cases env req w) as H. cbv zeta in H.
  rewrite Hrun in H. cbn [fst snd] in H.
  destruct H as [(Hst & Hid & _ & Hs & Hp & H400)|(f & row & _ & H200 & _)].
  - repeat split; try assumption; apply H400.
  - contradiction.
Qed.

Lemma rejected_upload_leaves_no_trace_witness :
  let req := Server.mk_request
               (Some (Server.mk_file "pod.pdf" "application/pdf" []))
               (Some "user-9") (Some "INS-2024-001") None None in
  let answer := Server.upload_document Stub.two_pages req Stub.fresh_world in
  Server.status (fst answer) = 500
  /\ db_store (snd answer) = Stub.fresh_store
  /\ pending (snd answer) = [].
Proof.
  cbv zeta.
  destruct (rejected_upload_leaves_no_trace Stub.two_pages
              (Server.mk_request
                 (Some (Server.mk_file "pod.pdf" "application/pdf" []))
                 (Some "user-9") (Some "INS-2024-001") None None)
              _ Stub.fresh_world _ (surjective_pairing _))
    as (_ & _ & Hs & Hp & _).
  - vm_compute. discriminate.
  - split; [reflexivity|]. split; [exact Hs|exact Hp].
Defined.

(** From upload to result.  When the endpoint has answered an upload with
    a document id, the promise it left pending is the extraction of that
    document on the uploaded bytes, and until that extraction writes,
    [getExtractionStatus] gives IDEAL without an extraction id for a
    document id that is new.  Once that extraction has run to its end on
    the store the upload left, whether it returned or rejected, and
    provided the run id it drew is not the extraction id of another
    document, [getExtractionStatus] gives for the id answered the run id
    and the status COMPLETED when the uploaded bytes parse as a PDF,
    FAILED when they do not: the finished run leaves the document neither
    IDEAL nor PROCESSING. *)
Theorem uploaded_document_is_settled_by_its_run :
  forall env req resp w w' id,
  Server.upload_document env req w = (resp, w') ->
  Server.field "documentId" resp = Some (Server.JString id) ->
  z_uuid env id = true ->
  extractionId_taken id (Some (randomUUID env (uuids w'))) (db_store w')
  = false ->
  exists f,
    Server.file req = Some f
    /\ pending w' = pending w ++ [TaskExtract id (Server.buffer f)]
    /\ (~ In id (document_ids (db_store w)) ->
        documentRouter.getExtractionStatus env id w'
        = (Ok (documentRouter.mk_status_output id IDEAL None), w'))
    /\ documentRouter.getExtractionStatus env id
         (snd (extractPODDataFromPDF env id (Server.buffer f) db w'))
       = (Ok (documentRouter.mk_status_output id
                (match pdf env (Server.buffer f) with
                 | Some _ => COMPLETED
                 | None => FAILED
                 end)
                (Some (randomUUID env (uuids w')))),
          snd (extractPODDataFromPDF env id (Server.buffer f) db w'))
    /\ match fst (extractPODDataFromPDF env id (Server.buffer f) db w') with
       | Ok _ => pdf env (Server.buffer f) <> None
       | Throw _ => pdf env (Server.buffer f) = None
       end.
Proof.
  intros env req resp w w' id Hrun Hid Hz Ht.
  pose proof (upload_document_cases env req w) as H. cbv zeta in H.
  rewrite Hrun in H. cbn [fst snd] in H.
  destruct H as [(_ & Hnone & _)
                |(f & row & Hf & _ & Hid' & Hdocs & Hp & Hu & Hst & Hx)];
    [congruence|].
  rewrite Hid in Hid'. injection Hid' as Hrow.
  exists f. split; [exact Hf|].
  split; [now rewrite Hp, <- Hrow|].
  assert (Hfind : exists doc,
             find (has_id id) (uploadDocuments (db_store w')) = Some doc
             /\ UploadDocuments.documentId doc = id).
  { destruct (find_has_id_some id (uploadDocuments (db_store w'))) as
      (doc & Hd & _ & Hdid).
    - rewrite Hdocs, map_app. apply in_or_app. right. cbn. left.
      now symmetry.
    - exists doc. split; assumption. }
  destruct Hfind as (doc & Hfind & Hdid).
  unfold documentRouter.getExtractionStatus, documentRouter.parse_documentId.
  rewrite Hz. unfold bind, ret, query. cbn [fst snd].
  split.
  { intros Hfresh.
    assert (Hnew : find (has_id id) (uploadDocuments (db_store w'))
                   = Some row).
    { rewrite Hdocs. apply find_app_none.
      - now apply find_has_id_none.
      - unfold has_id. rewrite <- Hrow. apply String.eqb_refl. }
    rewrite Hnew. now rewrite <- Hrow, Hst, Hx. }
  destruct (pdf env (Server.buffer f)) as [N|] eqn:Hpdf.
  - destruct (run_completes env id (Server.buffer f) w' N Ht Hpdf)
      as (w2 & s & events & Hres & _ & _ & Hup & _).
    rewrite Hres. cbn [fst snd].
    rewrite Hup, !find_update_rows, Hfind.
    cbn. rewrite Hdid. split; [reflexivity|discriminate].
  - destruct (run_pdf_fails env id (Server.buffer f) w' Ht Hpdf)
      as (w2 & s & Hres & _ & Hup & _).
    rewrite Hres. cbn [fst snd].
    rewrite Hup, !find_update_rows, Hfind.
    cbn. rewrite Hdid. split; reflexivity.
Qed.

Lemma uploaded_document_is_settled_by_its_run_witness :
  let answer := Server.upload_document Stub.two_pages Stub.upload_request
                  Stub.fresh_world in
  fst (documentRouter.getExtractionStatus Stub.two_pages "row-0" (snd answer))
  = Ok (documentRouter.mk_status_output "row-0" IDEAL None)
  /\ fst (documentRouter.getExtractionStatus Stub.two_pages "row-0"
            (snd (extractPODDataFromPDF Stub.two_pages "row-0"
                    (Server.buffer Stub.pdf_file) db (snd answer))))
     = Ok (documentRouter.mk_status_output "row-0" COMPLETED (Some "req-0")).
Proof.
  cbv zeta.
  destruct (uploaded_document_is_settled_by_its_run Stub.two_pages
              Stub.upload_request _ Stub.fresh_world _ "row-0"
              (surjective_pairing _))
    as (f & Hf & _ & Hbefore & Hafter & _).
  - reflexivity.
  - reflexivity.
  - reflexivity.
  - injection Hf as <-. split.
    + rewrite Hbefore; [reflexivity|].
      cbn. intros [H|[]]. discriminate.
    + rewrite Hafter. reflexivity.
Defined.

(** ** The default user *)

Lemma find_none_existsb : forall {A} (p : A -> bool) l,
  find p l = None -> existsb p l = false.
Proof.
  intros A p l. induction l as [|x l IH]; cbn; [reflexivity|].
  destruct (p x); [discriminate|]. exact IH.
Qed.

Lemma find_none_not_in_emails : forall e t,
  find (has_email e) t = None -> ~ In e (map Users.email t).
Proof.
  intros e t. induction t as [|r t IH]; cbn; intros Hn; [tauto|].
  unfold has_email at 1 in Hn.
  destruct (String.eqb (Users.email r) e) eqn:He; [discriminate|].
  apply String.eqb_neq in He. intros [H|H]; [contradiction|]. now apply IH.
Qed.

(** What a request for the default user does, in full. *)
Lemma default_user_run : forall env t w,
  exists u t1 w1,
    default_user env t w = (UserJson 200 u, t1, w1)
    /\ Users.email u = "admin@pod-ocr.com"
    /\ find (has_email "admin@pod-ocr.com") t1 = Some u
    /\ ((t1 = t /\ w1 = w)
        \/ (find (has_email "admin@pod-ocr.com") t = None
            /\ t1 = t ++ [u]
            /\ Users.userId u = gen_random_uuid env (db_uuids w)
            /\ Users.name u = Some "Admin User"
            /\ users (db_store w1) = users (db_store w) ++ [Users.userId u]
            /\ uploadDocuments (db_store w1) = uploadDocuments (db_store w)
            /\ pending w1 = pending w))
    /\ default_user env t1 w1 = (UserJson 200 u, t1, w1)
    /\ (NoDup (map Users.email t) -> NoDup (map Users.email t1))
    /\ (users (db_store w) = map Users.userId t ->
        users (db_store w1) = map Users.userId t1).
Proof.
  intros env t w. unfold default_user at 1.
  destruct (find (has_email "admin@pod-ocr.com") t) as [user|] eqn:Hfind.
  - exists user, t, w. split; [reflexivity|].
    pose proof (find_some _ _ Hfind) as [_ He].
    apply String.eqb_eq in He.
    split; [exact He|]. split; [exact Hfind|].
    split; [left; split; reflexivity|].
    split; [unfold default_user; now rewrite Hfind|].
    split; auto.
  - unfold insert_users.
    change (Column.varchar 255 "admin@pod-ocr.com")
      with (Some "admin@pod-ocr.com").
    change (Column.varchar_null 255 (Some "Admin User"))
      with (Some (Some "Admin User")).
    cbv beta iota.
    rewrite (find_none_existsb _ _ Hfind).
    set (u := Users.mk (gen_random_uuid env (db_uuids w)) "admin@pod-ocr.com"
                (Some "Admin User") (clock w) (clock w) None (Some false)).
    assert (Hnew : find (has_email "admin@pod-ocr.com") (t ++ [u]) = Some u)
      by (apply find_app_none; [exact Hfind|reflexivity]).
    exists u, (t ++ [u]). eexists. split; [reflexivity|].
    split; [reflexivity|]. split; [exact Hnew|].
    split.
    { right. cbn [db_store users uploadDocuments pending].
      repeat split; reflexivity. }
    split; [unfold default_user; now rewrite Hnew|].
    split.
    + intros Hnd. rewrite map_app. cbn [map].
      apply NoDup_app; [exact Hnd|repeat constructor; cbn; tauto|].
      intros e He [<-|[]].
      now apply (find_none_not_in_emails _ _ Hfind).
    + intros Hkeys. cbn [db_store users]. rewrite Hkeys, map_app.
      reflexivity.
Qed.

(** GET /api/default-user gets or creates: it always answers 200 with a
    user whose email is admin@pod-ocr.com and who is in the table
    afterwards.  Either such a user was there, and nothing is written, or
    there was none and exactly one row is appended, named Admin User, with
    a fresh key that the store then knows, the documents being left
    alone.  Asking again gives the same user and writes nothing; emails
    that were unique stay unique, and the keys of the store stay those of
    the table. *)
Theorem default_user_gets_or_creates : forall env t w,
  exists u t1 w1,
    default_user env t w = (UserJson 200 u, t1, w1)
    /\ Users.email u = "admin@pod-ocr.com"
    /\ find (has_email "admin@pod-ocr.com") t1 = Some u
    /\ ((t1 = t /\ w1 = w)
        \/ (find (has_email "admin@pod-ocr.com") t = None
            /\ t1 = t ++ [u]
            /\ Users.userId u = gen_random_uuid env (db_uuids w)
            /\ Users.name u = Some "Admin User"
            /\ users (db_store w1) = users (db_store w) ++ [Users.userId u]
            /\ uploadDocuments (db_store w1) = uploadDocuments (db_store w)
            /\ pending w1 = pending w))
    /\ default_user env t1 w1 = (UserJson 200 u, t1, w1)
    /\ (NoDup (map Users.email t) -> NoDup (map Users.email t1))
    /\ (users (db_store w) = map Users.userId t ->
        users (db_store w1) = map Users.userId t1).
Proof.
  exact default_user_run.
Qed.


(** ** The upload page *)

Lemma truthy_some : forall s v, JS.truthy s = Some v ->
  s = Some v /\ JS.truthy (Some v) = Some v.
Proof.
  intros s v. unfold JS.truthy. destruct s as [x|]; [|discriminate].
  destruct (String.length x =? 0)%nat eqn:Hx; [discriminate|].
  intros H. injection H as <-. rewrite Hx. split; reflexivity.
Qed.

(** What the endpoint answers to the form the page sends: the default
    error page, the JSON of a failed upload, or the JSON of a document
    created. *)
Lemma upload_document_of_form : forall env f u i w,
  JS.truthy (Some u) = Some u ->
  JS.truthy (Some i) = Some i ->
  let answer :=
    Server.upload_document env
      (Server.mk_request (Some f) (Some u) (Some i) None None) w in
  (exists text,
     fst answer = Server.mk_response 500 (Server.Html text)
     /\ snd answer = w
     /\ (Server.mimetype f <> "application/pdf"
         \/ 10 * 1024 * 1024 < Server.size f))
  \/ (exists e,
        fst answer
        = Server.mk_response 500
            (Server.Json [("error", Server.JString "Upload failed");
                          ("message", Server.JString e)])
        /\ db_store (snd answer) = db_store w
        /\ pending (snd answer) = pending w
        /\ Server.mimetype f = "application/pdf"
        /\ Server.size f <= 10 * 1024 * 1024
        /\ (Column.varchar 255 i = None
            \/ Column.mem u (users (db_store w)) = false))
  \/ (exists row,
        fst answer
        = Server.mk_response 200
            (Server.Json
               [("success", Server.JBool true);
                ("documentId",
                 Server.JString (UploadDocuments.documentId row));
                ("message",
                 Server.JString
                   "Document uploaded successfully. Processing started.")])
        /\ uploadDocuments (db_store (snd answer))
           = uploadDocuments (db_store w) ++ [row]
        /\ pending (snd answer)
           = pending w
             ++ [TaskExtract (UploadDocuments.documentId row)
                   (Server.buffer f)]
        /\ UploadDocuments.userId row = u
        /\ Column.varchar 255 i = Some (UploadDocuments.instructionNumber row)
        /\ UploadDocuments.documentName row = Server.originalname f
        /\ UploadDocuments.extractionStatus row = IDEAL).
Proof.
  intros env f u i w Hu Hi. cbv zeta.
  unfold Server.upload_document, Server.multer_single.
  cbn [Server.file].
  destruct (String.eqb (Server.mimetype f) "application/pdf") eqn:Hmime;
    cbn [negb].
  2:{ left. eexists. split; [reflexivity|]. split; [reflexivity|].
      left. now apply String.eqb_neq. }
  apply String.eqb_eq in Hmime.
  destruct (10 * 1024 * 1024 <? Server.size f) eqn:Hsize.
  { left. eexists. split; [reflexivity|]. split; [reflexivity|].
    right. now apply Z.ltb_lt. }
  apply Z.ltb_ge in Hsize.
  right.
  unfold Server.upload_document_body.
  cbn [Server.body_userId Server.body_instructionNumber Server.body_companyId
       Server.body_branchId].
  rewrite Hu, Hi.
  unfold bind, console_log, ret, Server.fire_and_forget.
  destruct (insert_uploadDocuments env _ w) as [[row|e] w1] eqn:Hins.
  - right. exists row.
    pose proof (insert_uploadDocuments_ok _ _ _ _ _ Hins)
      as (_ & Hst & Hdocs & _ & _ & Hp & _).
    apply insert_uploadDocuments_row in Hins
      as (Hru & Hri & Hn & _).
    cbn [fst snd db_store pending] in *.
    split; [reflexivity|]. split; [exact Hdocs|].
    split; [now rewrite Hp|]. repeat split; assumption.
  - left. exists (Server.message e).
    pose proof (insert_uploadDocuments_throw _ _ _ _ _ Hins) as [Hs Hp].
    cbn [fst snd]. split; [reflexivity|]. split; [exact Hs|].
    split; [exact Hp|]. split; [exact Hmime|]. split; [lia|].
    revert Hins. unfold insert_uploadDocuments.
    cbn [v_instructionNumber v_fileSizeInBytes v_userId v_companyId
         v_branchId JS.or_null JS.truthy Column.references_null].
    destruct (Column.varchar 255 i); [|now left].
    replace (Column.integer (Server.size f)) with true.
    2:{ symmetry. unfold Column.integer.
        pose proof (Nat2Z.is_nonneg (List.length (Server.buffer f))) as Hnn.
        fold (Server.size f) in Hnn.
        apply andb_true_iff. split; apply Z.leb_le; lia. }
    cbn [negb].
    destruct (Column.mem u (users (db_store w))); [|now right].
    cbn [negb]. discriminate.
Qed.

(** One call of [handleUpload] shows exactly one toast and leaves
    [userId] alone, in one of three ways.  Success: the toast of success,
    the file and the instruction number cleared, [uploadedDocId] the key
    of the one document created, for this user and under the name of the
    file, its extraction pending.  Incomplete form (no file, no user id or
    no instruction number): the toast asks to fill the fields, nothing is
    sent and nothing else changes.  Anything else, an unreachable server,
    a file that is not a PDF or is too large, an unknown user, an
    instruction number that does not fit: the toast reads Upload failed
    without the reason, the form is kept, and no document and no promise
    are created.  But for the incomplete form, [uploading] ends false. *)
Theorem handleUpload_outcomes : forall env reachable c w,
  let c' := fst (Web.handleUpload env reachable c w) in
  let w' := snd (Web.handleUpload env reachable c w) in
  exists t,
    Web.toasts c' = Web.toasts c ++ [t]
    /\ Web.userId c' = Web.userId c
    /\ ((t = Web.toast_success
               (Server.JString
                  "Document uploaded successfully! Processing started.")
         /\ Web.uploading c' = false
         /\ Web.file c' = None
         /\ Web.instructionNumber c' = ""
         /\ exists f row,
              Web.file c = Some f
              /\ Web.uploadedDocId c'
                 = Some (Server.JString (UploadDocuments.documentId row))
              /\ uploadDocuments (db_store w')
                 = uploadDocuments (db_store w) ++ [row]
              /\ pending w'
                 = pending w
                   ++ [TaskExtract (UploadDocuments.documentId row)
                         (Server.buffer f)]
              /\ Web.userId c = Some (UploadDocuments.userId row)
              /\ UploadDocuments.documentName row = Server.originalname f
              /\ UploadDocuments.extractionStatus row = IDEAL)
        \/ (t = Web.toast_error
                  (Server.JString "Please fill all required fields")
            /\ c' = Web.toast t c
            /\ w' = w
            /\ (Web.file c = None
                \/ JS.truthy (Web.userId c) = None
                \/ Web.instructionNumber c = ""))
        \/ (t = Web.toast_error (Server.JString "Upload failed")
            /\ c' = Web.setUploading false (Web.toast t c)
            /\ db_store w' = db_store w
            /\ pending w' = pending w)).
Proof.
  intros env reachable c w. cbv zeta. unfold Web.handleUpload.
  destruct (Web.file c) as [f|] eqn:Hf.
  2:{ eexists. split; [reflexivity|]. split; [reflexivity|].
      right. left. cbn [fst snd]. repeat split. now left. }
  destruct (JS.truthy (Web.userId c)) as [u|] eqn:Hu.
  2:{ eexists. split; [reflexivity|]. split; [reflexivity|].
      right. left. cbn [fst snd]. repeat split. right. now left. }
  destruct (JS.truthy (Some (Web.instructionNumber c))) as [i|] eqn:Hi.
  2:{ eexists. split; [reflexivity|]. split; [reflexivity|].
      right. left. cbn [fst snd]. repeat split. right. right.
      unfold JS.truthy in Hi.
      destruct (Web.instructionNumber c) as [|a s]; [reflexivity|].
      discriminate. }
  destruct reachable.
  2:{ eexists. split; [reflexivity|]. split; [reflexivity|].
      right. right. cbn [fst snd]. repeat split. }
  apply truthy_some in Hu as [Hu Hu'].
  apply truthy_some in Hi as [_ Hi'].
  pose proof (upload_document_of_form env f u i w Hu' Hi') as H.
  cbv zeta in H.
  destruct (Server.upload_document env _ w) as [response w1].
  cbn [fst snd] in H.
  destruct H as [(text & -> & -> & _)
                |[(e & -> & Hs & Hp & _)
                 |(row & -> & Hdocs & Hp & Hru & _ & Hn & Hst)]].
  - eexists. split; [reflexivity|]. split; [reflexivity|].
    right. right. cbn [fst snd]. repeat split.
  - eexists. split; [reflexivity|]. split; [reflexivity|].
    right. right. cbn [fst snd]. repeat split; assumption.
  - eexists. split; [reflexivity|]. split; [reflexivity|].
    left. cbn [fst snd Web.uploading Web.file Web.instructionNumber
               Web.uploadedDocId].
    split; [reflexivity|]. split; [reflexivity|]. split; [reflexivity|].
    split; [reflexivity|].
    exists f, row. split; [reflexivity|]. split; [reflexivity|].
    split; [exact Hdocs|]. split; [exact Hp|].
    split; [now rewrite Hru|]. split; assumption.
Qed.

(** From opening the page to a document: once the page has fetched the
    default user, whose key the store then knows, a form holding a PDF of
    at most 10 MB and an instruction number of 1 to 255 characters goes
    through.  [handleUpload] shows the toast of success and creates one
    document of the default user, the user whose email is
    admin@pod-ocr.com, with its extraction pending. *)
Theorem default_user_can_upload : forall env c t w c1 t1 w1 f,
  Web.on_mount env true c t w = (c1, t1, w1) ->
  users (db_store w) = map Users.userId t ->
  JS.truthy (Web.userId c1) <> None ->
  Web.file c = Some f ->
  Server.mimetype f = "application/pdf" ->
  Server.size f <= 10 * 1024 * 1024 ->
  (1 <= String.length (Web.instructionNumber c) <= 255)%nat ->
  exists u row,
    find (has_email "admin@pod-ocr.com") t1 = Some u
    /\ Web.userId c1 = Some (Users.userId u)
    /\ fst (Web.handleUpload env true c1 w1)
       = Web.mk_state None false (Web.userId c1) ""
           (Some (Server.JString (UploadDocuments.documentId row)))
           (Web.toasts c
            ++ [Web.toast_success
                  (Server.JString
                     "Document uploaded successfully! Processing started.")])
    /\ uploadDocuments (db_store (snd (Web.handleUpload env true c1 w1)))
       = uploadDocuments (db_store w) ++ [row]
    /\ UploadDocuments.userId row = Users.userId u
    /\ UploadDocuments.instructionNumber row = Web.instructionNumber c
    /\ UploadDocuments.extractionStatus row = IDEAL
    /\ pending (snd (Web.handleUpload env true c1 w1))
       = pending w
         ++ [TaskExtract (UploadDocuments.documentId row) (Server.buffer f)].
Proof.
  intros env c t w c1 t1 w1 f Hmount Hkeys Hid Hf Hmime Hsize Hlen.
  unfold Web.on_mount in Hmount.
  destruct (default_user_run env t w)
    as (u & t' & w' & Hdef & _ & Hfind & Hcase & _ & _ & Hkeys').
  rewrite Hdef in Hmount. injection Hmount as <- <- <-.
  specialize (Hkeys' Hkeys).
  assert (Hdocs0 : uploadDocuments (db_store w') = uploadDocuments (db_store w)
                   /\ pending w' = pending w).
  { destruct Hcase as [[_ ->]|(_ & _ & _ & _ & _ & Hd & Hp)];
      split; auto. }
  destruct Hdocs0 as [Hdocs0 Hpend0].
  cbn [Web.setUserId Web.userId] in Hid |- *.
  destruct (JS.truthy (Some (Users.userId u))) as [uid|] eqn:Hu;
    [|congruence].
  apply truthy_some in Hu as [Hu Hu']. injection Hu as <-.
  assert (Hi' : JS.truthy (Some (Web.instructionNumber c))
                = Some (Web.instructionNumber c)).
  { unfold JS.truthy.
    destruct (String.length (Web.instructionNumber c)) eqn:Hl; [lia|].
    reflexivity. }
  assert (Hmem : Column.mem (Users.userId u) (users (db_store w')) = true).
  { rewrite Hkeys'. unfold Column.mem. apply existsb_exists.
    exists (Users.userId u). split; [|apply String.eqb_refl].
    apply in_map. apply (find_some _ _ Hfind). }
  assert (Hfit : Column.varchar 255 (Web.instructionNumber c)
                 = Some (Web.instructionNumber c)).
  { unfold Column.varchar.
    replace (String.length (Web.instructionNumber c) <=? 255)%nat with true
      by (symmetry; apply Nat.leb_le; lia).
    reflexivity. }
  pose proof (upload_document_of_form env f (Users.userId u)
                (Web.instructionNumber c) w' Hu' Hi') as H.
  cbv zeta in H.
  destruct (Server.upload_document env _ w') as [response w2] eqn:Hup.
  cbn [fst snd] in H.
  destruct H as [(text & _ & _ & [Hbad|Hbad])
                |[(e & _ & _ & _ & _ & _ & [Hbad|Hbad])
                 |(row & -> & Hdocs & Hp & Hru & Hri & _ & Hst)]];
    try congruence; try lia.
  assert (Hrun :
    Web.handleUpload env true (Web.setUserId (Some (Users.userId u)) c) w'
    = (Web.mk_state None false (Some (Users.userId u)) ""
         (Some (Server.JString (UploadDocuments.documentId row)))
         (Web.toasts c
          ++ [Web.toast_success
                (Server.JString
                   "Document uploaded successfully! Processing started.")]),
       w2)).
  { unfold Web.handleUpload.
    cbn [Web.setUserId Web.file Web.userId Web.instructionNumber Web.toasts].
    rewrite Hf, Hu', Hi', Hup. reflexivity. }
  exists u, row. rewrite Hrun. cbn [fst snd].
  split; [exact Hfind|]. split; [reflexivity|]. split; [reflexivity|].
  split; [now rewrite Hdocs, Hdocs0|].
  split; [exact Hru|].
  split; [rewrite Hfit in Hri; now injection Hri|].
  split; [exact Hst|]. now rewrite Hp, Hpend0.
Qed.

Lemma default_user_can_upload_witness :
  exists row,
    uploadDocuments
      (db_store
         (snd (Web.handleUpload Stub.two_pages true
                 (Web.setUserId (Some "row-0") Stub3.filled)
                 (snd (Web.on_mount Stub.two_pages true Stub3.filled
                         Stub3.one_user Stub.fresh_world)))))
    = uploadDocuments Stub.fresh_store ++ [row]
    /\ UploadDocuments.userId row = "row-0"
    /\ UploadDocuments.extractionStatus row = IDEAL.
Proof.
  destruct (default_user_can_upload Stub.two_pages Stub3.filled
              Stub3.one_user Stub.fresh_world
              (Web.setUserId (Some "row-0") Stub3.filled)
              (snd (fst (Web.on_mount Stub.two_pages true Stub3.filled
                           Stub3.one_user Stub.fresh_world)))
              (snd (Web.on_mount Stub.two_pages true Stub3.filled
                      Stub3.one_user Stub.fresh_world))
              Stub.pdf_file)
    as (u & row & Hfind & _ & _ & Hdocs & Hru & _ & Hst & _).
  - reflexivity.
  - reflexivity.
  - cbn. discriminate.
  - reflexivity.
  - reflexivity.
  - cbn. lia.
  - cbn. lia.
  - exists row. split; [exact Hdocs|]. split; [|exact Hst].
    rewrite Hru. vm_compute in Hfind. injection Hfind as <-. reflexivity.
Defined.

(** ** The containers table *)

Lemma map_indexed_length : forall {A B} (f : A -> nat -> B) xs idx,
  List.length (Web.map_indexed f idx xs) = List.length xs.
Proof.
  intros A B f xs. induction xs as [|x xs IH]; intros idx; cbn;
    [reflexivity|]. now rewrite IH.
Qed.

Lemma map_indexed_nth : forall {A B} (f : A -> nat -> B) xs start idx,
  nth_error (Web.map_indexed f start xs) idx
  = option_map (fun x => f x (start + idx)%nat) (nth_error xs idx).
Proof.
  intros A B f xs. induction xs as [|x xs IH]; intros start idx.
  - destruct idx; reflexivity.
  - destruct idx as [|idx]; cbn.
    + now rewrite Nat.add_0_r.
    + rewrite IH. now rewrite Nat.add_succ_r.
Qed.

Lemma or_na_text : forall entry,
  Web.or_na entry
  = match entry with
    | Some (String c v) => String c v
    | _ => "N/A"
    end.
Proof.
  intros [[|c v]|]; reflexivity.
Qed.

(** The containers table of a page follows the container numbers.  It is
    rendered exactly when there is at least one container number, and has
    one row per number whatever the lengths of the two other arrays.  The
    row at index [idx] shows the container number at [idx], the size at
    [idx] and the status at [idx], each as it is when it is a non-empty
    string and as N/A when it is null, empty or, for a size or a status,
    missing because its array is shorter; the badge is the blue one
    exactly when the status at [idx] is FULL.  So sizes and statuses at
    indices beyond the container numbers are not shown, and a page
    without container numbers shows none of them. *)
Theorem containers_table_follows_numbers : forall page,
  (Web.containers_table page = None
   <-> ExtractedPageData.containerNumbers page = [])
  /\ forall rows,
       Web.containers_table page = Some rows ->
       List.length rows
       = List.length (ExtractedPageData.containerNumbers page)
       /\ forall idx num,
            nth_error (ExtractedPageData.containerNumbers page) idx
            = Some num ->
            exists r,
              nth_error rows idx = Some r
              /\ Web.cell_number r
                 = match num with
                   | Some (String c v) => String c v
                   | _ => "N/A"
                   end
              /\ Web.cell_size r
                 = match nth_error (ExtractedPageData.containerSizes page)
                           idx with
                   | Some (Some (String c v)) => String c v
                   | _ => "N/A"
                   end
              /\ Web.cell_status r
                 = match nth_error (ExtractedPageData.fullEmptyStatuses page)
                           idx with
                   | Some (Some (String c v)) => String c v
                   | _ => "N/A"
                   end
              /\ (Web.badge_blue r = true
                  <-> nth_error (ExtractedPageData.fullEmptyStatuses page) idx
                      = Some (Some "FULL")).
Proof.
  intros page. unfold Web.containers_table.
  destruct (0 <? List.length (ExtractedPageData.containerNumbers page))%nat
    eqn:Hpos.
  2:{ apply Nat.ltb_ge in Hpos. split; [|discriminate].
      split; [intros _|reflexivity].
      destruct (ExtractedPageData.containerNumbers page); [reflexivity|].
      cbn in Hpos. lia. }
  apply Nat.ltb_lt in Hpos.
  split.
  { split; [discriminate|]. intros H. rewrite H in Hpos. cbn in Hpos. lia. }
  intros rows H. injection H as <-.
  split; [apply map_indexed_length|].
  intros idx num Hnum.
  rewrite map_indexed_nth, Hnum. cbn [option_map Nat.add].
  eexists. split; [reflexivity|].
  cbn [Web.container_row Web.cell_number Web.cell_size Web.cell_status
       Web.badge_blue].
  rewrite !or_na_text. unfold Web.at_index.
  split; [reflexivity|].
  destruct (nth_error (ExtractedPageData.containerSizes page) idx)
    as [[[|c v]|]|];
    (split; [reflexivity|]);
    destruct (nth_error (ExtractedPageData.fullEmptyStatuses page) idx)
      as [[st|]|];
    try (split; [reflexivity|split; discriminate]).
  all: split; [destruct st; reflexivity|].
  all: split; intros Hb.
  all: try (apply String.eqb_eq in Hb; now subst).
  all: injection Hb as ->; reflexivity.
Qed.

Lemma containers_table_follows_numbers_witness :
  exists rows,
    Web.containers_table Stub3.ragged = Some rows
    /\ List.length rows = 2%nat
    /\ (exists r,
          nth_error rows 0 = Some r
          /\ Web.cell_number r = "ABCD1234567"
          /\ Web.cell_size r = "40ft"
          /\ Web.cell_status r = "FULL")
    /\ (exists r,
          nth_error rows 1 = Some r
          /\ Web.cell_number r = "N/A"
          /\ Web.cell_size r = "20ft"
          /\ Web.cell_status r = "N/A").
Proof.
  destruct (containers_table_follows_numbers Stub3.ragged) as [_ H].
  destruct (H _ eq_refl) as (Hlen & Hrow).
  eexists. split; [reflexivity|]. split; [exact Hlen|].
  split.
  - destruct (Hrow 0%nat _ eq_refl) as (r & Hr & Hn & Hs & Hst & _).
    exists r. repeat split; assumption.
  - destruct (Hrow 1%nat _ eq_refl) as (r & Hr & Hn & Hs & Hst & _).
    exists r. repeat split; assumption.
Defined.
